(** * RAIForecastingInsights: a shallow embedding and its verified properties

    The embedded program is
    [responsibleai/rai_insights/rai_forecasting_insights.py].  Python
    exceptions are an explicit result type, the instance [self] is an
    attribute dictionary threaded through a small state-and-exception
    monad, pandas tables are row-major frames of scalars, and the objects
    the module only passes around (models, serializers, feature metadata,
    cohorts) are records.

    Scope of the data model: tables are complete (no missing cells) and a
    cell is an integer, a string or a date; floating-point columns are not
    modelled.  A Python float only arises from [float(...)] of an integer,
    and is represented by the exact value of the resulting binary64
    number. *)

From Stdlib Require Import ZArith Lia Ascii String.
From Stdlib Require SpecFloat.
From stdpp Require Import base tactics option strings list gmap orders sorting lexico pretty.

Set Warnings "-register-all".

Local Open Scope string_scope.
Local Open Scope Z_scope.

(** ** Exceptions and the result monad *)

Inductive exn :=
| UserConfigValidationException (msg : string)
| ValueError (msg : string)
| AttributeError (msg : string)
| KeyError (key : string)
| TypeError (msg : string)
| RuntimeError (msg : string).

Inductive res (A : Type) :=
| Ok (a : A)
| Raise (e : exn).
Arguments Ok {A} a.
Arguments Raise {A} e.

#[export] Instance res_ret : MRet res := @Ok.
#[export] Instance res_bind : MBind res := fun A B f r =>
  match r with
  | Ok a => f a
  | Raise e => Raise e
  end.
#[export] Instance res_fmap : FMap res := fun A B f r =>
  match r with
  | Ok a => Ok (f a)
  | Raise e => Raise e
  end.

Definition is_ok {A} (r : res A) : bool :=
  match r with Ok _ => true | Raise _ => false end.

(** [try: body except Exception: raise e] *)
Definition try_except {A} (body : res A) (e : exn) : res A :=
  match body with
  | Ok a => Ok a
  | Raise _ => Raise e
  end.

(** [for x in l: body x], stopping at the first exception. *)
Fixpoint for_each {A} (l : list A) (body : A -> res unit) : res unit :=
  match l with
  | [] => Ok tt
  | x :: l' => _ ← body x; for_each l' body
  end.

(** ** Scalars *)

Record date := Date { year : Z; month : Z; day : Z }.

Inductive scalar :=
| SInt (z : Z)
| SStr (s : string)
| STime (d : date).

#[export] Instance date_eq_dec : EqDecision date.
Proof. solve_decision. Defined.
#[export] Instance scalar_eq_dec : EqDecision scalar.
Proof. solve_decision. Defined.

(** The three kinds of values never compare with each other in Python
    ([TypeError]); within a kind the order is the usual one. *)
Inductive kind := KInt | KStr | KTime.
#[export] Instance kind_eq_dec : EqDecision kind.
Proof. solve_decision. Defined.

Definition kind_of (x : scalar) : kind :=
  match x with SInt _ => KInt | SStr _ => KStr | STime _ => KTime end.

Definition code_points (s : string) : list Z :=
  (fun a => Z.of_N (Ascii.N_of_ascii a)) <$> String.list_ascii_of_string s.

(** A sort key: the kind first (numbers, then strings, then dates, the way
    pandas sorts mixed labels), then the value. *)
Definition sort_key (x : scalar) : nat * list Z :=
  match x with
  | SInt z => (0%nat, [z])
  | SStr s => (1%nat, code_points s)
  | STime d => (2%nat, [year d; month d; day d])
  end.

Definition scalar_lt (x y : scalar) : Prop := lexico (sort_key x) (sort_key y).

(** [str(x)] *)
Definition pad2 (z : Z) : string :=
  if z <? 10 then "0" +:+ pretty z else pretty z.
Definition pad4 (z : Z) : string :=
  if z <? 10 then "000" +:+ pretty z
  else if z <? 100 then "00" +:+ pretty z
  else if z <? 1000 then "0" +:+ pretty z
  else pretty z.

Definition py_str (x : scalar) : string :=
  match x with
  | SInt z => pretty z
  | SStr s => s
  | STime d =>
      pad4 (year d) +:+ "-" +:+ pad2 (month d) +:+ "-" +:+ pad2 (day d)
      +:+ " 00:00:00"
  end.

(** ** Python floats obtained from integers

    [float(z)] rounds to the nearest binary64 number, ties to even.  The
    result is always an integer; it is represented by that integer. *)

Inductive pyfloat :=
| FNaN
| FVal (z : Z).

#[export] Instance pyfloat_eq_dec : EqDecision pyfloat.
Proof. solve_decision. Defined.

Definition round_binary64 (z : Z) : Z :=
  let n := Z.abs z in
  let bits := Z.log2 n + 1 in
  if bits <=? 53 then z
  else
    let sh := bits - 53 in
    let q := Z.shiftr n sh in
    let r := Z.land n (Z.ones sh) in
    let half := Z.shiftl 1 (sh - 1) in
    let q' := if (half <? r) || ((r =? half) && Z.odd q) then q + 1 else q in
    Z.sgn z * Z.shiftl q' sh.

Definition float_of_int (z : Z) : pyfloat := FVal (round_binary64 z).

(** The same cast by the Standard Library's specification of IEEE 754
    arithmetic, for comparison: the binary64 number nearest to [z], and the
    integer a floating-point number is equal to, if any. *)
Definition binary64_of_int (z : Z) : SpecFloat.spec_float :=
  SpecFloat.binary_normalize 53 1024 z 0 false.

Definition integer_of_binary64 (f : SpecFloat.spec_float) : option Z :=
  match f with
  | SpecFloat.S754_zero _ => Some 0
  | SpecFloat.S754_finite s m e =>
      let sign := if s then -1 else 1 in
      if 0 <=? e then Some (sign * Z.pos m * 2 ^ e)
      else if Z.pos m mod 2 ^ (- e) =? 0
           then Some (sign * (Z.pos m / 2 ^ (- e)))
           else None
  | _ => None
  end.

(** ** Tables *)

Inductive dtype := Int64 | Object | Datetime64.
#[export] Instance dtype_eq_dec : EqDecision dtype.
Proof. solve_decision. Defined.

(** A [pandas.DataFrame]: the column labels with their dtypes, the row
    labels (the index) and the rows. *)
Record DataFrame := {
  df_columns : list (string * dtype);
  df_index : list scalar;
  df_rows : list (list scalar);
}.

(** [df.columns] *)
Definition columns (df : DataFrame) : list string := fst <$> df_columns df.

(** [len(df)], [df.shape[0]] *)
Definition len (df : DataFrame) : Z := Z.of_nat (length (df_rows df)).

(** position of the first column labelled [c] *)
Fixpoint index_of (c : string) (l : list string) : option nat :=
  match l with
  | [] => None
  | x :: l' => if decide (x = c) then Some 0%nat else S <$> index_of c l'
  end.

(** the cell of a row in column [i]; rows are as long as the header in a
    well-formed frame, a short row reads as nothing *)
Definition cells_at (i : nat) (rows : list (list scalar)) : list scalar :=
  omap (fun r => r !! i) rows.

(** [df[c]]: the values of a column, [KeyError] when there is none. *)
Definition getitem (df : DataFrame) (c : string) : res (list scalar) :=
  match index_of c (columns df) with
  | Some i => Ok (cells_at i (df_rows df))
  | None => Raise (KeyError c)
  end.

(** [df.drop(columns=[c])]: every column labelled [c] goes, [KeyError] when
    there is none. *)
Definition keep_mask (c : string) (df : DataFrame) : list bool :=
  (fun x => bool_decide (x ≠ c)) <$> columns df.

Definition mask_filter {A} (mask : list bool) (l : list A) : list A :=
  snd <$> filter (fun p => fst p = true) (zip mask l).

Definition drop (df : DataFrame) (c : string) : res DataFrame :=
  if decide (c ∈ columns df) then
    Ok {| df_columns := mask_filter (keep_mask c df) (df_columns df);
          df_index := df_index df;
          df_rows := mask_filter (keep_mask c df) <$> df_rows df |}
  else Raise (KeyError ("['" +:+ c +:+ "'] not found in axis")).

(** [df[cs]] for a list of labels: the named columns in the order asked,
    [KeyError] when one is missing. *)
Definition positions (cs : list string) (df : DataFrame) : res (list nat) :=
  mapM (fun c => match index_of c (columns df) with
                 | Some i => Ok i
                 | None => Raise (KeyError c)
                 end) cs.

Definition project (ps : list nat) (row : list scalar) : list scalar :=
  omap (fun i => row !! i) ps.

Definition getitems (df : DataFrame) (cs : list string) : res DataFrame :=
  ps ← positions cs df;
  Ok {| df_columns := omap (fun i => df_columns df !! i) ps;
        df_index := df_index df;
        df_rows := project ps <$> df_rows df |}.

(** [df.iloc[0:1]] *)
Definition iloc_0_1 (df : DataFrame) : DataFrame :=
  {| df_columns := df_columns df;
     df_index := take 1 (df_index df);
     df_rows := take 1 (df_rows df) |}.

(** [df.select_dtypes(include='number').columns.tolist()] *)
Definition numeric_columns (df : DataFrame) : list string :=
  fst <$> filter (fun p => snd p = Int64) (df_columns df).

(** ** Series reductions *)

(** first-occurrence order, as [Series.unique()] *)
Fixpoint unique_from {A} `{EqDecision A} (seen : list A) (l : list A) : list A :=
  match l with
  | [] => []
  | x :: l' =>
      if decide (x ∈ seen) then unique_from seen l'
      else x :: unique_from (x :: seen) l'
  end.
Definition unique {A} `{EqDecision A} (l : list A) : list A := unique_from [] l.

Definition same_kind (l : list scalar) : bool :=
  match l with
  | [] => true
  | x :: l' => forallb (fun y => bool_decide (kind_of y = kind_of x)) l'
  end.

(** [x < y] for two values of one kind: the order of the integers, of
    strings by their characters, of dates by year, month and day *)
Definition scalar_ltb (x y : scalar) : bool := bool_decide (scalar_lt x y).

Definition scalar_min (x y : scalar) : scalar := if scalar_ltb y x then y else x.
Definition scalar_max (x y : scalar) : scalar := if scalar_ltb x y then y else x.

(** [s.min()] and [s.max()]: the value is [None] (pandas answers NaN) on an
    empty column, and comparing values of different kinds is a
    [TypeError]. *)
Definition series_reduce (f : scalar -> scalar -> scalar) (l : list scalar)
  : res (option scalar) :=
  match l with
  | [] => Ok None
  | x :: l' =>
      if same_kind l then Ok (Some (foldl f x l'))
      else Raise (TypeError "'<=' not supported between instances")
  end.
Definition series_min := series_reduce scalar_min.
Definition series_max := series_reduce scalar_max.

(** [np.unique(s)]: the distinct values, sorted, which needs comparable
    values. *)
Definition np_unique (l : list scalar) : res (list scalar) :=
  if same_kind l then Ok (merge_sort (fun x y => ~ scalar_lt y x) (unique l))
  else Raise (TypeError "'<' not supported between instances").

(** ** Plain Python data and JSON *)

(** What the module builds out of lists, dicts and scalars.  Everything
    but a timestamp is JSON-serialisable. *)
Inductive pyobj :=
| PNone
| PBool (b : bool)
| PInt (z : Z)
| PFloat (f : pyfloat)
| PStr (s : string)
| PTimestamp (d : date)
| PList (l : list pyobj)
| PDict (kv : list (string * pyobj)).

Definition to_pyobj (x : scalar) : pyobj :=
  match x with
  | SInt z => PInt z
  | SStr s => PStr s
  | STime d => PTimestamp d
  end.

(** [d[k]] and [d[k] = v] on a dict kept in insertion order *)
Fixpoint dict_get (kv : list (string * pyobj)) (k : string) : option pyobj :=
  match kv with
  | [] => None
  | (k', v) :: kv' => if decide (k' = k) then Some v else dict_get kv' k
  end.

Fixpoint dict_set (kv : list (string * pyobj)) (k : string) (v : pyobj)
  : list (string * pyobj) :=
  match kv with
  | [] => [(k, v)]
  | (k', v') :: kv' =>
      if decide (k' = k) then (k, v) :: kv' else (k', v') :: dict_set kv' k v
  end.

Fixpoint serialisable (p : pyobj) : bool :=
  match p with
  | PTimestamp _ => false
  | PList l => forallb serialisable l
  | PDict kv => forallb (fun e => serialisable (snd e)) kv
  | _ => true
  end.

(** A file holds the JSON document that was written to it.  [json.dumps]
    followed by [json.loads] gives back the lists, dicts, strings and
    numbers that went in, so the document is kept as the data itself;
    what [json.dumps] refuses is a [TypeError]. *)
Definition json_dumps (p : pyobj) : res pyobj :=
  if serialisable p then Ok p
  else Raise (TypeError "Object of type Timestamp is not JSON serializable").
Definition json_loads (doc : pyobj) : pyobj := doc.

(** A numpy array: one-dimensional, or zero-dimensional around a single
    object. *)
Inductive ndarray :=
| Arr1 (l : list pyobj)
| Arr0 (x : pyobj).

Definition tolist (a : ndarray) : pyobj :=
  match a with
  | Arr1 l => PList l
  | Arr0 x => x
  end.

(** [np.array(p)] *)
Definition np_array (p : pyobj) : ndarray :=
  match p with
  | PList l => Arr1 l
  | _ => Arr0 p
  end.

(** ** Collaborating objects *)

(** Modelled from the spec: the class [FeatureMetadata]
    ([responsibleai/feature_metadata.py] is not among the sources).  Its
    fields are the ones the spec's data model lists; every one is
    optional and a fresh [FeatureMetadata()] leaves them all [None]. *)
Module FeatureMetadata.
Record t := {
  identity_feature_name : option string;
  datetime_features : option (list string);
  time_column_name : option string;
  time_series_id_column_names : option (list string);
  categorical_features : option (list string);
  dropped_features : option (list string);
}.

Definition empty : t :=
  {| identity_feature_name := None; datetime_features := None;
     time_column_name := None; time_series_id_column_names := None;
     categorical_features := None; dropped_features := None |}.

(** [fm.time_column_name = c] *)
Definition set_time_column_name (fm : t) (c : string) : t :=
  {| identity_feature_name := identity_feature_name fm;
     datetime_features := datetime_features fm;
     time_column_name := Some c;
     time_series_id_column_names := time_series_id_column_names fm;
     categorical_features := categorical_features fm;
     dropped_features := dropped_features fm |}.

Definition declared (fm : t) : list string :=
  from_option (fun c => [c]) [] (identity_feature_name fm)
  ++ default [] (datetime_features fm)
  ++ from_option (fun c => [c]) [] (time_column_name fm)
  ++ default [] (time_series_id_column_names fm)
  ++ default [] (categorical_features fm)
  ++ default [] (dropped_features fm).

(** Modelled from the spec: "metadata's own internal validation (column
    existence for all declared roles) must pass". *)
Definition validate (fm : t) (feature_names : list string) : res unit :=
  match filter (fun c => c ∉ feature_names) (declared fm) with
  | [] => Ok tt
  | c :: _ =>
      Raise (UserConfigValidationException
               ("The given feature " +:+ c +:+ " is not present in the data."))
  end.

Definition opt_str (o : option string) : pyobj :=
  from_option PStr PNone o.
Definition opt_list (o : option (list string)) : pyobj :=
  from_option (fun l => PList (PStr <$> l)) PNone o.

(** Modelled from the spec: [to_dict], one key per field. *)
Definition to_dict (fm : t) : pyobj :=
  PDict [("identity_feature_name", opt_str (identity_feature_name fm));
         ("datetime_features", opt_list (datetime_features fm));
         ("time_column_name", opt_str (time_column_name fm));
         ("time_series_id_column_names",
           opt_list (time_series_id_column_names fm));
         ("categorical_features", opt_list (categorical_features fm));
         ("dropped_features", opt_list (dropped_features fm))].
End FeatureMetadata.

(** A forecast is a number. *)
Inductive number :=
| NInt (z : Z)
| NFloat (f : pyfloat).

Definition number_obj (n : number) : pyobj :=
  match n with
  | NInt z => PInt z
  | NFloat f => PFloat f
  end.

(** the numpy array of a sequence of forecasts *)
Definition forecasts (l : list number) : ndarray := Arr1 (number_obj <$> l).

(** A model is opaque.  A method it has is a function of the table it is
    given, answering a sequence of forecasts or raising; the call may
    leave the table changed, so a method returns the table as the call
    left it next to its result. *)
Module Model.
Definition method := DataFrame -> DataFrame * res (list number).
Record t := {
  predict : option method;
  predict_quantiles : option method;
  time_column_name : option string;
}.
End Model.

(** Modelled from the spec: [raiutils.models.is_forecaster] and
    [is_quantile_forecaster] (not among the sources).  A forecaster
    provides point predictions ([predict]); "presence of
    [predict_quantiles] determines quantile-forecaster capability". *)
Definition is_forecaster (model : option Model.t) : bool :=
  match model with
  | Some m => bool_decide (is_Some (Model.predict m))
  | None => false
  end.

Definition is_quantile_forecaster (model : option Model.t) : bool :=
  match model with
  | Some m => bool_decide (is_Some (Model.predict_quantiles m))
  | None => false
  end.

(** A Python function object is true in a condition. *)
Definition truth_of_function {A B} (f : A -> B) : bool := true.

(** A serializer, as far as validation looks at it. *)
Module Serializer.
Record t := {
  has_save : bool;
  has_load : bool;
  picklable : bool;
}.
End Serializer.

(** Modelled from the spec: [raiutils.cohort.Cohort] and [CohortFilter]
    (not among the sources): "a named group plus an ordered list of
    inclusion filters (column, allowed-value-set)". *)
Inductive CohortFilterMethods := METHOD_INCLUDES | METHOD_EXCLUDES.

Record CohortFilter := {
  method : CohortFilterMethods;
  arg : list string;
  column : string;
}.

Record Cohort := {
  name : string;
  cohort_filter_list : list CohortFilter;
}.

Definition add_cohort_filter (c : Cohort) (f : CohortFilter) : Cohort :=
  {| name := name c; cohort_filter_list := cohort_filter_list c ++ [f] |}.

(** ** The instance and the world around it *)

(** What an attribute of the instance can hold. *)
Inductive pyval :=
| VObj (p : pyobj)
| VFrame (df : DataFrame)
| VModel (m : Model.t)
| VSerializer (s : Serializer.t)
| VMetadata (fm : FeatureMetadata.t)
| VArray (a : ndarray)
| VCohorts (l : list Cohort).

Abbreviation VNone := (VObj PNone).

Inductive call :=
| CallPredict (df : DataFrame)
| CallPredictQuantiles (df : DataFrame).

(** [attrs] is [self.__dict__]; [files] maps a path to what is stored
    there (a JSON document, a table or a pickled model); [calls] records
    the model methods invoked, latest last. *)
Record world := {
  attrs : gmap string pyval;
  files : gmap string pyval;
  warnings : list string;
  calls : list call;
}.

Definition empty_world : world :=
  {| attrs := ∅; files := ∅; warnings := []; calls := [] |}.

(** A computation either returns or raises, and leaves a world behind in
    both cases. *)
Record M (A : Type) := mkM { run : world -> res A * world }.
Arguments mkM {A} run.
Arguments run {A} m w.

#[export] Instance M_ret : MRet M := fun A a => mkM (fun w => (Ok a, w)).
#[export] Instance M_bind : MBind M := fun A B f m =>
  mkM (fun w => match run m w with
                | (Ok a, w') => run (f a) w'
                | (Raise e, w') => (Raise e, w')
                end).

Definition raise {A} (e : exn) : M A := mkM (fun w => (Raise e, w)).
Definition lift {A} (r : res A) : M A := mkM (fun w => (r, w)).

(** [self.k = v] and [inst.__dict__[k] = v] *)
Definition setattr (k : string) (v : pyval) : M unit :=
  mkM (fun w => (Ok tt, {| attrs := <[k := v]> (attrs w); files := files w;
                           warnings := warnings w; calls := calls w |})).

(** [self.k] *)
Definition getattr (k : string) : M pyval :=
  mkM (fun w => match attrs w !! k with
                | Some v => (Ok v, w)
                | None =>
                    (Raise (AttributeError
                       ("'RAIForecastingInsights' object has no attribute '"
                        +:+ k +:+ "'")), w)
                end).

(** [inst.__dict__[k]] *)
Definition dict_getitem (k : string) : M pyval :=
  mkM (fun w => match attrs w !! k with
                | Some v => (Ok v, w)
                | None => (Raise (KeyError k), w)
                end).

Definition warn (msg : string) : M unit :=
  mkM (fun w => (Ok tt, {| attrs := attrs w; files := files w;
                           warnings := warnings w ++ [msg];
                           calls := calls w |})).

Definition log_call (c : call) : M unit :=
  mkM (fun w => (Ok tt, {| attrs := attrs w; files := files w;
                           warnings := warnings w;
                           calls := calls w ++ [c] |})).

Definition write_file (path : string) (doc : pyval) : M unit :=
  mkM (fun w => (Ok tt, {| attrs := attrs w;
                           files := <[path := doc]> (files w);
                           warnings := warnings w; calls := calls w |})).

Definition read_file (path : string) : M pyval :=
  mkM (fun w => match files w !! path with
                | Some doc => (Ok doc, w)
                | None =>
                    (Raise (RuntimeError
                       ("No such file or directory: '" +:+ path +:+ "'")), w)
                end).

(** [try: body except Exception: raise e] *)
Definition try_exceptM {A} (body : M A) (e : exn) : M A :=
  mkM (fun w => match run body w with
                | (Ok a, w') => (Ok a, w')
                | (Raise _, w') => (Raise e, w')
                end).

(** Reading a value as what the code then uses it as.  Using [None] or a
    value of another type that way is an [AttributeError] or a
    [TypeError] in Python. *)
Definition truthy (v : pyval) : bool :=
  match v with
  | VObj PNone | VObj (PBool false) | VObj (PInt 0) | VObj (PStr "")
  | VObj (PList []) | VObj (PDict []) => false
  | _ => true
  end.

Definition expect_frame (v : pyval) : res DataFrame :=
  match v with
  | VFrame df => Ok df
  | _ => Raise (AttributeError "object is not a DataFrame")
  end.

Definition expect_metadata (v : pyval) : res FeatureMetadata.t :=
  match v with
  | VMetadata fm => Ok fm
  | _ => Raise (AttributeError "object is not a FeatureMetadata")
  end.

Definition expect_str (v : pyval) : res string :=
  match v with
  | VObj (PStr s) => Ok s
  | _ => Raise (TypeError "object is not a str")
  end.

(** [self.model], which is a model or [None] *)
Definition expect_model (v : pyval) : res (option Model.t) :=
  match v with
  | VModel m => Ok (Some m)
  | VObj PNone => Ok None
  | _ => Raise (TypeError "object is not a model")
  end.

Definition model_val (model : option Model.t) : pyval :=
  match model with Some m => VModel m | None => VNone end.

Definition str_list (l : list string) : pyobj := PList (PStr <$> l).

(** [model.predict(df)]: [None] and a model without the method give an
    [AttributeError]; a call is recorded.  The answer is the table as the
    call left it and the method's result. *)
Definition call_predict (model : option Model.t) (df : DataFrame)
  : M (DataFrame * res ndarray) :=
  match model with
  | None => raise (AttributeError "'NoneType' object has no attribute 'predict'")
  | Some m =>
      match Model.predict m with
      | Some f =>
          _ ← log_call (CallPredict df);
          mret (fst (f df), forecasts <$> snd (f df))
      | None => raise (AttributeError "model has no attribute 'predict'")
      end
  end.

Definition call_predict_quantiles (model : option Model.t) (df : DataFrame)
  : M (DataFrame * res ndarray) :=
  match model with
  | None =>
      raise (AttributeError
               "'NoneType' object has no attribute 'predict_quantiles'")
  | Some m =>
      match Model.predict_quantiles m with
      | Some f =>
          _ ← log_call (CallPredictQuantiles df);
          mret (fst (f df), forecasts <$> snd (f df))
      | None =>
          raise (AttributeError "model has no attribute 'predict_quantiles'")
      end
  end.

(** ** String helpers *)

(** [sep.join(l)] *)
Fixpoint join (sep : string) (l : list string) : string :=
  match l with
  | [] => ""
  | [x] => x
  | x :: l' => x +:+ sep +:+ join sep l'
  end.

Definition repr_str (s : string) : string := "'" +:+ s +:+ "'".
Definition repr_list (l : list string) : string :=
  "[" +:+ join ", " (repr_str <$> l) +:+ "]".
(** Python prints a set in an order of its own; the elements are shown
    here in the order they are kept. *)
Definition repr_set (l : list string) : string :=
  "{" +:+ join ", " (repr_str <$> l) +:+ "}".

(** the characters of a string, each a string of length one *)
Fixpoint chars (s : string) : list string :=
  match s with
  | EmptyString => []
  | String a s' => String a EmptyString :: chars s'
  end.

(** ** Input validation *)

(** [Forecasting.PREDICT], a constant of [raiutils.models]. *)
Definition Forecasting_PREDICT : string := "predict".

Definition _validate_features_same
    (small_train_features_before : list string)
    (small_train_data : DataFrame) (function : string) : M unit :=
  let small_train_features_after := columns small_train_data in
  if decide (small_train_features_before ≠ small_train_features_after) then
    raise (UserConfigValidationException
             ("Calling model " +:+ function +:+ " function modifies "
              +:+ "input dataset features. Please check if "
              +:+ "predict function is defined correctly."))
  else mret tt.

(** [getattr(model, "time_column_name", None)] *)
Definition model_time_column_name (model : option Model.t) : option string :=
  model ≫= Model.time_column_name.

(** The metadata object is mutable: the function returns it as the call
    left it. *)
Definition _ensure_time_column_available
    (feature_metadata : FeatureMetadata.t) (feature_names : list string)
    (model : option Model.t) : M FeatureMetadata.t :=
  let fm_time_column := FeatureMetadata.time_column_name feature_metadata in
  let model_time_column := model_time_column_name model in
  match model_time_column with
  | None =>
      match fm_time_column with
      | Some _ => mret feature_metadata
      | None =>
          raise (UserConfigValidationException
                   ("There was no time column name in feature metadata. "
                    +:+ "A time column is required for forecasting."))
      end
  | Some model_time_column =>
      match fm_time_column with
      | None =>
          if decide (model_time_column ∈ feature_names) then
            let feature_metadata :=
              FeatureMetadata.set_time_column_name feature_metadata
                model_time_column in
            _ ← setattr "_feature_metadata" (VMetadata feature_metadata);
            mret feature_metadata
          else
            raise (UserConfigValidationException
                     ("The provided model expects a time column named "
                      +:+ model_time_column +:+ " that is not present in the "
                      +:+ "provided dataset."))
      | Some fm_time_column =>
          if decide (fm_time_column ≠ model_time_column) then
            raise (UserConfigValidationException
                     ("The provided time column name " +:+ fm_time_column
                      +:+ " does not match the model's expected time column "
                      +:+ "name " +:+ model_time_column +:+ "."))
          else mret feature_metadata
      end
  end.

Definition test_too_large_message (rows limit : Z) : string :=
  "The test data has " +:+ pretty rows +:+ " rows, "
  +:+ "but limit is set to " +:+ pretty limit +:+ " rows. "
  +:+ "Please resample the test data or "
  +:+ "adjust maximum_rows_for_test".

(** the checks on the declared categorical features, lines 245 to 273 *)
Definition check_categorical_features
    (train test : DataFrame) (target_column : string)
    (categorical_features : list string) : res unit :=
  if decide (target_column ∈ categorical_features) then
    Raise (UserConfigValidationException
             ("Found target name " +:+ target_column +:+ " in "
              +:+ "categorical feature list"))
  else
    train_x ← drop train target_column;
    let difference_set :=
      remove_dups (list_difference categorical_features (columns train_x)) in
    if decide (difference_set ≠ []) then
      Raise (UserConfigValidationException
               ("Feature names in categorical_features "
                +:+ "do not exist in train data: "
                +:+ repr_list difference_set))
    else
      for_each categorical_features (fun column =>
        _ ← try_except (getitem train column ≫= np_unique)
              (UserConfigValidationException
                 ("Error finding unique values in column " +:+ column +:+ ". "
                  +:+ "Please check your train data."));
        _ ← try_except (getitem test column ≫= np_unique)
              (UserConfigValidationException
                 ("Error finding unique values in column " +:+ column +:+ ". "
                  +:+ "Please check your test data."));
        Ok tt).

(** [_validate_rai_insights_input_parameters], in the order of the
    source; each block is named after the lines it embeds. *)

(** lines 188 to 211 *)
Definition validate_model_and_serializer
    (model : option Model.t) (serializer : option Serializer.t) : M unit :=
  _ ← match model with
      | None =>
          _ ← warn ("INVALID-MODEL-WARNING: No valid model is supplied. "
                    +:+ "The explanations, error analysis and counterfactuals "
                    +:+ "may not work");
          if decide (serializer ≠ None) then
            raise (UserConfigValidationException
                     ("No valid model is specified but model "
                      +:+ "serializer provided."))
          else mret tt
      | Some _ => mret tt
      end;
  match serializer with
  | Some s =>
      if negb (Serializer.has_save s) then
        raise (UserConfigValidationException
                 "The serializer does not implement save()")
      else if negb (Serializer.has_load s) then
        raise (UserConfigValidationException
                 "The serializer does not implement load()")
      else if negb (Serializer.picklable s) then
        raise (UserConfigValidationException
                 "The serializer should be serializable via pickle")
      else mret tt
  | None => mret tt
  end.

(** lines 214 to 228 *)
Definition validate_sizes
    (train test : DataFrame) (maximum_rows_for_test : Z) : M unit :=
  _ ← (if (len train <=? 0) || (len test <=? 0) then
         raise (UserConfigValidationException
                  ("Either of the train/test are empty. "
                   +:+ "Please provide non-empty dataframes for train "
                   +:+ "and test sets."))
       else mret tt);
  if maximum_rows_for_test <? len test then
    raise (UserConfigValidationException
             (test_too_large_message (len test) maximum_rows_for_test))
  else mret tt.

(** lines 230 to 240 *)
Definition validate_columns
    (train test : DataFrame) (target_column : string) : M unit :=
  _ ← (if bool_decide (list_difference (columns train) (columns test) ≠ [])
          || bool_decide (list_difference (columns test) (columns train) ≠ [])
       then
         is_true_y_present ← getattr "_is_true_y_present";
         if truthy is_true_y_present then
           raise (UserConfigValidationException
                    "The features in train and test data do not match")
         else mret tt
       else mret tt);
  if decide (target_column ∉ columns train) then
    raise (UserConfigValidationException
             ("Target name " +:+ target_column
              +:+ " not present in train data"))
  else mret tt.

(** lines 242 to 286 *)
Definition validate_feature_types
    (train test : DataFrame) (target_column : string)
    (feature_metadata : option FeatureMetadata.t) : M unit :=
  categorical_features ←
    match feature_metadata with
    | Some fm => mret (FeatureMetadata.categorical_features fm)
    | None =>
        raise (AttributeError
                 "'NoneType' object has no attribute 'categorical_features'")
    end;
  _ ← match categorical_features with
      | Some l =>
          if 0 <? Z.of_nat (length l) then
            lift (check_categorical_features train test target_column l)
          else mret tt
      | None => mret tt
      end;
  train_x ← lift (drop train target_column);
  let train_features := columns train_x in
  let numeric_features := numeric_columns train_x in
  let string_features_set :=
    remove_dups (list_difference train_features numeric_features) in
  string_features_set ←
    match feature_metadata ≫= FeatureMetadata.time_column_name with
    | Some time_column =>
        if decide (time_column ∈ string_features_set) then
          mret (filter (fun c => c ≠ time_column) string_features_set)
        else raise (KeyError time_column)
    | None => mret string_features_set
    end;
  match categorical_features with
  | None => raise (TypeError "'NoneType' object is not iterable")
  | Some l =>
      if 0 <? Z.of_nat (length (list_difference string_features_set l)) then
        raise (UserConfigValidationException
                 ("The following string features were not "
                  +:+ "identified as categorical features: "
                  +:+ repr_set (list_difference string_features_set l)))
      else mret tt
  end.

(** lines 288 to 308 *)
Definition validate_model_predict
    (model : option Model.t) (test : DataFrame) (target_column : string)
  : M unit :=
  match model with
  | Some _ =>
      is_true_y_present ← getattr "_is_true_y_present";
      small_test_data ←
        (if truthy is_true_y_present then
           lift (drop (iloc_0_1 test) target_column)
         else mret (iloc_0_1 test));
      let small_test_features_before := columns small_test_data in
      small_test_data ←
        try_exceptM
          (r ← call_predict model small_test_data;
           _ ← lift (snd r);
           mret (fst r))
          (UserConfigValidationException
             ("The model passed cannot be used for"
              +:+ " getting predictions via predict()"));
      _validate_features_same small_test_features_before
        small_test_data Forecasting_PREDICT
  | None => mret tt
  end.

(** lines 315 to 324 *)
Definition validate_feature_metadata
    (model : option Model.t) (train : DataFrame)
    (feature_metadata : option FeatureMetadata.t) : M unit :=
  match feature_metadata with
  | Some fm =>
      (* fm is a FeatureMetadata by its type: "Expecting type
         FeatureMetadata" cannot be reached *)
      let feature_names := columns train in
      fm ← _ensure_time_column_available fm feature_names model;
      lift (FeatureMetadata.validate fm feature_names)
  | None => mret tt
  end.

(** [train] and [test] are DataFrames by their type, so the [else] of the
    isinstance test at line 213 ("Unsupported data type") cannot be
    reached. *)
Definition _validate_rai_insights_input_parameters
    (model : option Model.t) (train test : DataFrame) (target_column : string)
    (serializer : option Serializer.t) (maximum_rows_for_test : Z)
    (feature_metadata : option FeatureMetadata.t) : M unit :=
  _ ← validate_model_and_serializer model serializer;
  _ ← validate_sizes train test maximum_rows_for_test;
  _ ← validate_columns train test target_column;
  _ ← validate_feature_types train test target_column feature_metadata;
  _ ← validate_model_predict model test target_column;
  validate_feature_metadata model train feature_metadata.

(** ** Feature ranges *)

Definition _COLUMN_NAME := "column_name".
Definition _RANGE_TYPE := "range_type".
Definition _UNIQUE_VALUES := "unique_values".
Definition _MIN_VALUE := "min_value".
Definition _MAX_VALUE := "max_value".

(** the result of [min()] or [max()] as a Python value: NaN on an empty
    column *)
Definition reduced_value (x : option scalar) : pyobj :=
  match x with
  | Some v => to_pyobj v
  | None => PFloat FNaN
  end.

Section Insights.

(** [float(s)] of a string follows Python's grammar of float literals,
    which is left open: [float_of_str s] is [None] where [float(s)]
    raises [ValueError]. *)
Variable float_of_str : string -> option pyfloat.

(** [erroranalysis.process_categoricals], an external collaborator whose
    four results are opaque to this module. *)
Variable process_categoricals :
  list string -> list string -> DataFrame -> res (pyobj * pyobj * pyobj * pyobj).

(** [float(x)] *)
Definition py_float (x : option scalar) : res pyfloat :=
  match x with
  | None => Ok FNaN
  | Some (SInt z) => Ok (float_of_int z)
  | Some (SStr s) =>
      match float_of_str s with
      | Some f => Ok f
      | None =>
          Raise (ValueError ("could not convert string to float: "
                             +:+ repr_str s))
      end
  | Some (STime _) =>
      Raise (TypeError ("float() argument must be a string or a real "
                        +:+ "number, not 'Timestamp'"))
  end.

(** the body of the loop of [_get_feature_ranges] *)
Definition feature_range
    (test : DataFrame) (categorical_features : list string)
    (time_column_name : option string) (col : string) : res pyobj :=
  let res_object := dict_set [] _COLUMN_NAME (PStr col) in
  if decide (col ∈ categorical_features) then
    values ← getitem test col;
    let unique_value := unique values in
    let res_object := dict_set res_object _RANGE_TYPE (PStr "categorical") in
    let res_object :=
      dict_set res_object _UNIQUE_VALUES (PList (to_pyobj <$> unique_value)) in
    Ok (PDict res_object)
  else if decide (Some col = time_column_name) then
    let res_object := dict_set res_object _RANGE_TYPE (PStr "datetime") in
    values ← getitem test col;
    lo ← series_min values;
    let res_object := dict_set res_object _MIN_VALUE (reduced_value lo) in
    hi ← series_max values;
    let res_object := dict_set res_object _MAX_VALUE (reduced_value hi) in
    Ok (PDict res_object)
  else
    values ← getitem test col;
    lo ← series_min values;
    min_value ← py_float lo;
    hi ← series_max values;
    max_value ← py_float hi;
    let res_object := dict_set res_object _RANGE_TYPE (PStr "integer") in
    let res_object := dict_set res_object _MIN_VALUE (PFloat min_value) in
    let res_object := dict_set res_object _MAX_VALUE (PFloat max_value) in
    Ok (PDict res_object).

Definition _get_feature_ranges
    (test : DataFrame) (categorical_features : list string)
    (feature_columns : list string) (time_column_name : option string)
  : res (list pyobj) :=
  mapM (feature_range test categorical_features time_column_name)
    feature_columns.

(** ** Time-series cohorts *)

(** how often a combination occurs among the rows *)
Definition count_of (c : list scalar) (rows : list (list scalar)) : nat :=
  length (filter (fun r => r = c) rows).

Definition combo_key (c : list scalar) : list (nat * list Z) := sort_key <$> c.

(** [c1] comes no later than [c2] in [value_counts()]: more frequent
    first, and among equally frequent combinations the smaller first. *)
Definition counts_before (rows : list (list scalar)) (c1 c2 : list scalar) : Prop :=
  (count_of c2 rows < count_of c1 rows)%nat
  ∨ (count_of c1 rows = count_of c2 rows
     ∧ ¬ lexico (combo_key c2) (combo_key c1)).

#[export] Instance counts_before_dec rows c1 c2 : Decision (counts_before rows c1 c2).
Proof. unfold counts_before. apply _. Defined.

(** [df.value_counts().index]: the distinct rows, ordered as the spec
    says ("descending combination frequency, ties broken by combination's
    natural sort order").  pandas refuses a frame without columns. *)
Definition value_counts_index (df : DataFrame) : res (list (list scalar)) :=
  if decide (df_columns df = []) then Raise (ValueError "No group keys passed!")
  else Ok (merge_sort (counts_before (df_rows df)) (unique (df_rows df))).

(** the body of the outer loop of [_generate_time_series_cohorts] *)
Definition time_series_cohort
    (time_series_id_column_names : list string)
    (time_series_id_values : list scalar) : Cohort :=
  let column_value_combinations :=
    zip time_series_id_column_names (py_str <$> time_series_id_values) in
  let '(id_columns_name_value_mapping, filters) :=
    foldl (fun (acc : list string * list CohortFilter) (cv : string * string) =>
             (* [list += str] appends the characters of the string *)
             ((fst acc ++ chars (fst cv +:+ " = " +:+ snd cv))%list,
              (snd acc ++ [{| method := METHOD_INCLUDES;
                              arg := [snd cv];
                              column := fst cv |}])%list))
          ([], []) column_value_combinations in
  let time_series :=
    {| name := join ", " id_columns_name_value_mapping;
       cohort_filter_list := [] |} in
  foldl add_cohort_filter time_series filters.

(** the function of the table and the id columns that
    [_generate_time_series_cohorts] computes *)
Definition time_series_cohorts
    (test : DataFrame) (time_series_id_column_names : option (list string))
  : res (list Cohort) :=
  match time_series_id_column_names with
  | None => Raise (KeyError "None")
  | Some ids =>
      selected ← getitems test ids;
      all_time_series ← value_counts_index selected;
      Ok (time_series_cohort ids <$> (all_time_series : list (list scalar)))
  end.

Definition _generate_time_series_cohorts : M (list Cohort) :=
  test ← getattr "test";
  test ← lift (expect_frame test);
  fm ← getattr "_feature_metadata";
  fm ← lift (expect_metadata fm);
  lift (time_series_cohorts test
          (FeatureMetadata.time_series_id_column_names fm)).

(** ** The constructor *)

Definition _check_true_y_present (target_column : string) (test : DataFrame) : bool :=
  bool_decide (target_column ∈ columns test).

(** [self._managers = []] *)
Definition _initialize_managers : M unit :=
  setattr "_managers" (VObj (PList [])).

(** Modelled from the spec: the constructor of the base class
    [RAIBaseInsights] (not among the sources).  It keeps what it is
    given under the attribute names this module reads ([self.model],
    [self.test], [self.target_column], ...) and initialises the
    managers. *)
Definition RAIBaseInsights_init
    (model : option Model.t) (train test : DataFrame) (target_column : string)
    (task_type : pyval) (serializer : option Serializer.t) : M unit :=
  _ ← setattr "model" (model_val model);
  _ ← setattr "train" (VFrame train);
  _ ← setattr "test" (VFrame test);
  _ ← setattr "target_column" (VObj (PStr target_column));
  _ ← setattr "task_type" task_type;
  _ ← setattr "_serializer" (from_option VSerializer VNone serializer);
  _initialize_managers.

(** A model's method may change the table it is given.  The table is
    [self._test_without_true_y], which is [self.test] itself when the
    test set carries no target column. *)
Definition store_table (df : DataFrame) : M unit :=
  _ ← setattr "_test_without_true_y" (VFrame df);
  is_true_y_present ← getattr "_is_true_y_present";
  if truthy is_true_y_present then mret tt else setattr "test" (VFrame df).

(** lines 124 to 135 of [__init__]: the predictions are cached *)
Definition cache_predictions (model : option Model.t) : M unit :=
  if is_forecaster model then
    dataset ← getattr "_test_without_true_y";
    dataset ← lift (expect_frame dataset);
    r ← call_predict model dataset;
    _ ← store_table (fst r);
    predict_output ← lift (snd r);
    _ ← setattr "predict_output" (VArray predict_output);
    (* the condition is the function itself, not a call of it *)
    if truth_of_function is_quantile_forecaster then
      dataset ← getattr "_test_without_true_y";
      dataset ← lift (expect_frame dataset);
      r ← call_predict_quantiles model dataset;
      _ ← store_table (fst r);
      quantile_predict_output ← lift (snd r);
      setattr "quantile_predict_output" (VArray quantile_predict_output)
    else setattr "quantile_predict_output" VNone
  else
    _ ← setattr "predict_output" VNone;
    setattr "quantile_predict_output" VNone.

Definition __init__
    (model : option Model.t) (train test : DataFrame) (target_column : string)
    (serializer : option Serializer.t) (maximum_rows_for_test : Z)
    (feature_metadata : option FeatureMetadata.t) : M unit :=
  _ ← setattr "_is_true_y_present"
        (VObj (PBool (_check_true_y_present target_column test)));
  (* [feature_metadata or FeatureMetadata()] *)
  _ ← setattr "_feature_metadata"
        (VMetadata (default FeatureMetadata.empty feature_metadata));
  _ ← setattr "task_type" (VObj (PStr "forecasting"));
  _ ← _validate_rai_insights_input_parameters model train test target_column
        serializer maximum_rows_for_test feature_metadata;
  _ ← setattr "_classes" VNone;
  is_true_y_present ← getattr "_is_true_y_present";
  test_without_true_y ←
    (if negb (truthy is_true_y_present) then mret test
     else lift (drop test target_column));
  _ ← setattr "_test_without_true_y" (VFrame test_without_true_y);
  let feature_columns := columns test_without_true_y in
  _ ← setattr "_feature_columns" (VObj (str_list feature_columns));
  fm ← getattr "_feature_metadata";
  fm ← lift (expect_metadata fm);
  feature_ranges ←
    lift (_get_feature_ranges test
            (default [] (FeatureMetadata.categorical_features fm))
            feature_columns (FeatureMetadata.time_column_name fm));
  _ ← setattr "_feature_ranges" (VObj (PList feature_ranges));
  cats ← lift (process_categoricals feature_columns
                 (default [] (FeatureMetadata.categorical_features fm))
                 test_without_true_y);
  _ ← setattr "_categories" (VObj (cats.1.1.1));
  _ ← setattr "_categorical_indexes" (VObj (cats.1.1.2));
  _ ← setattr "_category_dictionary" (VObj (cats.1.2));
  _ ← setattr "_string_ind_data" (VObj (cats.2));
  task_type ← getattr "task_type";
  _ ← RAIBaseInsights_init model train test target_column task_type serializer;
  _ ← cache_predictions model;
  time_series ← _generate_time_series_cohorts;
  setattr "_time_series" (VCohorts time_series).

(** ** The dashboard payload *)

(** [s.split(sep)] for a one-character separator *)
Fixpoint split_on (sep : ascii) (s : string) : list string :=
  match s with
  | EmptyString => [EmptyString]
  | String a s' =>
      if decide (a = sep) then EmptyString :: split_on sep s'
      else match split_on sep s' with
           | [] => [String a EmptyString]
           | x :: l => String a x :: l
           end
  end.

Definition digit_value (a : ascii) : option Z :=
  let n := Z.of_N (Ascii.N_of_ascii a) in
  if (48 <=? n) && (n <=? 57) then Some (n - 48) else None.

(** the number written by a non-empty string of decimal digits *)
Fixpoint digits_value_from (acc : Z) (s : string) : option Z :=
  match s with
  | EmptyString => Some acc
  | String a s' => d ← digit_value a; digits_value_from (10 * acc + d) s'
  end.
Definition digits_value (s : string) : option Z :=
  match s with
  | EmptyString => None
  | _ => digits_value_from 0 s
  end.

Definition is_leap (y : Z) : bool :=
  ((y mod 4 =? 0) && negb (y mod 100 =? 0)) || (y mod 400 =? 0).

Definition days_in_month (y m : Z) : Z :=
  if m =? 2 then (if is_leap y then 29 else 28)
  else if (m =? 4) || (m =? 6) || (m =? 9) || (m =? 11) then 30
  else 31.

(** a date written as ["%Y-%m-%d"]: four digits, then one or two for the
    month and for the day *)
Definition strptime_ymd (s : string) : option date :=
  match split_on "-"%char s with
  | [ys; ms; ds] =>
      y ← digits_value ys;
      m ← digits_value ms;
      d ← digits_value ds;
      if bool_decide (String.length ys = 4%nat)
         && bool_decide (String.length ms ≤ 2)%nat
         && bool_decide (String.length ds ≤ 2)%nat
         && (1 <=? m) && (m <=? 12) && (1 <=? d) && (d <=? days_in_month y m)
      then Some (Date y m d) else None
  | _ => None
  end.

(** [pd.to_datetime(index, yearfirst=True, format="%Y-%m-%d")]: dates pass,
    anything else is written out and parsed; a label that does not parse
    is a [ValueError] (the nanosecond range of a Timestamp is not
    modelled). *)
Definition to_datetime_label (x : scalar) : res date :=
  match x with
  | STime d => Ok d
  | _ =>
      match strptime_ymd (py_str x) with
      | Some d => Ok d
      | None =>
          Raise (ValueError ("time data '" +:+ py_str x
                             +:+ "' does not match format '%Y-%m-%d'"))
      end
  end.
Definition to_datetime (labels : list scalar) : res (list date) :=
  mapM to_datetime_label labels.

(** [try: body except AttributeError: raise e] *)
Definition except_attribute_error {A} (body : res A) (e : exn) : res A :=
  match body with
  | Raise (AttributeError _) => Raise e
  | r => r
  end.

(** Modelled from the spec: [raiutils.data_processing.convert_to_list]
    (not among the sources) on a table: "feature rows". *)
Definition rows_to_list (df : DataFrame) : pyobj :=
  PList ((fun r => PList (to_pyobj <$> r)) <$> df_rows df).

(** [np.shape] of a list of rows; a list without rows has one dimension
    only, and unpacking its shape into two names fails. *)
Definition shape2 (df : DataFrame) : res (Z * Z) :=
  match df_rows df with
  | [] => Raise (ValueError "not enough values to unpack (expected 2, got 1)")
  | r :: _ => Ok (len df, Z.of_nat (length r))
  end.

(** [len(x)] of an array *)
Definition array_len (a : ndarray) : res Z :=
  match a with
  | Arr1 l => Ok (Z.of_nat (length l))
  | Arr0 _ => Raise (TypeError "len() of unsized object")
  end.

(** The payload is an attribute bag ([responsibleai._interfaces.Dataset]):
    an attribute exists once it has been assigned. *)
Definition _get_dataset : M (gmap string pyval) :=
  let dashboard_dataset : gmap string pyval := ∅ in
  task_type ← getattr "task_type";
  let dashboard_dataset := <["task_type" := task_type]> dashboard_dataset in
  fm ← getattr "_feature_metadata";
  fm ← lift (expect_metadata fm);
  let dashboard_dataset :=
    <["categorical_features" :=
        VObj (str_list (default [] (FeatureMetadata.categorical_features fm)))]>
      dashboard_dataset in
  is_true_y_present ← getattr "_is_true_y_present";
  let dashboard_dataset :=
    <["is_forecasting_true_y" := is_true_y_present]> dashboard_dataset in
  classes ← getattr "_classes";
  let dashboard_dataset := <["class_names" := classes]> dashboard_dataset in
  let dashboard_dataset :=
    <["feature_metadata" := VObj (FeatureMetadata.to_dict fm)]>
      dashboard_dataset in
  dataset ← getattr "_test_without_true_y";
  dataset ← lift (expect_frame dataset);
  _ ← setattr "_dataframeColumns" (VObj (str_list (columns dataset)));
  let list_dataset := rows_to_list dataset in
  model ← getattr "model";
  model ← lift (expect_model model);
  predicted ←
    match model with
    | None => mret (dataset, None)
    | Some _ =>
        r ← try_exceptM (r ← call_predict model dataset;
                         predicted_y ← lift (snd r);
                         mret (fst r, predicted_y))
              (ValueError "Model does not support predict method for given");
        _ ← store_table (fst r);
        mret (fst r, Some (snd r))
    end;
  let dataset := fst predicted in
  let predicted_y := snd predicted in
  let dashboard_dataset :=
    match predicted_y with
    | Some y => <["predicted_y" := VObj (tolist y)]> dashboard_dataset
    | None => dashboard_dataset
    end in
  shape ← lift (shape2 dataset);
  let row_length := fst shape in
  let feature_length := snd shape in
  _ ← (if 100000 <? row_length then
         raise (ValueError ("Exceeds maximum number of rows"
                            +:+ "for visualization (100000)"))
       else mret tt);
  _ ← (if 1000 <? feature_length then
         raise (ValueError ("Exceeds maximum number of features for"
                            +:+ " visualization (1000). Please regenerate the"
                            +:+ " explanation using fewer features or"
                            +:+ " initialize the dashboard without passing a"
                            +:+ " dataset."))
       else mret tt);
  let dashboard_dataset :=
    <["features" := VObj list_dataset]> dashboard_dataset in
  test ← getattr "test";
  test ← lift (expect_frame test);
  index ← lift (except_attribute_error (to_datetime (df_index test))
                  (ValueError
                     "No time_column_name was provided via feature_metadata."));
  let dashboard_dataset :=
    <["index" := VObj (PList (PTimestamp <$> index))]> dashboard_dataset in
  true_y ←
    (if negb (truthy is_true_y_present) then
       match predicted_y with
       | Some y => n ← lift (array_len y); mret (Some (tolist y, n))
       | None => mret None
       end
     else
       target_column ← getattr "target_column";
       target_column ← lift (expect_str target_column);
       values ← lift (getitem test target_column);
       mret (Some (PList (to_pyobj <$> values), Z.of_nat (length values))));
  let dashboard_dataset :=
    match true_y with
    | Some (y, n) =>
        if n =? row_length then <["true_y" := VObj y]> dashboard_dataset
        else dashboard_dataset
    | None => dashboard_dataset
    end in
  let features := columns dataset in
  _ ← (if negb (Z.of_nat (length features) =? feature_length) then
         raise (ValueError ("Feature vector length mismatch:"
                            +:+ " feature names length differs"
                            +:+ " from local explanations dimension"))
       else mret tt);
  let dashboard_dataset :=
    <["feature_names" := VObj (str_list features)]> dashboard_dataset in
  target_column ← getattr "target_column";
  let dashboard_dataset :=
    <["target_column" := target_column]> dashboard_dataset in
  if is_quantile_forecaster model then
    r ← try_exceptM (r ← call_predict_quantiles model dataset;
                     pred_quantiles ← lift (snd r);
                     mret (fst r, pred_quantiles))
          (ValueError ("Model does not support predict_quantiles method"
                       +:+ " for given dataset type."));
    _ ← store_table (fst r);
    mret (<["pred_quantiles" := VObj (tolist (snd r))]> dashboard_dataset)
  else mret dashboard_dataset.

(** [get_data().dataset] *)
Definition get_data : M (gmap string pyval) := _get_dataset.

(** ** Persistence *)

Definition _PREDICTIONS := "predictions".
Definition _TRAIN := "train".
Definition _TEST := "test".
Definition _TARGET_COLUMN := "target_column".
Definition _TASK_TYPE := "task_type".
Definition _CLASSES := "classes".
Definition _FEATURE_COLUMNS := "feature_columns".
Definition _FEATURE_METADATA := "feature_metadata".
Definition _FEATURE_RANGES := "feature_ranges".
Definition _CATEGORICAL_FEATURES := "categorical_features".
Definition _CATEGORIES := "categories".
Definition _CATEGORY_DICTIONARY := "category_dictionary".
Definition _CATEGORICAL_INDEXES := "categorical_indexes".
Definition _STRING_IND_DATA := "string_ind_data".
(** [Metadata.META_JSON]; the spec names the file: "a [meta.json] file". *)
Definition _META_JSON := "meta.json".
Definition _TRAIN_LABELS := "train_labels".
Definition _JSON_EXTENSION := ".json".
Definition _PREDICT := "predict".
Definition _PREDICT_PROBA := "predict_proba".
Definition _PREDICT_OUTPUT := "predict_output".
Definition _PREDICT_PROBA_OUTPUT := "predict_proba_output".
Definition _MODEL := "model".

(** [Path(a) / b] *)
Definition path_join (a b : string) : string := a +:+ "/" +:+ b.

Definition is_none (v : pyval) : bool :=
  match v with VObj PNone => true | _ => false end.

(** [v.tolist()] *)
Definition call_tolist (v : pyval) : res pyobj :=
  match v with
  | VArray a => Ok (tolist a)
  | VObj PNone =>
      Raise (AttributeError "'NoneType' object has no attribute 'tolist'")
  | _ => Raise (AttributeError "object has no attribute 'tolist'")
  end.

(** a value inside a document handed to [json.dump] *)
Definition plain (v : pyval) : res pyobj :=
  match v with
  | VObj p => Ok p
  | _ => Raise (TypeError "Object is not JSON serializable")
  end.

Definition _save_predictions (path : string) : M unit :=
  let prediction_output_path := path_join path _PREDICTIONS in
  (* mkdir(parents=True, exist_ok=True): directories are implicit in the
     map of files *)
  model ← getattr "model";
  if is_none model then mret tt
  else
    predict_output ← getattr "predict_output";
    values ← lift (call_tolist predict_output);
    doc ← lift (json_dumps values);
    _ ← write_file
          (path_join prediction_output_path (_PREDICT +:+ _JSON_EXTENSION))
          (VObj doc);
    predict_proba_output ← getattr "predict_proba_output";
    if negb (is_none predict_proba_output) then
      values ← lift (call_tolist predict_proba_output);
      doc ← lift (json_dumps values);
      write_file
        (path_join prediction_output_path (_PREDICT_PROBA +:+ _JSON_EXTENSION))
        (VObj doc)
    else mret tt.

Definition _save_metadata (path : string) : M unit :=
  let top_dir := path in
  classes ← getattr "_classes";
  fm ← getattr "_feature_metadata";
  feature_metadata_dict ←
    (if negb (is_none fm) then
       fm ← lift (expect_metadata fm); mret (VObj (FeatureMetadata.to_dict fm))
     else mret VNone);
  target_column ← getattr "target_column";
  task_type ← getattr "task_type";
  feature_columns ← getattr "_feature_columns";
  feature_ranges ← getattr "_feature_ranges";
  let meta := [(_TARGET_COLUMN, target_column);
               (_TASK_TYPE, task_type);
               (_CLASSES, classes);
               (_FEATURE_COLUMNS, feature_columns);
               (_FEATURE_RANGES, feature_ranges);
               (_FEATURE_METADATA, feature_metadata_dict)] in
  entries ← lift (mapM (fun e => v ← plain (snd e); Ok (fst e, v)) meta);
  doc ← lift (json_dumps (PDict entries));
  write_file (path_join top_dir _META_JSON) (VObj doc).

(** [meta[k]] *)
Definition meta_get (meta : pyobj) (k : string) : res pyobj :=
  match meta with
  | PDict kv =>
      match dict_get kv k with
      | Some v => Ok v
      | None => Raise (KeyError k)
      end
  | _ => Raise (TypeError "object is not subscriptable")
  end.

(** [k in meta] *)
Definition meta_has (meta : pyobj) (k : string) : bool :=
  match meta with
  | PDict kv => bool_decide (is_Some (dict_get kv k))
  | _ => false
  end.

(** JSON values as the arguments of [FeatureMetadata(...)], which refuses
    what is not a name or a list of names *)
Definition as_opt_str (p : pyobj) : res (option string) :=
  match p with
  | PNone => Ok None
  | PStr s => Ok (Some s)
  | _ => Raise (UserConfigValidationException "expected a feature name")
  end.

Definition as_str_list (p : pyobj) : res (list string) :=
  match p with
  | PList l =>
      mapM (fun x => match x with
                     | PStr s => Ok s
                     | _ => Raise (UserConfigValidationException
                                     "expected a list of feature names")
                     end) l
  | _ => Raise (UserConfigValidationException
                  "expected a list of feature names")
  end.

Definition as_opt_str_list (p : pyobj) : res (option (list string)) :=
  match p with
  | PNone => Ok None
  | _ => Some <$> as_str_list p
  end.

Definition _load_metadata (path : string) : M unit :=
  let top_dir := path in
  meta ← read_file (path_join top_dir _META_JSON);
  meta ← lift (plain meta);
  let meta := json_loads meta in
  v ← lift (meta_get meta _TARGET_COLUMN);
  _ ← setattr _TARGET_COLUMN (VObj v);
  v ← lift (meta_get meta _TASK_TYPE);
  _ ← setattr _TASK_TYPE (VObj v);
  classes ← (if meta_has meta _TRAIN_LABELS
             then lift (meta_get meta _TRAIN_LABELS)
             else lift (meta_get meta _CLASSES));
  _ ← setattr ("_" +:+ _CLASSES) VNone;
  v ← lift (meta_get meta _FEATURE_COLUMNS);
  _ ← setattr ("_" +:+ _FEATURE_COLUMNS) (VObj v);
  v ← lift (meta_get meta _FEATURE_RANGES);
  _ ← setattr ("_" +:+ _FEATURE_RANGES) (VObj v);
  fm ← lift (meta_get meta _FEATURE_METADATA);
  _ ← match fm with
      | PNone => setattr ("_" +:+ _FEATURE_METADATA) VNone
      | _ =>
          identity_feature_name ←
            lift (meta_get fm "identity_feature_name" ≫= as_opt_str);
          datetime_features ←
            lift (meta_get fm "datetime_features" ≫= as_opt_str_list);
          categorical_features ←
            lift (meta_get fm "categorical_features" ≫= as_opt_str_list);
          dropped_features ←
            lift (meta_get fm "dropped_features" ≫= as_opt_str_list);
          setattr ("_" +:+ _FEATURE_METADATA)
            (VMetadata
               {| FeatureMetadata.identity_feature_name := identity_feature_name;
                  FeatureMetadata.datetime_features := datetime_features;
                  FeatureMetadata.time_column_name := None;
                  FeatureMetadata.time_series_id_column_names := None;
                  FeatureMetadata.categorical_features := categorical_features;
                  FeatureMetadata.dropped_features := dropped_features |})
      end;
  all_feature_names ← dict_getitem ("_" +:+ _FEATURE_COLUMNS);
  categorical_features ← dict_getitem _CATEGORICAL_FEATURES;
  test ← dict_getitem _TEST;
  target_column ← dict_getitem _TARGET_COLUMN;
  test ← lift (expect_frame test);
  target_column ← lift (expect_str target_column);
  dataset ← lift (drop test target_column);
  all_feature_names ← lift (plain all_feature_names ≫= as_str_list);
  categorical_features ← lift (plain categorical_features ≫= as_str_list);
  cats ← lift (process_categoricals all_feature_names categorical_features
                 dataset);
  _ ← setattr ("_" +:+ _CATEGORIES) (VObj (cats.1.1.1));
  _ ← setattr ("_" +:+ _CATEGORICAL_INDEXES) (VObj (cats.1.1.2));
  _ ← setattr ("_" +:+ _CATEGORY_DICTIONARY) (VObj (cats.1.2));
  setattr ("_" +:+ _STRING_IND_DATA) (VObj (cats.2)).

Definition _load_predictions (path : string) : M unit :=
  model ← dict_getitem _MODEL;
  if is_none model then
    _ ← setattr _PREDICT_OUTPUT VNone;
    setattr _PREDICT_PROBA_OUTPUT VNone
  else
    let prediction_output_path := path_join path _PREDICTIONS in
    predict_output ←
      read_file (path_join prediction_output_path (_PREDICT +:+ _JSON_EXTENSION));
    predict_output ← lift (plain predict_output);
    let predict_output := json_loads predict_output in
    _ ← setattr _PREDICT_OUTPUT (VArray (np_array predict_output));
    setattr _PREDICT_PROBA_OUTPUT VNone.

Definition file_exists (path : string) : M bool :=
  mkM (fun w => (Ok (bool_decide (is_Some (files w !! path))), w)).

(** [RAIForecastingInsights.__new__(RAIForecastingInsights)]: an instance
    without attributes *)
Definition new_instance : M unit :=
  mkM (fun w => (Ok tt, {| attrs := ∅; files := files w;
                           warnings := warnings w; calls := calls w |})).

(** Modelled from the spec: [RAIBaseInsights.save] (not among the
    sources), which produces the persisted layout: the train and test
    data, [meta.json], the model when there is one, and the
    [predictions/] directory. *)
Definition save (path : string) : M unit :=
  train ← getattr "train";
  _ ← write_file (path_join (path_join path "data") "train.json") train;
  test ← getattr "test";
  _ ← write_file (path_join (path_join path "data") "test.json") test;
  _ ← _save_metadata path;
  model ← getattr "model";
  _ ← (if is_none model then mret tt
       else write_file (path_join path "model.pkl") model);
  _save_predictions path.

(** Modelled from the spec: [RAIBaseInsights._load] (not among the
    sources).  It restores the persisted train and test data, runs the
    metadata loader it is given, and restores the model, [None] "when no
    model was persisted". *)
Definition RAIBaseInsights_load
    (path : string) (load_metadata_func : string -> M unit) : M unit :=
  train ← read_file (path_join (path_join path "data") "train.json");
  _ ← setattr _TRAIN train;
  test ← read_file (path_join (path_join path "data") "test.json");
  _ ← setattr _TEST test;
  _ ← load_metadata_func path;
  has_model ← file_exists (path_join path "model.pkl");
  (if has_model : bool then
     model ← read_file (path_join path "model.pkl");
     setattr _MODEL model
   else setattr _MODEL VNone).

Definition load (path : string) : M unit :=
  _ ← new_instance;
  _ ← RAIBaseInsights_load path _load_metadata;
  _load_predictions path.

End Insights.

(** ** Cohort filters at work *)




(** ** Example data *)

Module Examples.

Definition no_categoricals
  : list string -> list string -> DataFrame -> res (pyobj * pyobj * pyobj * pyobj) :=
  fun _ _ _ => Ok (PList [], PList [], PDict [], PList []).

Definition no_float_strings : string -> option pyfloat := fun _ => None.

(** three days of two stores *)
Definition sales : DataFrame :=
  {| df_columns := [("date", Object); ("store_id", Int64); ("sales", Int64)];
     df_index := [SStr "2020-01-01"; SStr "2020-01-02"; SStr "2020-01-03"];
     df_rows := [[SStr "2020-01-01"; SInt 1; SInt 10];
                 [SStr "2020-01-02"; SInt 2; SInt 20];
                 [SStr "2020-01-03"; SInt 2; SInt 30]] |}.

(** the same table under labels that are no dates *)
Definition sales_unlabelled : DataFrame :=
  {| df_columns := df_columns sales;
     df_index := [SStr "abc"; SStr "def"; SStr "ghi"];
     df_rows := df_rows sales |}.

Definition one_row : DataFrame :=
  {| df_columns := [("id", Int64); ("y", Int64)];
     df_index := [SInt 0];
     df_rows := [[SInt 1; SInt 2]] |}.


Definition metadata : FeatureMetadata.t :=
  {| FeatureMetadata.identity_feature_name := None;
     FeatureMetadata.datetime_features := None;
     FeatureMetadata.time_column_name := Some "date";
     FeatureMetadata.time_series_id_column_names := Some ["store_id"];
     FeatureMetadata.categorical_features := Some [];
     FeatureMetadata.dropped_features := None |}.

Definition metadata_without_time : FeatureMetadata.t :=
  {| FeatureMetadata.identity_feature_name := None;
     FeatureMetadata.datetime_features := None;
     FeatureMetadata.time_column_name := None;
     FeatureMetadata.time_series_id_column_names := Some ["store_id"];
     FeatureMetadata.categorical_features := Some [];
     FeatureMetadata.dropped_features := None |}.

Definition constant_forecast : Model.method :=
  fun df => (df, Ok ((fun _ => NInt 1) <$> df_rows df)).

(** a forecaster that is no quantile forecaster *)
Definition point_model : Model.t :=
  {| Model.predict := Some constant_forecast;
     Model.predict_quantiles := None;
     Model.time_column_name := None |}.

Definition quantile_model : Model.t :=
  {| Model.predict := Some constant_forecast;
     Model.predict_quantiles := Some constant_forecast;
     Model.time_column_name := None |}.

Definition model_with_time (c : string) : Model.t :=
  {| Model.predict := Some constant_forecast;
     Model.predict_quantiles := Some constant_forecast;
     Model.time_column_name := Some c |}.

Definition pickle_serializer : Serializer.t :=
  {| Serializer.has_save := true; Serializer.has_load := true;
     Serializer.picklable := true |}.


End Examples.

(** ** Assertions about computations *)

(** [fails_from P m]: started in a world satisfying [P], [m] raises. *)
Definition fails_from {A} (P : world -> Prop) (m : M A) : Prop :=
  forall w, P w -> is_ok (fst (run m w)) = false.

(** [keeps P m]: when [m] returns, it returns in a world satisfying [P]. *)
Definition keeps {A} (P : world -> Prop) (m : M A) : Prop :=
  forall w a w', P w -> run m w = (Ok a, w') -> P w'.

(** the attribute [k] holds [o]; [None] when it is not set *)
Definition attr_is (k : string) (o : option pyval) (w : world) : Prop :=
  attrs w !! k = o.

(** the attribute [k] is not set *)
Definition unset (k : string) : world -> Prop := attr_is k None.


(** the error of a forecast without a time column *)
Definition time_column_required : exn :=
  UserConfigValidationException
    ("There was no time column name in feature metadata. "
     +:+ "A time column is required for forecasting.").

Definition is_validation_error {A} (r : res A) : Prop :=
  exists msg, r = Raise (UserConfigValidationException msg).

(** what the instance holds when validation starts: the three attributes
    assigned at lines 93 to 96 *)
Definition attrs_before_validation
    (target_column : string) (test : DataFrame)
    (feature_metadata : option FeatureMetadata.t)
    (before : gmap string pyval) : gmap string pyval :=
  <["task_type" := VObj (PStr "forecasting")]>
    (<["_feature_metadata" :=
         VMetadata (default FeatureMetadata.empty feature_metadata)]>
       (<["_is_true_y_present" :=
            VObj (PBool (_check_true_y_present target_column test))]> before)).

(** the checks that come before the row limit (rules 1 to 3) pass *)
Definition earlier_checks_pass
    (model : option Model.t) (serializer : option Serializer.t)
    (train test : DataFrame) : Prop :=
  (model = None -> serializer = None)
  /\ (forall s, serializer = Some s ->
        Serializer.has_save s = true /\ Serializer.has_load s = true
        /\ Serializer.picklable s = true)
  /\ 0 < len train /\ 0 < len test.

(** no condition on the world *)
Definition any_world (w : world) : Prop := True.

(** where [_save_predictions] writes the point forecasts *)
Definition predict_json (path : string) : string :=
  path_join (path_join path _PREDICTIONS) (_PREDICT +:+ _JSON_EXTENSION).

(** the world after a file has been written *)
Definition with_file (w : world) (path : string) (doc : pyval) : world :=
  {| attrs := attrs w; files := <[path := doc]> (files w);
     warnings := warnings w; calls := calls w |}.

Definition no_predict_proba_output : exn :=
  AttributeError
    "'RAIForecastingInsights' object has no attribute 'predict_proba_output'".

(** [m] never assigns the attribute [k]: whatever [k] holds, or not, when
    [m] starts is what it holds when [m] returns *)
Definition never_assigns {A} (k : string) (m : M A) : Prop :=
  forall o, keeps (attr_is k o) m.

(** ** What a feature range says *)


Definition is_least (lo : scalar) (values : list scalar) : Prop :=
  lo ∈ values /\ forall v, v ∈ values -> ~ scalar_lt v lo.




(** an entry of the summary that is about column [col] *)
Definition entry_of (col : string) (r : pyobj) : Prop :=
  exists kv, r = PDict kv /\ dict_get kv _COLUMN_NAME = Some (PStr col).

(** ** What the cohorts say *)





(** [m] never fails with the exception [e] *)
Definition never_raises {A} (e : exn) (m : M A) : Prop :=
  forall w, fst (run m w) ≠ Raise e.

(** the error the payload builder has for a test set without dates *)
Definition no_time_column_error : exn :=
  ValueError "No time_column_name was provided via feature_metadata.".

(** ** What the constructor looks at *)

(** the world in which validation starts: the instance holds the three
    attributes assigned at lines 93 to 96 *)
Definition before_validation
    (target_column : string) (test : DataFrame)
    (feature_metadata : option FeatureMetadata.t) (w : world) : world :=
  {| attrs := attrs_before_validation target_column test feature_metadata
                (attrs w);
     files := files w; warnings := warnings w; calls := calls w |}.

(** [string_features_set] at line 279: the feature columns of [train]
    that are not numeric *)
Definition string_features (train : DataFrame) (target_column : string)
  : list string :=
  match drop train target_column with
  | Ok train_x =>
      remove_dups (list_difference (columns train_x) (numeric_columns train_x))
  | Raise _ => []
  end.

(** [small_test_data] at lines 290 to 294: the first row of [test],
    without the target column when [test] has one *)
Definition probe_row (test : DataFrame) (target_column : string) : DataFrame :=
  match drop (iloc_0_1 test) target_column with
  | Ok small => small
  | Raise _ => iloc_0_1 test
  end.

(** [self._test_without_true_y] at lines 104 and 105 *)
Definition test_without_true_y (test : DataFrame) (target_column : string)
  : DataFrame :=
  match drop test target_column with
  | Ok features => features
  | Raise _ => test
  end.

(** a serializer that passes the checks of lines 199 to 211 *)
Definition usable (s : Serializer.t) : Prop :=
  Serializer.has_save s = true /\ Serializer.has_load s = true
  /\ Serializer.picklable s = true.

(** the two tables have the same set of column labels *)
Definition same_columns (train test : DataFrame) : Prop :=
  forall c, c ∈ columns train <-> c ∈ columns test.

(** the warning of a missing model, lines 189 to 192 *)
Definition invalid_model_warning : string :=
  "INVALID-MODEL-WARNING: No valid model is supplied. "
  +:+ "The explanations, error analysis and counterfactuals "
  +:+ "may not work".

(** [m] leaves the component [f] of the world as it finds it, whether it
    returns or raises *)
Definition leaves {A X} (f : world -> X) (m : M A) : Prop :=
  forall w, f (snd (run m w)) = f w.

(** the rules on the arguments and on the shape of the data, lines 188
    to 240, are met *)
Definition data_checks_pass
    (model : option Model.t) (serializer : option Serializer.t)
    (train test : DataFrame) (target_column : string)
    (maximum_rows_for_test : Z) : Prop :=
  earlier_checks_pass model serializer train test
  /\ len test <= maximum_rows_for_test
  /\ target_column ∈ columns train
  /\ (target_column ∈ columns test -> same_columns train test).

(** a construction that succeeds: the sales table with a model that
    forecasts points and quantiles *)
Definition constructed_sales : res unit * world :=
  run (__init__ Examples.no_float_strings Examples.no_categoricals
         (Some Examples.quantile_model) Examples.sales Examples.sales
         "sales" None 5000 (Some Examples.metadata)) empty_world.

(** a serializer without [load] *)
Definition save_only_serializer : Serializer.t :=
  {| Serializer.has_save := true; Serializer.has_load := false;
     Serializer.picklable := true |}.

(** the sales table without its rows *)
Definition no_sales : DataFrame :=
  {| df_columns := df_columns Examples.sales; df_index := []; df_rows := [] |}.

(** the sales table without the column of the target *)
Definition sales_features : DataFrame :=
  {| df_columns := [("date", Object); ("store_id", Int64)];
     df_index := df_index Examples.sales;
     df_rows := [[SStr "2020-01-01"; SInt 1];
                 [SStr "2020-01-02"; SInt 2];
                 [SStr "2020-01-03"; SInt 2]] |}.

(** metadata that takes a numeric column for the time column *)
Definition metadata_numeric_time : FeatureMetadata.t :=
  {| FeatureMetadata.identity_feature_name := None;
     FeatureMetadata.datetime_features := None;
     FeatureMetadata.time_column_name := Some "store_id";
     FeatureMetadata.time_series_id_column_names := Some ["store_id"];
     FeatureMetadata.categorical_features := Some ["date"];
     FeatureMetadata.dropped_features := None |}.

(** ** The instance a construction builds *)

(** the world after [self.k = v] *)
Definition with_attr (w : world) (k : string) (v : pyval) : world :=
  {| attrs := <[k := v]> (attrs w); files := files w;
     warnings := warnings w; calls := calls w |}.

(** the world after a sequence of assignments, first to last *)
Definition with_attrs (w : world) (l : list (string * pyval)) : world :=
  foldl (fun w kv => with_attr w (fst kv) (snd kv)) w l.

(** what a sequence of assignments leaves in [k], if it assigns [k] *)
Definition last_assignment (k : string) (l : list (string * pyval))
  : option pyval :=
  foldl (fun acc kv => if decide (fst kv = k) then Some (snd kv) else acc)
    None l.

(** Lines 103 to 122 of [__init__]: what the constructor stores between
    the validation and the cache of predictions, in the order of the
    assignments; the last seven are made by the constructor of the base
    class. *)
Definition stored_before_cache
    (model : option Model.t) (train test : DataFrame) (target_column : string)
    (serializer : option Serializer.t) (ranges : list pyobj)
    (cats : pyobj * pyobj * pyobj * pyobj) : list (string * pyval) :=
  let features := test_without_true_y test target_column in
  [("_classes", VNone);
   ("_test_without_true_y", VFrame features);
   ("_feature_columns", VObj (str_list (columns features)));
   ("_feature_ranges", VObj (PList ranges));
   ("_categories", VObj (cats.1.1.1));
   ("_categorical_indexes", VObj (cats.1.1.2));
   ("_category_dictionary", VObj (cats.1.2));
   ("_string_ind_data", VObj (cats.2));
   ("model", model_val model);
   ("train", VFrame train);
   ("test", VFrame test);
   ("target_column", VObj (PStr target_column));
   ("task_type", VObj (PStr "forecasting"));
   ("_serializer", from_option VSerializer VNone serializer);
   ("_managers", VObj (PList []))].

(** the world after a call of a model's method has been recorded *)
Definition with_call (w : world) (c : call) : world :=
  {| attrs := attrs w; files := files w; warnings := warnings w;
     calls := (calls w ++ [c])%list |}.

(** what [store_table] assigns: the table a model's method was given, as
    the call left it, is [self._test_without_true_y], and is [self.test]
    too when the test set has no target column *)
Definition table_attrs (is_true_y_present : bool) (df : DataFrame)
  : list (string * pyval) :=
  if is_true_y_present then [("_test_without_true_y", VFrame df)]
  else [("_test_without_true_y", VFrame df); ("test", VFrame df)].

(** Lines 124 to 130 of [__init__] for a model with the methods [f]
    and [q], which answer [p1] and [p2]: [f] is called on the features of
    the test set, [q] on the table as [f] left it. *)
Definition after_cache
    (f q : Model.method) (is_true_y_present : bool) (features : DataFrame)
    (p1 p2 : list number) (w : world) : world :=
  let w := with_call w (CallPredict features) in
  let w := with_attrs w (table_attrs is_true_y_present (fst (f features))) in
  let w := with_attr w "predict_output" (VArray (forecasts p1)) in
  let w := with_call w (CallPredictQuantiles (fst (f features))) in
  let w := with_attrs w (table_attrs is_true_y_present
                           (fst (q (fst (f features))))) in
  with_attr w "quantile_predict_output" (VArray (forecasts p2)).

(** the methods of the model leave the table they are given as it is *)
Definition leaves_tables (model : option Model.t) : Prop :=
  forall m f df,
    model = Some m ->
    Model.predict m = Some f \/ Model.predict_quantiles m = Some f ->
    fst (f df) = df.

(** the calls of the model's methods that validation makes *)
Definition probe_calls (model : option Model.t) (test : DataFrame)
    (target_column : string) : list call :=
  match model with
  | Some _ => [CallPredict (probe_row test target_column)]
  | None => []
  end.

(** ** What persistence keeps *)

(** where [_save_metadata] writes *)
Definition meta_json (path : string) : string := path_join path _META_JSON.

(** what [_load_metadata] makes of saved metadata: the four fields it
    passes to [FeatureMetadata(...)] (lines 652 to 660); the time column
    and the id columns of the time series are not among them *)
Definition reloaded (fm : FeatureMetadata.t) : FeatureMetadata.t :=
  {| FeatureMetadata.identity_feature_name :=
       FeatureMetadata.identity_feature_name fm;
     FeatureMetadata.datetime_features := FeatureMetadata.datetime_features fm;
     FeatureMetadata.time_column_name := None;
     FeatureMetadata.time_series_id_column_names := None;
     FeatureMetadata.categorical_features :=
       FeatureMetadata.categorical_features fm;
     FeatureMetadata.dropped_features := FeatureMetadata.dropped_features fm |}.

(** an instance that holds nothing but a model: what [_load_predictions]
    finds when [load] calls it on a saved model *)
Definition instance_with_model (m : Model.t) (stored : gmap string pyval) : world :=
  {| attrs := <["model" := VModel m]> ∅; files := stored;
     warnings := []; calls := [] |}.

(** an instance that had its predictions loaded, then computed anew *)
Definition reloaded_instance (l : list number) : world :=
  {| attrs := <["predict_proba_output" := VNone]>
                (<["predict_output" := VArray (forecasts l)]>
                   (<["model" := VModel Examples.quantile_model]> ∅));
     files := ∅; warnings := []; calls := [] |}.

(** the sales table with dates in its time column *)
Definition dated_sales : DataFrame :=
  {| df_columns := [("date", Datetime64); ("store_id", Int64); ("sales", Int64)];
     df_index := df_index Examples.sales;
     df_rows := [[STime (Date 2020 1 1); SInt 1; SInt 10];
                 [STime (Date 2020 1 2); SInt 2; SInt 20];
                 [STime (Date 2020 1 3); SInt 2; SInt 30]] |}.

(** the sales table constructed without a model *)
Definition constructed_without_model : res unit * world :=
  run (__init__ Examples.no_float_strings Examples.no_categoricals
         None Examples.sales Examples.sales "sales" None 5000
         (Some Examples.metadata)) empty_world.

(** an instance about to be loaded from the files [stored]: it holds the
    test set, and its categorical features under the name
    [_load_metadata] reads them by *)
Definition instance_to_load (stored : gmap string pyval) : world :=
  {| attrs := <["categorical_features" := VObj (PList [])]>
                (<["test" := VFrame Examples.sales]> ∅);
     files := stored; warnings := []; calls := [] |}.

(** the error of [json.dump] on a pandas Timestamp *)
Definition timestamp_not_serializable : exn :=
  TypeError "Object of type Timestamp is not JSON serializable".

(** the sales table with dates in its time column, constructed without a
    model *)
Definition constructed_dated_sales : res unit * world :=
  run (__init__ Examples.no_float_strings Examples.no_categoricals
         None dated_sales dated_sales "sales" None 5000
         (Some Examples.metadata)) empty_world.

(** ** The instance the payload is built from *)

(** What [get_data] relies on: the instance holds the model, the test set
    and the name of the target, the flag that tells whether the test set
    has a target column, and the features of the test set. *)
Definition consistent_instance
    (model : option Model.t) (test : DataFrame) (target_column : string)
    (w : world) : Prop :=
  attr_is "model" (Some (model_val model)) w
  /\ attr_is "test" (Some (VFrame test)) w
  /\ attr_is "target_column" (Some (VObj (PStr target_column))) w
  /\ attr_is "_is_true_y_present"
       (Some (VObj (PBool (_check_true_y_present target_column test)))) w
  /\ attr_is "_test_without_true_y"
       (Some (VFrame (test_without_true_y test target_column))) w.

(** * Properties *)

(** ** Reasoning about computations *)

Lemma run_bind {A B} (m : M A) (f : A -> M B) (w : world) :
  run (m ≫= f) w =
  match run m w with
  | (Ok a, w') => run (f a) w'
  | (Raise e, w') => (Raise e, w')
  end.
Proof. reflexivity. Qed.

Lemma run_bind_ok {A B} (m : M A) (f : A -> M B) (w w' : world) (a : A) :
  run m w = (Ok a, w') -> run (m ≫= f) w = run (f a) w'.
Proof. intros H. rewrite run_bind, H. reflexivity. Qed.

Lemma fails_bind_l {A B} P (m : M A) (f : A -> M B) :
  fails_from P m -> fails_from P (m ≫= f).
Proof.
  intros Hm w Hw. rewrite run_bind. specialize (Hm w Hw).
  destruct (run m w) as [[a|e] w']; simpl in *; congruence.
Qed.

Lemma fails_bind_r {A B} P (m : M A) (f : A -> M B) :
  keeps P m -> (forall a, fails_from P (f a)) -> fails_from P (m ≫= f).
Proof.
  intros Hm Hf w Hw. rewrite run_bind.
  destruct (run m w) as [[a|e] w'] eqn:E; [|reflexivity].
  apply (Hf a). eapply Hm; eauto.
Qed.

Lemma keeps_bind {A B} P (m : M A) (f : A -> M B) :
  keeps P m -> (forall a, keeps P (f a)) -> keeps P (m ≫= f).
Proof.
  intros Hm Hf w b w'' Hw. rewrite run_bind.
  destruct (run m w) as [[a|e] w'] eqn:E; [|discriminate].
  intros H. eapply Hf; [|exact H]. eapply Hm; eauto.
Qed.

Lemma keeps_ret {A} P (a : A) : keeps P (mret a).
Proof. intros w b w' Hw [= _ <-]. exact Hw. Qed.

Lemma keeps_lift {A} P (r : res A) : keeps P (lift r).
Proof. intros w b w' Hw [= _ <-]. exact Hw. Qed.

Lemma keeps_raise {A} P (e : exn) : keeps P (@raise A e).
Proof. intros w b w' Hw [=]. Qed.

Lemma fails_raise {A} P (e : exn) : fails_from P (@raise A e).
Proof. intros w Hw. reflexivity. Qed.

(** run one assignment at the head of a sequence *)
Ltac step_setattr :=
  rewrite run_bind; simpl (run (setattr _ _) _); cbv beta iota.

Lemma run_bind_inv {A B} (m : M A) (f : A -> M B) w b w'' :
  run (m ≫= f) w = (Ok b, w'') ->
  exists a w', run m w = (Ok a, w') /\ run (f a) w' = (Ok b, w'').
Proof.
  rewrite run_bind. destruct (run m w) as [[a|e] w']; [eauto|discriminate].
Qed.

Lemma keeps_attr_setattr k o k' v : k ≠ k' -> keeps (attr_is k o) (setattr k' v).
Proof.
  intros Hne w a w' Hw [= _ <-]. unfold attr_is in *; simpl.
  rewrite lookup_insert_ne by congruence. exact Hw.
Qed.

Lemma keeps_attr_read_file k o p : keeps (attr_is k o) (read_file p).
Proof.
  intros w a w' Hw. unfold read_file; simpl.
  destruct (files w !! p); intros [= _ <-]; exact Hw.
Qed.

Lemma keeps_attr_file_exists k o p : keeps (attr_is k o) (file_exists p).
Proof. intros w a w' Hw [= _ <-]. exact Hw. Qed.

Lemma keeps_attr_getattr k o k' : keeps (attr_is k o) (getattr k').
Proof.
  intros w a w' Hw. unfold getattr; simpl.
  destruct (attrs w !! k'); intros [= _ <-]; exact Hw.
Qed.

Lemma keeps_attr_dict_getitem k o k' : keeps (attr_is k o) (dict_getitem k').
Proof.
  intros w a w' Hw. unfold dict_getitem; simpl.
  destruct (attrs w !! k'); intros [= _ <-]; exact Hw.
Qed.

Lemma fails_dict_getitem k : fails_from (unset k) (dict_getitem k).
Proof.
  intros w Hw. unfold dict_getitem; simpl.
  unfold unset, attr_is in Hw. rewrite Hw. reflexivity.
Qed.

Lemma keeps_attr_write_file k o p v : keeps (attr_is k o) (write_file p v).
Proof. intros w a w' Hw [= _ <-]. exact Hw. Qed.

Lemma keeps_attr_warn k o msg : keeps (attr_is k o) (warn msg).
Proof. intros w a w' Hw [= _ <-]. exact Hw. Qed.

Lemma keeps_attr_log_call k o c : keeps (attr_is k o) (log_call c).
Proof. intros w a w' Hw [= _ <-]. exact Hw. Qed.

Lemma keeps_try_exceptM {A} P (m : M A) e : keeps P m -> keeps P (try_exceptM m e).
Proof.
  intros Hm w a w' Hw. unfold try_exceptM; simpl.
  destruct (run m w) as [[a'|e'] w''] eqn:E; intros [= <- <-].
  eapply Hm; eauto.
Qed.

(** ** Time-column resolution *)

(** C5.  Resolution of the time column, for every metadata, list of
    feature names and model: (i) when neither the metadata nor the model
    declares a time column, it fails with the time-column-required error;
    (ii) when only the model declares one, the metadata adopts it if it is
    among the feature names, and the resolution fails otherwise; (iii)
    when both declare one, it fails exactly when the names differ; (iv)
    when only the metadata declares one, it succeeds and the metadata is
    unchanged. *)
Theorem time_column_resolution
    (fm : FeatureMetadata.t) (feature_names : list string)
    (model : option Model.t) (w : world) :
  let r := run (_ensure_time_column_available fm feature_names model) w in
  (FeatureMetadata.time_column_name fm = None ->
   model_time_column_name model = None ->
   r = (Raise time_column_required, w))
  /\ (forall c,
        FeatureMetadata.time_column_name fm = None ->
        model_time_column_name model = Some c ->
        (c ∈ feature_names ->
         fst r = Ok (FeatureMetadata.set_time_column_name fm c)
         /\ attrs (snd r) !! "_feature_metadata"
            = Some (VMetadata (FeatureMetadata.set_time_column_name fm c))
         /\ FeatureMetadata.time_column_name
              (FeatureMetadata.set_time_column_name fm c) = Some c)
        /\ (c ∉ feature_names -> is_validation_error (fst r) /\ snd r = w))
  /\ (forall f c,
        FeatureMetadata.time_column_name fm = Some f ->
        model_time_column_name model = Some c ->
        (f ≠ c -> is_validation_error (fst r) /\ snd r = w)
        /\ (f = c -> r = (Ok fm, w)))
  /\ (forall f,
        FeatureMetadata.time_column_name fm = Some f ->
        model_time_column_name model = None ->
        r = (Ok fm, w)).
Proof.
  intros r. subst r. unfold _ensure_time_column_available.
  repeat split.
  - intros Hf Hm. rewrite Hm, Hf. reflexivity.
  - rewrite H0, H. destruct (decide (c ∈ feature_names)); [reflexivity|contradiction].
  - rewrite H0, H. destruct (decide (c ∈ feature_names)); [|contradiction].
    simpl. apply lookup_insert_eq.
  - rewrite H0, H. destruct (decide (c ∈ feature_names)); [contradiction|].
    eexists. reflexivity.
  - rewrite H0, H. destruct (decide (c ∈ feature_names)); [contradiction|reflexivity].
  - rewrite H0, H. destruct (decide (f ≠ c)); [|contradiction].
    eexists. reflexivity.
  - rewrite H0, H. destruct (decide (f ≠ c)); [reflexivity|contradiction].
  - intros ->. rewrite H0, H. destruct (decide (c ≠ c)); [contradiction|reflexivity].
  - intros f Hf Hm. rewrite Hm, Hf. reflexivity.
Qed.

Lemma time_column_resolution_witness :
  (run (_ensure_time_column_available Examples.metadata_without_time
          ["date"; "store_id"] None) empty_world
   = (Raise time_column_required, empty_world))
  /\ (fst (run (_ensure_time_column_available Examples.metadata_without_time
                  ["date"; "store_id"]
                  (Some (Examples.model_with_time "date"))) empty_world)
      = Ok Examples.metadata)
  /\ (is_validation_error
        (fst (run (_ensure_time_column_available Examples.metadata
                     ["date"; "store_id"]
                     (Some (Examples.model_with_time "day"))) empty_world)))
  /\ (run (_ensure_time_column_available Examples.metadata
             ["date"; "store_id"] (Some Examples.point_model)) empty_world
      = (Ok Examples.metadata, empty_world)).
Proof.
  split; [|split; [|split]].
  - apply (time_column_resolution Examples.metadata_without_time
             ["date"; "store_id"] None empty_world); reflexivity.
  - apply (proj1 (proj2 (time_column_resolution
             Examples.metadata_without_time ["date"; "store_id"]
             (Some (Examples.model_with_time "date")) empty_world)) "date");
      [reflexivity|reflexivity|set_solver].
  - apply (proj1 (proj2 (proj2 (time_column_resolution
             Examples.metadata ["date"; "store_id"]
             (Some (Examples.model_with_time "day")) empty_world))) "date" "day");
      [reflexivity|reflexivity|discriminate].
  - apply (proj2 (proj2 (proj2 (time_column_resolution
             Examples.metadata ["date"; "store_id"]
             (Some Examples.point_model) empty_world))) "date"); reflexivity.
Defined.

(** ** The limit on test rows *)

Lemma validate_model_and_serializer_run model serializer w :
  exists w',
    attrs w' = attrs w /\ calls w' = calls w /\ files w' = files w
    /\ (run (validate_model_and_serializer model serializer) w = (Ok tt, w')
        \/ exists msg,
             run (validate_model_and_serializer model serializer) w
             = (Raise (UserConfigValidationException msg), w'))
    /\ ((model = None -> serializer = None) ->
        (forall s, serializer = Some s ->
           Serializer.has_save s = true /\ Serializer.has_load s = true
           /\ Serializer.picklable s = true) ->
        run (validate_model_and_serializer model serializer) w = (Ok tt, w')).
Proof.
  unfold validate_model_and_serializer.
  destruct model as [m|], serializer as [[sv ld pk]|]; simpl.
  - destruct sv, ld, pk; simpl; eexists; (split; [reflexivity|]);
      (split; [reflexivity|]); (split; [reflexivity|]);
      (split; [eauto|]); intros _ H; destruct (H _ eq_refl) as (?&?&?);
      simpl in *; congruence.
  - eexists; repeat split; eauto.
  - eexists. split; [|split; [|split; [|split]]]; cycle 3.
    + right. eexists. reflexivity.
    + intros H. discriminate (H eq_refl).
    + reflexivity.
    + reflexivity.
    + reflexivity.
  - eexists. split; [|split; [|split; [|split]]]; cycle 3.
    + left. reflexivity.
    + reflexivity.
    + reflexivity.
    + reflexivity.
    + reflexivity.
Qed.

Lemma validate_sizes_over_limit train test maximum_rows_for_test w :
  maximum_rows_for_test < len test ->
  (exists msg,
     run (validate_sizes train test maximum_rows_for_test) w
     = (Raise (UserConfigValidationException msg), w))
  /\ (0 < len train -> 0 < len test ->
      run (validate_sizes train test maximum_rows_for_test) w
      = (Raise (UserConfigValidationException
                  (test_too_large_message (len test) maximum_rows_for_test)), w)).
Proof.
  intros Hlim. unfold validate_sizes. rewrite run_bind.
  destruct ((len train <=? 0) || (len test <=? 0)) eqn:E; simpl.
  - split; [eexists; reflexivity|].
    intros H1 H2. apply orb_true_iff in E as [E|E]; apply Z.leb_le in E; lia.
  - assert ((maximum_rows_for_test <? len test) = true) as -> by (apply Z.ltb_lt; lia).
    split; [eexists|]; reflexivity.
Qed.

(** C9, as amended.  When the test set has more rows than
    [maximum_rows_for_test], construction fails with a
    [UserConfigValidationException], the instance holds nothing but the
    three attributes assigned before validation (no predictions, no
    cohorts, no feature ranges), no model method has been called and no
    file written; and when the checks that precede the limit pass (a
    serializer only with a model, a serializer that implements save and
    load and can be pickled, non-empty train and test), the message is the
    one that names the number of test rows and the limit. *)
Theorem test_row_limit
    (float_of_str : string -> option pyfloat)
    (process_categoricals :
       list string -> list string -> DataFrame -> res (pyobj * pyobj * pyobj * pyobj))
    (model : option Model.t) (train test : DataFrame) (target_column : string)
    (serializer : option Serializer.t) (maximum_rows_for_test : Z)
    (feature_metadata : option FeatureMetadata.t) (w : world) :
  maximum_rows_for_test < len test ->
  let r := run (__init__ float_of_str process_categoricals model train test
                  target_column serializer maximum_rows_for_test
                  feature_metadata) w in
  is_validation_error (fst r)
  /\ attrs (snd r)
     = attrs_before_validation target_column test feature_metadata (attrs w)
  /\ calls (snd r) = calls w
  /\ files (snd r) = files w
  /\ (earlier_checks_pass model serializer train test ->
      fst r = Raise (UserConfigValidationException
                       ("The test data has " +:+ pretty (len test)
                        +:+ " rows, but limit is set to "
                        +:+ pretty maximum_rows_for_test
                        +:+ " rows. Please resample the test data or "
                        +:+ "adjust maximum_rows_for_test"))).
Proof.
  intros Hlim r. subst r. unfold __init__.
  do 3 step_setattr.
  match goal with |- context [run _ ?w0] => set (w1 := w0) end.
  rewrite run_bind. unfold _validate_rai_insights_input_parameters.
  rewrite run_bind.
  destruct (validate_model_and_serializer_run model serializer w1)
    as (w2 & Ha & Hc & Hf & Hrun & Hpass).
  destruct (validate_sizes_over_limit train test maximum_rows_for_test w2 Hlim)
    as [[msg Hsz] Hsz'].
  destruct Hrun as [Hrun|[msg1 Hrun]]; rewrite Hrun.
  - rewrite run_bind, Hsz. simpl.
    split; [eexists; reflexivity|].
    split; [rewrite Ha; reflexivity|].
    split; [rewrite Hc; reflexivity|].
    split; [rewrite Hf; reflexivity|].
    intros (H1 & H2 & H3 & H4).
    rewrite (Hsz' H3 H4) in Hsz. injection Hsz as <-. reflexivity.
  - simpl.
    split; [eexists; reflexivity|].
    split; [rewrite Ha; reflexivity|].
    split; [rewrite Hc; reflexivity|].
    split; [rewrite Hf; reflexivity|].
    intros (H1 & H2 & H3 & H4).
    rewrite (Hpass H1 H2) in Hrun. discriminate.
Qed.

Lemma test_row_limit_witness :
  2 < len Examples.sales
  /\ fst (run (__init__ Examples.no_float_strings Examples.no_categoricals
                 (Some Examples.quantile_model) Examples.sales Examples.sales
                 "sales" None 2 (Some Examples.metadata)) empty_world)
     = Raise (UserConfigValidationException
                ("The test data has 3 rows, but limit is set to 2 rows. "
                 +:+ "Please resample the test data or "
                 +:+ "adjust maximum_rows_for_test")).
Proof.
  split; [reflexivity|].
  apply (test_row_limit Examples.no_float_strings Examples.no_categoricals
           (Some Examples.quantile_model) Examples.sales Examples.sales
           "sales" None 2 (Some Examples.metadata) empty_world).
  - reflexivity.
  - repeat split; try discriminate; reflexivity.
Defined.

(** C9, as stated, fails: a test set over the limit, given together with a
    serializer and no model, is refused by the first rule, whose message
    names neither the number of rows nor the limit. *)
Lemma test_row_limit_counterexample :
  2 < len Examples.sales
  /\ fst (run (__init__ Examples.no_float_strings Examples.no_categoricals
                 None Examples.sales Examples.sales "sales"
                 (Some Examples.pickle_serializer) 2
                 (Some Examples.metadata)) empty_world)
     = Raise (UserConfigValidationException
                "No valid model is specified but model serializer provided.")
  /\ "No valid model is specified but model serializer provided."
     ≠ test_too_large_message (len Examples.sales) 2.
Proof. split; [reflexivity|]. split; [reflexivity|discriminate]. Qed.

(** ** Construction without feature metadata *)

Lemma keeps_any_world {A} (m : M A) : keeps any_world m.
Proof. intros w a w' _ _. exact I. Qed.

(** Without feature metadata the fourth block of the validation reads an
    attribute of [None]: whatever the other arguments are, construction
    does not succeed. *)
Lemma construction_needs_feature_metadata
    float_of_str process_categoricals model train test target_column
    serializer maximum_rows_for_test w :
  is_ok (fst (run (__init__ float_of_str process_categoricals model train test
                     target_column serializer maximum_rows_for_test None) w))
  = false.
Proof.
  enough (fails_from any_world
            (__init__ float_of_str process_categoricals model train test
               target_column serializer maximum_rows_for_test None)) as H
    by (apply H; exact I).
  unfold __init__.
  do 3 (apply fails_bind_r; [apply keeps_any_world|intros _]).
  apply fails_bind_l. unfold _validate_rai_insights_input_parameters.
  do 3 (apply fails_bind_r; [apply keeps_any_world|intros _]).
  apply fails_bind_l. unfold validate_feature_types.
  apply fails_bind_l. apply fails_raise.
Qed.


(** The same tables with metadata that declares no categorical features:
    the set of undeclared string features is compared with [set(None)]. *)
Lemma construction_without_categorical_features :
  fst (run (__init__ Examples.no_float_strings Examples.no_categoricals
              None Examples.one_row Examples.one_row "y" None 5000
              (Some FeatureMetadata.empty))
         empty_world)
  = Raise (TypeError "'NoneType' object is not iterable").
Proof. vm_compute. reflexivity. Qed.

(** ** The cache of predictions *)

Lemma cache_predictions_not_forecaster model w :
  is_forecaster model = false ->
  run (cache_predictions model) w
  = (Ok tt,
     {| attrs := <["quantile_predict_output" := VNone]>
                   (<["predict_output" := VNone]> (attrs w));
        files := files w; warnings := warnings w; calls := calls w |}).
Proof. intros H. unfold cache_predictions. rewrite H. reflexivity. Qed.

(** A forecaster without [predict_quantiles] is asked for quantiles all
    the same, so caching never returns for it. *)
Lemma cache_predictions_point_forecaster model w :
  is_forecaster model = true -> is_quantile_forecaster model = false ->
  is_ok (fst (run (cache_predictions model) w)) = false.
Proof.
  intros Hf Hq.
  enough (fails_from any_world (cache_predictions model)) as H
    by (apply H; exact I).
  unfold cache_predictions. rewrite Hf.
  do 6 (apply fails_bind_r; [apply keeps_any_world|intros ?]).
  unfold truth_of_function.
  do 2 (apply fails_bind_r; [apply keeps_any_world|intros ?]).
  apply fails_bind_l. unfold call_predict_quantiles.
  destruct model as [m|]; [|apply fails_raise].
  unfold is_quantile_forecaster in Hq.
  destruct (Model.predict_quantiles m); [|apply fails_raise].
  apply bool_decide_eq_false in Hq. destruct Hq. eauto.
Qed.

(** C1, on the failing input: a model that has [predict] and no
    [predict_quantiles] is a forecaster and no quantile forecaster, and
    its construction ends in the [AttributeError] of the missing
    method rather than with [quantile_predict_output] set to [None]. *)
Theorem quantiles_asked_of_point_forecaster :
  is_forecaster (Some Examples.point_model) = true
  /\ is_quantile_forecaster (Some Examples.point_model) = false
  /\ fst (run (__init__ Examples.no_float_strings Examples.no_categoricals
                 (Some Examples.point_model) Examples.sales Examples.sales
                 "sales" None 5000 (Some Examples.metadata))
            empty_world)
     = Raise (AttributeError "model has no attribute 'predict_quantiles'").
Proof. vm_compute. repeat split. Qed.

(** ** Which attributes a step assigns *)

(** Closes the side condition "the attribute assigned is not [k]". *)
Ltac other_key := first [discriminate | congruence | assumption].

(** A computation keeps [attr_is k o] when the attributes it assigns are
    others: the proof follows the structure of the computation, [tac]
    handling the calls of functions that have lemmas of their own. *)
Ltac keeps_attr_with tac :=
  repeat first
    [ tac
    | lazymatch goal with
      | |- keeps _ (@mret _ _ _ _) => apply keeps_ret
      | |- keeps _ (lift _) => apply keeps_lift
      | |- keeps _ (raise _) => apply keeps_raise
      | |- keeps _ (getattr _) => apply keeps_attr_getattr
      | |- keeps _ (dict_getitem _) => apply keeps_attr_dict_getitem
      | |- keeps _ (read_file _) => apply keeps_attr_read_file
      | |- keeps _ (file_exists _) => apply keeps_attr_file_exists
      | |- keeps _ (write_file _ _) => apply keeps_attr_write_file
      | |- keeps _ (warn _) => apply keeps_attr_warn
      | |- keeps _ (log_call _) => apply keeps_attr_log_call
      | |- keeps _ (setattr _ _) => apply keeps_attr_setattr; other_key
      | |- keeps _ (try_exceptM _ _) => apply keeps_try_exceptM
      | |- keeps _ (@mbind _ _ _ _ _ _) => apply keeps_bind; [|intros ?]
      | |- keeps _ (if ?b then _ else _) => destruct b
      | |- keeps _ (match ?x with _ => _ end) => destruct x
      end ].

Lemma keeps_attr_call_predict k o model df :
  keeps (attr_is k o) (call_predict model df).
Proof. unfold call_predict. keeps_attr_with fail. Qed.

Lemma keeps_attr_call_predict_quantiles k o model df :
  keeps (attr_is k o) (call_predict_quantiles model df).
Proof. unfold call_predict_quantiles. keeps_attr_with fail. Qed.

Lemma keeps_attr_store_table k o df :
  k ≠ "_test_without_true_y" -> k ≠ "test" ->
  keeps (attr_is k o) (store_table df).
Proof. intros H1 H2. unfold store_table. keeps_attr_with fail. Qed.

Lemma keeps_attr_ensure_time_column k o fm names model :
  k ≠ "_feature_metadata" ->
  keeps (attr_is k o) (_ensure_time_column_available fm names model).
Proof. intros H. unfold _ensure_time_column_available. keeps_attr_with fail. Qed.

Ltac keeps_model_calls :=
  idtac;
  lazymatch goal with
  | |- keeps _ (call_predict _ _) => apply keeps_attr_call_predict
  | |- keeps _ (call_predict_quantiles _ _) =>
      apply keeps_attr_call_predict_quantiles
  | |- keeps _ (store_table _) => apply keeps_attr_store_table; other_key
  | |- keeps _ (_ensure_time_column_available _ _ _) =>
      apply keeps_attr_ensure_time_column; other_key
  end.

Lemma keeps_attr_cache_predictions k o model :
  k ≠ "_test_without_true_y" -> k ≠ "test" ->
  k ≠ "predict_output" -> k ≠ "quantile_predict_output" ->
  keeps (attr_is k o) (cache_predictions model).
Proof.
  intros H1 H2 H3 H4. unfold cache_predictions, truth_of_function.
  keeps_attr_with keeps_model_calls.
Qed.

Lemma keeps_attr_validate k o model train test target_column serializer
    maximum_rows_for_test feature_metadata :
  k ≠ "_feature_metadata" ->
  keeps (attr_is k o)
    (_validate_rai_insights_input_parameters model train test target_column
       serializer maximum_rows_for_test feature_metadata).
Proof.
  intros H. unfold _validate_rai_insights_input_parameters.
  apply keeps_bind; [|intros ?].
  { unfold validate_model_and_serializer. keeps_attr_with fail. }
  apply keeps_bind; [|intros ?].
  { unfold validate_sizes. keeps_attr_with fail. }
  apply keeps_bind; [|intros ?].
  { unfold validate_columns. keeps_attr_with fail. }
  apply keeps_bind; [|intros ?].
  { unfold validate_feature_types. keeps_attr_with fail. }
  apply keeps_bind; [|intros ?].
  { unfold validate_model_predict, _validate_features_same.
    keeps_attr_with keeps_model_calls. }
  unfold validate_feature_metadata.
  keeps_attr_with keeps_model_calls.
Qed.

Lemma keeps_attr_generate_time_series_cohorts k o :
  keeps (attr_is k o) _generate_time_series_cohorts.
Proof. unfold _generate_time_series_cohorts. keeps_attr_with fail. Qed.

Lemma keeps_attr_base_init k o model train test target_column task_type serializer :
  k ≠ "model" -> k ≠ "train" -> k ≠ "test" -> k ≠ "target_column" ->
  k ≠ "task_type" -> k ≠ "_serializer" -> k ≠ "_managers" ->
  keeps (attr_is k o)
    (RAIBaseInsights_init model train test target_column task_type serializer).
Proof.
  intros. unfold RAIBaseInsights_init, _initialize_managers.
  keeps_attr_with fail.
Qed.

Ltac keeps_calls :=
  idtac;
  first
    [ keeps_model_calls
    | lazymatch goal with
      | |- keeps _ (_validate_rai_insights_input_parameters _ _ _ _ _ _ _) =>
          apply keeps_attr_validate; other_key
      | |- keeps _ (RAIBaseInsights_init _ _ _ _ _ _) =>
          apply keeps_attr_base_init; other_key
      | |- keeps _ (cache_predictions _) =>
          apply keeps_attr_cache_predictions; other_key
      | |- keeps _ _generate_time_series_cohorts =>
          apply keeps_attr_generate_time_series_cohorts
      end ].


(** ** What the cache holds after construction *)

Lemma keeps_step {A B} P (m : M A) (f : A -> M B) w b w'' :
  keeps P m -> P w -> run (m ≫= f) w = (Ok b, w'') ->
  exists a w', P w' /\ run m w = (Ok a, w') /\ run (f a) w' = (Ok b, w'').
Proof.
  intros Hk Hw H. apply run_bind_inv in H as (a & w' & H1 & H2).
  exists a, w'. split; [eapply Hk; eauto|]. split; assumption.
Qed.






Lemma forecasts_serialisable l : serialisable (tolist (forecasts l)) = true.
Proof.
  change (forallb serialisable (number_obj <$> l) = true).
  induction l as [|n l IH]; [reflexivity|].
  change (serialisable (number_obj n)
          && forallb serialisable (number_obj <$> l) = true).
  rewrite IH. destruct n; reflexivity.
Qed.



Lemma getattr_run k v w : attr_is k (Some v) w -> run (getattr k) w = (Ok v, w).
Proof. intros H. unfold getattr; simpl. rewrite H. reflexivity. Qed.



(** ** Saving a constructed instance *)




(** The other operations of the module leave [predict_proba_output] as it
    is. *)
Lemma other_operations_never_assign_predict_proba_output
    float_of_str process_categoricals model train test target_column
    serializer maximum_rows_for_test feature_metadata path :
  never_assigns "predict_proba_output"
    (__init__ float_of_str process_categoricals model train test target_column
       serializer maximum_rows_for_test feature_metadata)
  /\ never_assigns "predict_proba_output" _generate_time_series_cohorts
  /\ never_assigns "predict_proba_output" get_data
  /\ never_assigns "predict_proba_output" (_save_predictions path)
  /\ never_assigns "predict_proba_output" (_save_metadata path)
  /\ never_assigns "predict_proba_output" (_load_metadata process_categoricals path).
Proof.
  repeat split; intros o.
  - unfold __init__.
    keeps_attr_with keeps_calls.
  - apply keeps_attr_generate_time_series_cohorts.
  - unfold get_data, _get_dataset.
    keeps_attr_with keeps_calls.
  - unfold _save_predictions. keeps_attr_with fail.
  - unfold _save_metadata. keeps_attr_with fail.
  - unfold _load_metadata. keeps_attr_with fail.
Qed.

(** ** Loading a saved instance *)

Lemma load_metadata_needs_categorical_features process_categoricals path :
  fails_from (unset "categorical_features")
    (_load_metadata process_categoricals path).
Proof.
  unfold _load_metadata, unset.
  do 15 (apply fails_bind_r; [keeps_attr_with fail|intros ?]).
  apply fails_bind_l. apply fails_dict_getitem.
Qed.

(** Nothing puts [categorical_features] into the dictionary of the
    instance that [load] fills, and [_load_metadata] reads it from there:
    [load] raises whatever the directory holds. *)
Lemma load_never_succeeds process_categoricals path w :
  is_ok (fst (run (load process_categoricals path) w)) = false.
Proof.
  unfold load. rewrite run_bind. simpl (run new_instance w). cbv beta iota.
  match goal with |- context [run _ ?w0] => set (w1 := w0) end.
  enough (fails_from (unset "categorical_features")
            (_ ← RAIBaseInsights_load path (_load_metadata process_categoricals);
             _load_predictions path)) as H
    by (apply H; reflexivity).
  apply fails_bind_l. unfold RAIBaseInsights_load, unset.
  do 4 (apply fails_bind_r; [keeps_attr_with fail|intros ?]).
  apply fails_bind_l. apply load_metadata_needs_categorical_features.
Qed.

(** C4, on the failing inputs.  An instance constructed without a model
    is saved, and loading the directory raises [KeyError] on
    ['categorical_features']; an instance constructed with a model cannot
    even be saved, as [_save_predictions] raises after writing
    [predict.json]. *)
Theorem saved_insights_do_not_load :
  fst (run (_ ← __init__ Examples.no_float_strings Examples.no_categoricals
                  None Examples.sales Examples.sales "sales" None 5000
                  (Some Examples.metadata);
            _ ← save "dir";
            load Examples.no_categoricals "dir") empty_world)
  = Raise (KeyError "categorical_features")
  /\ fst (run (_ ← __init__ Examples.no_float_strings Examples.no_categoricals
                     (Some Examples.quantile_model) Examples.sales
                     Examples.sales "sales" None 5000
                     (Some Examples.metadata);
               save "dir") empty_world)
     = Raise no_predict_proba_output.
Proof. split; vm_compute; reflexivity. Qed.

(** ** Cohort names and filters *)




(** C2, on the failing input: one id column [id] and one row whose id is
    [1].  The filters are as the claim says, the name is not ["id = 1"]:
    the pair was added to the list character by character. *)
Theorem cohort_name_is_joined_characters :
  time_series_cohorts Examples.one_row (Some ["id"])
  = Ok [{| name := "i, d,  , =,  , 1";
           cohort_filter_list :=
             [{| method := METHOD_INCLUDES; arg := ["1"]; column := "id" |}] |}]
  /\ "i, d,  , =,  , 1" ≠ "id = 1".
Proof. split; [vm_compute; reflexivity|discriminate]. Qed.

(** ** The row index of the payload *)

Lemma to_datetime_label_error x e :
  to_datetime_label x = Raise e -> exists msg, e = ValueError msg.
Proof.
  unfold to_datetime_label. destruct x; try discriminate;
    destruct (strptime_ymd _); try discriminate; intros [= <-]; eauto.
Qed.

Lemma to_datetime_error labels e :
  to_datetime labels = Raise e -> exists msg, e = ValueError msg.
Proof.
  unfold to_datetime. induction labels as [|x l IH]; [discriminate|].
  simpl. destruct (to_datetime_label x) eqn:E; simpl.
  - destruct (mapM to_datetime_label l); simpl; [discriminate|].
    intros [= <-]. apply IH. reflexivity.
  - intros [= <-]. eapply to_datetime_label_error, E.
Qed.

(** The handler for [AttributeError] around the conversion of the index
    never runs: converting labels to dates raises nothing but
    [ValueError]. *)
Lemma index_handler_is_dead labels e :
  except_attribute_error (to_datetime labels) e = to_datetime labels.
Proof.
  destruct (to_datetime labels) as [ds|e'] eqn:E; [reflexivity|].
  destruct (to_datetime_error _ _ E) as [msg ->]. reflexivity.
Qed.

(** C8, on the failing input: a test set whose row labels are no dates.
    Building the payload fails with the [ValueError] of the conversion,
    whose message is about the label and the format, not about a time
    column missing from the feature metadata. *)
Theorem unparseable_index_error :
  fst (run (_ ← __init__ Examples.no_float_strings Examples.no_categoricals
                  None Examples.sales Examples.sales_unlabelled "sales" None
                  5000 (Some Examples.metadata);
            get_data) empty_world)
  = Raise (ValueError "time data 'abc' does not match format '%Y-%m-%d'")
  /\ "time data 'abc' does not match format '%Y-%m-%d'"
     ≠ "No time_column_name was provided via feature_metadata.".
Proof. split; [vm_compute; reflexivity|discriminate]. Qed.

(** ** Feature ranges *)



Lemma scalar_lt_irrefl x : ~ scalar_lt x x.
Proof. unfold scalar_lt. apply irreflexivity, _. Qed.

Lemma scalar_lt_trans x y z : scalar_lt x y -> scalar_lt y z -> scalar_lt x z.
Proof. unfold scalar_lt. apply transitivity. Qed.

Lemma scalar_lt_trichotomy x y :
  scalar_lt x y \/ sort_key x = sort_key y \/ scalar_lt y x.
Proof. unfold scalar_lt. apply (trichotomy lexico). Qed.


Lemma scalar_min_cases x y :
  (scalar_min x y = y /\ scalar_lt y x) \/ (scalar_min x y = x /\ ~ scalar_lt y x).
Proof.
  unfold scalar_min, scalar_ltb. case_bool_decide; [left|right]; split; auto.
Qed.


Lemma not_lt_below x y v :
  ~ scalar_lt y x -> ~ scalar_lt x v -> ~ scalar_lt y v.
Proof.
  intros Hyx Hxv Hyv.
  destruct (scalar_lt_trichotomy x y) as [H|[H|H]].
  - apply Hxv. eapply scalar_lt_trans; eauto.
  - apply Hxv. unfold scalar_lt in *. rewrite H. exact Hyv.
  - contradiction.
Qed.

Lemma foldl_min_least (l : list scalar) (x : scalar) :
  is_least (foldl scalar_min x l) (x :: l).
Proof.
  revert x. induction l as [|y l IH]; intros x; simpl.
  - split; [set_solver|]. intros v Hv. apply list_elem_of_singleton in Hv as ->.
    apply scalar_lt_irrefl.
  - destruct (IH (scalar_min x y)) as [Hin Hle]. split.
    + destruct (scalar_min_cases x y) as [[E _]|[E _]]; rewrite E in *;
        apply elem_of_cons in Hin as [Hin|Hin]; rewrite ?elem_of_cons; auto.
    + intros v Hv.
      assert (~ scalar_lt (scalar_min x y) (foldl scalar_min (scalar_min x y) l))
        as Hm by (apply Hle; set_solver).
      apply elem_of_cons in Hv as [->|Hv]; [|apply elem_of_cons in Hv as [->|Hv]].
      * destruct (scalar_min_cases x y) as [[E Hlt]|[E Hnlt]]; rewrite E in *.
        -- intros Hx. apply Hm. eapply scalar_lt_trans; eauto.
        -- exact Hm.
      * destruct (scalar_min_cases x y) as [[E Hlt]|[E Hnlt]]; rewrite E in *.
        -- exact Hm.
        -- eapply not_lt_below; eauto.
      * apply Hle. set_solver.
Qed.



Lemma series_min_least values :
  values ≠ [] -> same_kind values = true ->
  exists lo, series_min values = Ok (Some lo) /\ is_least lo values.
Proof.
  intros Hne Hk. destruct values as [|x l]; [contradiction|].
  unfold series_min, series_reduce. rewrite Hk.
  eexists. split; [reflexivity|]. apply foldl_min_least.
Qed.






Lemma mapM_res_inv {A B} (f : A -> res B) (R : A -> B -> Prop) (l : list A) ys :
  (forall x y, f x = Ok y -> R x y) ->
  mapM f l = Ok ys -> Forall2 R l ys.
Proof.
  intros HR. revert ys. induction l as [|x l IH]; intros ys; simpl.
  - intros [= <-]. constructor.
  - destruct (f x) as [y|e] eqn:E; simpl; [|discriminate].
    destruct (mapM f l) as [ys'|e]; simpl; [|discriminate].
    intros [= <-]. constructor; eauto.
Qed.


Lemma feature_range_entry float_of_str test categorical_features time_column_name col r :
  feature_range float_of_str test categorical_features time_column_name col = Ok r ->
  entry_of col r.
Proof.
  unfold feature_range.
  destruct (decide (col ∈ categorical_features)).
  - destruct (getitem test col); simpl; [|discriminate].
    intros [= <-]. eexists. split; reflexivity.
  - destruct (decide (Some col = time_column_name)).
    + destruct (getitem test col) as [values|]; simpl; [|discriminate].
      destruct (series_min values); simpl; [|discriminate].
      destruct (series_max values); simpl; [|discriminate].
      intros [= <-]. eexists. split; reflexivity.
    + destruct (getitem test col) as [values|]; simpl; [|discriminate].
      destruct (series_min values) as [lo|]; simpl; [|discriminate].
      destruct (py_float float_of_str lo); simpl; [|discriminate].
      destruct (series_max values) as [hi|]; simpl; [|discriminate].
      destruct (py_float float_of_str hi); simpl; [|discriminate].
      intros [= <-]. eexists. split; reflexivity.
Qed.

(** The rounding agrees with the Standard Library's binary64 on integers
    around the places where it matters: small ones, the first integers
    that are not representable, ties, and the ends of the 64-bit range. *)
Lemma round_binary64_agrees_with_binary64 :
  Forall (fun z => integer_of_binary64 (binary64_of_int z)
                   = Some (round_binary64 z))
    [0; 1; -1; 5000; 2 ^ 53 - 1; 2 ^ 53; 2 ^ 53 + 1; 2 ^ 53 + 2; 2 ^ 53 + 3;
     - (2 ^ 53 + 1); 2 ^ 54 + 2; 2 ^ 54 + 6; 2 ^ 60 + 129; - (2 ^ 60 + 129);
     2 ^ 63 - 1; - 2 ^ 63; 2 ^ 64 - 1; 1600000000000000001].
Proof. repeat constructor. Qed.





(** ** Cohorts and value combinations *)




#[export] Instance counts_before_total rows : Total (counts_before rows).
Proof.
  intros c1 c2. unfold counts_before.
  destruct (lt_eq_lt_dec (count_of c1 rows) (count_of c2 rows)) as [[H|H]|H].
  - right. left. exact H.
  - destruct (decide (lexico (combo_key c2) (combo_key c1))) as [Hlt|Hnlt].
    + right. right. split; [symmetry; exact H|].
      intros Hlt'. eapply (irreflexivity lexico (combo_key c1)).
      etrans; eauto.
    + left. right. split; assumption.
  - left. left. exact H.
Qed.










(** ** Which errors the payload builder raises *)

Lemma never_raises_bind {A B} e (m : M A) (f : A -> M B) :
  never_raises e m -> (forall a, never_raises e (f a)) -> never_raises e (m ≫= f).
Proof.
  intros Hm Hf w. rewrite run_bind. specialize (Hm w).
  destruct (run m w) as [[a|e'] w']; [apply Hf|].
  simpl in *. intros [= ->]. apply Hm. reflexivity.
Qed.

Lemma never_raises_ret {A} e (a : A) : never_raises e (mret a).
Proof. intros w. discriminate. Qed.

Lemma never_raises_setattr e k v : never_raises e (setattr k v).
Proof. intros w. discriminate. Qed.

Lemma never_raises_log_call e c : never_raises e (log_call c).
Proof. intros w. discriminate. Qed.

Lemma never_raises_raise {A} e e' : e' ≠ e -> never_raises e (@raise A e').
Proof. intros Hne w [= H]. contradiction. Qed.

Lemma never_raises_lift {A} e (r : res A) : r ≠ Raise e -> never_raises e (lift r).
Proof. intros Hne w. exact Hne. Qed.

Lemma never_raises_getattr e k :
  (forall msg, e ≠ AttributeError msg) -> never_raises e (getattr k).
Proof.
  intros Hne w. unfold getattr; simpl.
  destruct (attrs w !! k); [discriminate|]. simpl. intros [= H]. eapply Hne; eauto.
Qed.

Lemma never_raises_try_exceptM {A} e e' (m : M A) :
  e' ≠ e -> never_raises e (try_exceptM m e').
Proof.
  intros Hne w. unfold try_exceptM; simpl.
  destruct (run m w) as [[a|e0] w']; [discriminate|]. simpl.
  intros [= H]. contradiction.
Qed.

Lemma expect_frame_error v msg : expect_frame v ≠ Raise (ValueError msg).
Proof. destruct v; discriminate. Qed.

Lemma expect_metadata_error v msg : expect_metadata v ≠ Raise (ValueError msg).
Proof. destruct v; discriminate. Qed.

Lemma expect_str_error v msg : expect_str v ≠ Raise (ValueError msg).
Proof. destruct v as [[]| | | | | |]; discriminate. Qed.

Lemma expect_model_error v msg : expect_model v ≠ Raise (ValueError msg).
Proof. destruct v as [[]| | | | | |]; discriminate. Qed.

Lemma getitem_error df c msg : getitem df c ≠ Raise (ValueError msg).
Proof. unfold getitem. destruct (index_of c (columns df)); discriminate. Qed.

Lemma array_len_error a msg : array_len a ≠ Raise (ValueError msg).
Proof. destruct a; discriminate. Qed.

Lemma shape2_error df : shape2 df ≠ Raise no_time_column_error.
Proof. unfold shape2. destruct (df_rows df); discriminate. Qed.

Lemma to_datetime_label_message x e :
  to_datetime_label x = Raise e ->
  exists rest, e = ValueError ("time data '" +:+ rest).
Proof.
  unfold to_datetime_label. destruct x; try discriminate;
    destruct (strptime_ymd _); try discriminate; intros [= <-]; eauto.
Qed.

Lemma to_datetime_message labels e :
  to_datetime labels = Raise e ->
  exists rest, e = ValueError ("time data '" +:+ rest).
Proof.
  unfold to_datetime. induction labels as [|x l IH]; [discriminate|].
  simpl. destruct (to_datetime_label x) eqn:E; simpl.
  - destruct (mapM to_datetime_label l); simpl; [discriminate|].
    intros [= <-]. apply IH. reflexivity.
  - intros [= <-]. eapply to_datetime_label_message, E.
Qed.

Lemma index_conversion_error labels :
  except_attribute_error (to_datetime labels) no_time_column_error
  ≠ Raise no_time_column_error.
Proof.
  rewrite index_handler_is_dead. intros H.
  apply to_datetime_message in H as [rest H]. discriminate H.
Qed.

Create HintDb payload_errors.
#[local] Hint Resolve expect_frame_error expect_metadata_error expect_str_error
  expect_model_error getitem_error array_len_error shape2_error
  index_conversion_error : payload_errors.

(** A computation never raises [no_time_column_error] when none of its
    steps does: the proof follows the structure of the computation. *)
Ltac never_raises_no_time_column :=
  repeat first
    [ lazymatch goal with
      | |- never_raises _ (@mret _ _ _ _) => apply never_raises_ret
      | |- never_raises _ (setattr _ _) => apply never_raises_setattr
      | |- never_raises _ (log_call _) => apply never_raises_log_call
      | |- never_raises _ (getattr _) =>
          apply never_raises_getattr; discriminate
      | |- never_raises _ (raise _) => apply never_raises_raise; discriminate
      | |- never_raises _ (try_exceptM _ _) =>
          apply never_raises_try_exceptM; discriminate
      | |- never_raises _ (lift _) =>
          apply never_raises_lift;
          solve [ unfold no_time_column_error; auto with payload_errors ]
      | |- never_raises _ (@mbind _ _ _ _ _ _) =>
          apply never_raises_bind; [|intros ?]
      | |- never_raises _ (if ?b then _ else _) => destruct b
      | |- never_raises _ (match ?x with _ => _ end) => destruct x
      end ].

Lemma store_table_never_reports_no_time_column df :
  never_raises no_time_column_error (store_table df).
Proof. unfold store_table. never_raises_no_time_column. Qed.

(** Whatever the instance holds, building the payload never fails with
    "No time_column_name was provided via feature_metadata.": the one
    place that raises it is a handler that cannot run. *)
Lemma get_data_never_reports_no_time_column :
  never_raises no_time_column_error get_data.
Proof.
  unfold get_data, _get_dataset.
  never_raises_no_time_column;
    try apply store_table_never_reports_no_time_column.
Qed.

(** ** What the cache holds for a quantile forecaster *)

Lemma store_table_run df b w :
  attr_is "_is_true_y_present" (Some (VObj (PBool b))) w ->
  exists w',
    run (store_table df) w = (Ok tt, w')
    /\ attr_is "_test_without_true_y" (Some (VFrame df)) w'
    /\ attr_is "_is_true_y_present" (Some (VObj (PBool b))) w'
    /\ calls w' = calls w
    /\ (forall k o, k ≠ "_test_without_true_y" -> k ≠ "test" ->
        attr_is k o w -> attr_is k o w').
Proof.
  intros Hb. unfold store_table. step_setattr.
  match goal with |- context [run _ ?w0] => set (w1 := w0) end.
  assert (attr_is "_is_true_y_present" (Some (VObj (PBool b))) w1) as Hb1
    by (unfold attr_is, w1; simpl; rewrite lookup_insert_ne by discriminate;
        exact Hb).
  erewrite run_bind_ok by (apply getattr_run; exact Hb1).
  unfold attr_is in *. destruct b; simpl.
  - eexists. split; [reflexivity|]. simpl.
    split; [apply lookup_insert_eq|]. split; [exact Hb1|]. split; [reflexivity|].
    intros k o Hk1 Hk2 Hk. rewrite lookup_insert_ne by congruence. exact Hk.
  - eexists. split; [reflexivity|]. simpl.
    split; [rewrite lookup_insert_ne by discriminate; apply lookup_insert_eq|].
    split; [rewrite lookup_insert_ne by discriminate; exact Hb1|].
    split; [reflexivity|].
    intros k o Hk1 Hk2 Hk. rewrite !lookup_insert_ne by congruence. exact Hk.
Qed.

(** The part of C1 that holds: for a model with both methods, each of
    them is called once, [predict] on the target-stripped test set, and
    the results are what the two attributes hold. *)
Lemma cache_predictions_quantile_forecaster
    (m : Model.t) (f g : Model.method) (df : DataFrame) (b : bool)
    (p q : list number) (w : world) :
  Model.predict m = Some f ->
  Model.predict_quantiles m = Some g ->
  attr_is "_test_without_true_y" (Some (VFrame df)) w ->
  attr_is "_is_true_y_present" (Some (VObj (PBool b))) w ->
  snd (f df) = Ok p ->
  snd (g (fst (f df))) = Ok q ->
  exists w',
    run (cache_predictions (Some m)) w = (Ok tt, w')
    /\ calls w' = (calls w ++ [CallPredict df; CallPredictQuantiles (fst (f df))])%list
    /\ attr_is "predict_output" (Some (VArray (forecasts p))) w'
    /\ attr_is "quantile_predict_output" (Some (VArray (forecasts q))) w'.
Proof.
  intros Hf Hg Hdf Hb Hp Hq.
  unfold cache_predictions, is_forecaster, truth_of_function. rewrite Hf.
  rewrite bool_decide_eq_true_2 by eauto.
  erewrite run_bind_ok by (apply getattr_run; exact Hdf).
  erewrite run_bind_ok by reflexivity.
  unfold call_predict. rewrite Hf.
  erewrite run_bind_ok by reflexivity.
  match goal with |- context [run _ ?w0] => set (w1 := w0) end.
  destruct (store_table_run (fst (f df)) b w1 Hb) as (w2 & Hs & Hdf2 & Hb2 & Hc2 & _).
  cbn [fst snd]. erewrite run_bind_ok by exact Hs.
  rewrite Hp. erewrite run_bind_ok by reflexivity.
  step_setattr.
  match goal with |- context [run _ ?w0] => set (w3 := w0) end.
  assert (attr_is "_test_without_true_y" (Some (VFrame (fst (f df)))) w3) as Hdf3
    by (unfold attr_is, w3; simpl; rewrite lookup_insert_ne by discriminate;
        exact Hdf2).
  assert (attr_is "_is_true_y_present" (Some (VObj (PBool b))) w3) as Hb3
    by (unfold attr_is, w3; simpl; rewrite lookup_insert_ne by discriminate;
        exact Hb2).
  erewrite run_bind_ok by (apply getattr_run; exact Hdf3).
  erewrite run_bind_ok by reflexivity.
  unfold call_predict_quantiles. rewrite Hg.
  erewrite run_bind_ok by reflexivity.
  match goal with |- context [run _ ?w0] => set (w4 := w0) end.
  assert (attr_is "predict_output" (Some (VArray (forecasts p))) w4) as Hp4
    by (unfold attr_is, w4, w3; simpl; apply lookup_insert_eq).
  destruct (store_table_run (fst (g (fst (f df)))) b w4 Hb3)
    as (w5 & Hs5 & _ & _ & Hc5 & Hk5).
  cbn [fst snd]. erewrite run_bind_ok by exact Hs5.
  rewrite Hq. erewrite run_bind_ok by reflexivity.
  eexists. split; [reflexivity|]. simpl. split; [|split].
  - rewrite Hc5. unfold w4, w3; simpl. rewrite Hc2. unfold w1; simpl.
    rewrite <- app_assoc. reflexivity.
  - unfold attr_is; simpl. rewrite lookup_insert_ne by discriminate.
    apply Hk5; [discriminate..|exact Hp4].
  - apply lookup_insert_eq.
Qed.

(** * Further properties of the module *)

(** ** Components of the world a computation leaves alone *)

Lemma leaves_bind {A B X} (f : world -> X) (m : M A) (k : A -> M B) :
  leaves f m -> (forall a, leaves f (k a)) -> leaves f (m ≫= k).
Proof.
  intros Hm Hk w. rewrite run_bind. specialize (Hm w).
  destruct (run m w) as [[a|e] w1]; simpl in *; [|exact Hm].
  rewrite (Hk a w1). exact Hm.
Qed.

Lemma leaves_getattr {X} (f : world -> X) k : leaves f (getattr k).
Proof. intros w. unfold getattr; simpl. destruct (attrs w !! k); reflexivity. Qed.

Lemma leaves_dict_getitem {X} (f : world -> X) k : leaves f (dict_getitem k).
Proof.
  intros w. unfold dict_getitem; simpl. destruct (attrs w !! k); reflexivity.
Qed.

Lemma leaves_read_file {X} (f : world -> X) p : leaves f (read_file p).
Proof. intros w. unfold read_file; simpl. destruct (files w !! p); reflexivity. Qed.

Lemma leaves_try_exceptM {A X} (f : world -> X) (m : M A) e :
  leaves f m -> leaves f (try_exceptM m e).
Proof.
  intros Hm w. specialize (Hm w). unfold try_exceptM; simpl.
  destruct (run m w) as [[a|e'] w1]; exact Hm.
Qed.

(** what follows a step that leaves [f] alone decides what [f] is in the
    end *)
Lemma leaves_after {A B X} (f : world -> X) (m : M A) (k : A -> M B) w :
  (forall a, leaves f (k a)) ->
  f (snd (run (m ≫= k) w)) = f (snd (run m w)).
Proof.
  intros Hk. rewrite run_bind.
  destruct (run m w) as [[a|e] w1]; simpl; [apply Hk|reflexivity].
Qed.

(** A computation leaves [f] alone when each of its steps does: the proof
    follows the structure of the computation, and a primitive step is
    checked by running it; [tac] handles the calls of functions that have
    lemmas of their own. *)
Ltac leaves_with tac :=
  repeat first
    [ tac
    | lazymatch goal with
      | |- leaves _ (getattr _) => apply leaves_getattr
      | |- leaves _ (dict_getitem _) => apply leaves_dict_getitem
      | |- leaves _ (read_file _) => apply leaves_read_file
      | |- leaves _ (try_exceptM _ _) => apply leaves_try_exceptM
      | |- leaves _ (@mbind _ _ _ _ _ _) => apply leaves_bind; [|intros ?]
      | |- leaves _ (if ?b then _ else _) => destruct b
      | |- leaves _ (match ?x with _ => _ end) => destruct x
      | |- leaves _ (@mret _ _ _ _) => intros ?; reflexivity
      | |- leaves _ (lift _) => intros ?; reflexivity
      | |- leaves _ (raise _) => intros ?; reflexivity
      | |- leaves _ (setattr _ _) => intros ?; reflexivity
      | |- leaves _ (write_file _ _) => intros ?; reflexivity
      | |- leaves _ (warn _) => intros ?; reflexivity
      | |- leaves _ (log_call _) => intros ?; reflexivity
      | |- leaves _ (file_exists _) => intros ?; reflexivity
      | |- leaves _ new_instance => intros ?; reflexivity
      end ].

(** ** Running the constructor up to its validation *)

Lemma init_run_validation
    float_of_str process_categoricals model train test target_column
    serializer maximum_rows_for_test feature_metadata w :
  exists rest,
    run (__init__ float_of_str process_categoricals model train test
           target_column serializer maximum_rows_for_test feature_metadata) w
    = run (_ ← _validate_rai_insights_input_parameters model train test
                 target_column serializer maximum_rows_for_test
                 feature_metadata;
           rest)
        (before_validation target_column test feature_metadata w).
Proof.
  unfold __init__. do 3 step_setattr. eexists. reflexivity.
Qed.

Lemma init_fails_in_validation
    float_of_str process_categoricals model train test target_column
    serializer maximum_rows_for_test feature_metadata w e w' :
  run (_validate_rai_insights_input_parameters model train test target_column
         serializer maximum_rows_for_test feature_metadata)
    (before_validation target_column test feature_metadata w) = (Raise e, w') ->
  run (__init__ float_of_str process_categoricals model train test
         target_column serializer maximum_rows_for_test feature_metadata) w
  = (Raise e, w').
Proof.
  intros H.
  destruct (init_run_validation float_of_str process_categoricals model train
              test target_column serializer maximum_rows_for_test
              feature_metadata w) as [rest ->].
  rewrite run_bind, H. reflexivity.
Qed.

Lemma init_passes_validation
    float_of_str process_categoricals model train test target_column
    serializer maximum_rows_for_test feature_metadata w w' :
  run (__init__ float_of_str process_categoricals model train test
         target_column serializer maximum_rows_for_test feature_metadata) w
  = (Ok tt, w') ->
  exists w2,
    run (_validate_rai_insights_input_parameters model train test target_column
           serializer maximum_rows_for_test feature_metadata)
      (before_validation target_column test feature_metadata w) = (Ok tt, w2).
Proof.
  destruct (init_run_validation float_of_str process_categoricals model train
              test target_column serializer maximum_rows_for_test
              feature_metadata w) as [rest ->].
  intros H. apply run_bind_inv in H as ([] & w2 & H & _). eauto.
Qed.

Lemma before_validation_true_y target_column test feature_metadata w :
  attr_is "_is_true_y_present"
    (Some (VObj (PBool (_check_true_y_present target_column test))))
    (before_validation target_column test feature_metadata w).
Proof.
  unfold attr_is, before_validation, attrs_before_validation; simpl.
  rewrite !lookup_insert_ne by discriminate. apply lookup_insert_eq.
Qed.

(** ** The blocks of the validation, one by one *)

Lemma getattr_inv k w v w' :
  run (getattr k) w = (Ok v, w') -> w' = w /\ attrs w !! k = Some v.
Proof.
  unfold getattr; simpl. destruct (attrs w !! k); [|discriminate].
  intros [= -> ->]. split; reflexivity.
Qed.

Lemma mret_inv {A} (a b : A) w w' :
  run (mret a) w = (Ok b, w') -> b = a /\ w' = w.
Proof. intros [= -> ->]. split; reflexivity. Qed.

Lemma lift_inv {A} (r : res A) w a w' :
  run (lift r) w = (Ok a, w') -> r = Ok a /\ w' = w.
Proof. intros [= -> ->]. split; reflexivity. Qed.

Lemma try_exceptM_inv {A} (m : M A) e w a w' :
  run (try_exceptM m e) w = (Ok a, w') -> run m w = (Ok a, w').
Proof.
  unfold try_exceptM; simpl. destruct (run m w) as [[a'|e'] w1]; [|discriminate].
  intros [= -> ->]. reflexivity.
Qed.

Lemma validation_fails_in_first_block
    model train test target_column serializer maximum_rows_for_test
    feature_metadata w e w' :
  run (validate_model_and_serializer model serializer) w = (Raise e, w') ->
  run (_validate_rai_insights_input_parameters model train test target_column
         serializer maximum_rows_for_test feature_metadata) w = (Raise e, w').
Proof.
  intros H. unfold _validate_rai_insights_input_parameters.
  rewrite run_bind, H. reflexivity.
Qed.

Lemma validate_sizes_run train test maximum_rows_for_test w :
  run (validate_sizes train test maximum_rows_for_test) w
  = (if (len train <=? 0) || (len test <=? 0) then
       Raise (UserConfigValidationException
                ("Either of the train/test are empty. Please provide "
                 +:+ "non-empty dataframes for train and test sets."))
     else if maximum_rows_for_test <? len test then
       Raise (UserConfigValidationException
                (test_too_large_message (len test) maximum_rows_for_test))
     else Ok tt, w).
Proof.
  unfold validate_sizes. rewrite run_bind.
  destruct ((len train <=? 0) || (len test <=? 0)); [reflexivity|].
  simpl. destruct (maximum_rows_for_test <? len test); reflexivity.
Qed.

Lemma validate_columns_run train test target_column b w :
  attr_is "_is_true_y_present" (Some (VObj (PBool b))) w ->
  run (validate_columns train test target_column) w
  = (if (bool_decide (list_difference (columns train) (columns test) ≠ [])
         || bool_decide (list_difference (columns test) (columns train) ≠ []))
        && b then
       Raise (UserConfigValidationException
                "The features in train and test data do not match")
     else if decide (target_column ∉ columns train) then
       Raise (UserConfigValidationException
                ("Target name " +:+ target_column
                 +:+ " not present in train data"))
     else Ok tt, w).
Proof.
  intros Hb. unfold validate_columns. rewrite run_bind.
  destruct (bool_decide (list_difference (columns train) (columns test) ≠ [])
            || bool_decide (list_difference (columns test) (columns train) ≠ [])).
  - rewrite (run_bind_ok _ _ _ _ _ (getattr_run _ _ _ Hb)).
    destruct b; [reflexivity|]. simpl.
    destruct (decide (target_column ∉ columns train)); reflexivity.
  - simpl. destruct (decide (target_column ∉ columns train)); reflexivity.
Qed.

Lemma list_difference_nil (l k : list string) :
  list_difference l k = [] <-> forall c, c ∈ l -> c ∈ k.
Proof.
  split.
  - intros H c Hc. destruct (decide (c ∈ k)) as [|Hn]; [assumption|].
    assert (c ∈ list_difference l k) as Hd
      by (apply list_elem_of_difference; auto).
    rewrite H in Hd. inversion Hd.
  - intros H. destruct (list_difference l k) as [|c d] eqn:E; [reflexivity|].
    assert (c ∈ list_difference l k) as Hd by (rewrite E; left).
    apply list_elem_of_difference in Hd as [Hl Hk]. destruct (Hk (H c Hl)).
Qed.

Lemma remove_dups_nil (l : list string) : remove_dups l = [] -> l = [].
Proof.
  intros H. destruct l as [|c l]; [reflexivity|].
  assert (c ∈ remove_dups (c :: l)) as Hc by (apply elem_of_remove_dups; left).
  rewrite H in Hc. inversion Hc.
Qed.

(** the labels that [drop] keeps *)
Lemma mask_filter_labels (c : string) (cols : list (string * dtype)) :
  fst <$> mask_filter ((fun x => bool_decide (x ≠ c)) <$> (fst <$> cols)) cols
  = filter (fun x => x ≠ c) (fst <$> cols).
Proof.
  unfold mask_filter. induction cols as [|[x d] cols IH]; [reflexivity|].
  cbn [fmap list_fmap zip zip_with fst].
  rewrite (filter_cons (fun x => x ≠ c)).
  rewrite (filter_cons (fun p : bool * (string * dtype) => fst p = true)).
  cbn [fst]. destruct (decide (x ≠ c)) as [Hne|Heq].
  - rewrite bool_decide_eq_true_2 by exact Hne.
    destruct (decide (true = true)); [|congruence].
    cbn [fmap list_fmap snd fst]. f_equal. exact IH.
  - rewrite bool_decide_eq_false_2 by exact Heq.
    destruct (decide (false = true)); [discriminate|]. exact IH.
Qed.

Lemma drop_inv df c d :
  drop df c = Ok d ->
  c ∈ columns df /\ columns d = filter (fun x => x ≠ c) (columns df)
  /\ df_index d = df_index df
  /\ length (df_rows d) = length (df_rows df).
Proof.
  unfold drop. destruct (decide (c ∈ columns df)); [|discriminate].
  intros [= <-]. split; [assumption|]. split; [|split].
  - unfold columns at 1, keep_mask, columns; simpl. apply mask_filter_labels.
  - reflexivity.
  - simpl. apply length_fmap.
Qed.

Lemma drop_ok df c : c ∈ columns df -> exists d, drop df c = Ok d.
Proof. intros H. unfold drop. destruct (decide (c ∈ columns df)); [eauto|contradiction]. Qed.

Lemma drop_missing df c : c ∉ columns df -> is_ok (drop df c) = false.
Proof. intros H. unfold drop. destruct (decide (c ∈ columns df)); [contradiction|reflexivity]. Qed.

Lemma check_categorical_features_inv train test target_column cats :
  check_categorical_features train test target_column cats = Ok tt ->
  (target_column ∉ cats)
  /\ (forall c, c ∈ cats -> c ∈ columns train /\ c ≠ target_column).
Proof.
  unfold check_categorical_features.
  destruct (decide (target_column ∈ cats)) as [|Hn]; [discriminate|].
  destruct (drop train target_column) as [train_x|] eqn:E; [|discriminate].
  simpl.
  destruct (decide (remove_dups (list_difference cats (columns train_x)) ≠ []))
    as [|Hd]; [discriminate|].
  intros _. split; [exact Hn|]. intros c Hc.
  apply dec_stable in Hd. apply remove_dups_nil in Hd.
  apply drop_inv in E as (_ & Hcols & _).
  pose proof (proj1 (list_difference_nil _ _) Hd c Hc) as Hin.
  rewrite Hcols in Hin. apply list_elem_of_filter in Hin. tauto.
Qed.

Lemma validate_feature_types_inv train test target_column feature_metadata w w' :
  run (validate_feature_types train test target_column feature_metadata) w
  = (Ok tt, w') ->
  w' = w
  /\ exists fm cats,
       feature_metadata = Some fm
       /\ FeatureMetadata.categorical_features fm = Some cats
       /\ target_column ∈ columns train
       /\ (target_column ∉ cats)
       /\ (forall c, c ∈ cats -> c ∈ columns train /\ c ≠ target_column)
       /\ (forall c, c ∈ string_features train target_column ->
             FeatureMetadata.time_column_name fm = Some c \/ c ∈ cats)
       /\ (forall tc, FeatureMetadata.time_column_name fm = Some tc ->
             tc ∈ string_features train target_column).
Proof.
  unfold validate_feature_types. intros H.
  destruct feature_metadata as [fm|]; [|discriminate].
  apply run_bind_inv in H as (cats0 & w1 & H1 & H).
  apply mret_inv in H1 as [-> ->].
  apply run_bind_inv in H as ([] & w2 & H2 & H).
  apply run_bind_inv in H as (train_x & w3 & H3 & H).
  apply lift_inv in H3 as [Hdrop ->].
  apply run_bind_inv in H as (sfs & w4 & H4 & H).
  destruct (FeatureMetadata.categorical_features fm) as [cats|] eqn:Ecats;
    [|discriminate].
  assert (w2 = w
          /\ (target_column ∉ cats)
          /\ (forall c, c ∈ cats -> c ∈ columns train /\ c ≠ target_column))
    as (-> & Htarget & Hcats).
  { destruct (0 <? Z.of_nat (length cats)) eqn:El.
    - apply lift_inv in H2 as [Hcheck ->].
      apply check_categorical_features_inv in Hcheck. tauto.
    - apply mret_inv in H2 as [_ ->]. split; [reflexivity|].
      apply Z.ltb_ge in El. destruct cats; [|simpl in El; lia].
      split; [|intros c Hc]; set_solver. }
  assert (string_features train target_column
          = remove_dups (list_difference (columns train_x)
                           (numeric_columns train_x))) as Esfs
    by (unfold string_features; rewrite Hdrop; reflexivity).
  pose proof (drop_inv _ _ _ Hdrop) as (Hin & _).
  destruct (0 <? Z.of_nat (length (list_difference sfs cats))) eqn:El;
    [discriminate|].
  apply mret_inv in H as [_ ->].
  apply Z.ltb_ge in El.
  assert (list_difference sfs cats = []) as Hd
    by (destruct (list_difference sfs cats); [reflexivity|simpl in El; lia]).
  pose proof (proj1 (list_difference_nil _ _) Hd) as Hsub.
  simpl in H4.
  destruct (FeatureMetadata.time_column_name fm) as [tc|] eqn:Etc.
  - destruct (decide (tc ∈ remove_dups (list_difference (columns train_x)
                                          (numeric_columns train_x))))
      as [Htc|]; [|discriminate].
    apply mret_inv in H4 as [-> ->].
    split; [reflexivity|]. exists fm, cats.
    split; [reflexivity|]. split; [exact Ecats|]. split; [exact Hin|].
    split; [exact Htarget|]. split; [exact Hcats|]. split.
    + intros c Hc. destruct (decide (c = tc)) as [->|Hne]; [left; exact Etc|].
      right. apply Hsub. apply list_elem_of_filter. split; [exact Hne|].
      rewrite <- Esfs. exact Hc.
    + intros tc' E. rewrite Etc in E. injection E as <-. rewrite Esfs. exact Htc.
  - apply mret_inv in H4 as [-> ->].
    split; [reflexivity|]. exists fm, cats.
    split; [reflexivity|]. split; [exact Ecats|]. split; [exact Hin|].
    split; [exact Htarget|]. split; [exact Hcats|]. split.
    + intros c Hc. right. apply Hsub. rewrite <- Esfs. exact Hc.
    + intros tc' E. rewrite Etc in E. discriminate E.
Qed.

Lemma validate_model_and_serializer_inv model serializer w w' :
  run (validate_model_and_serializer model serializer) w = (Ok tt, w') ->
  (model = None -> serializer = None)
  /\ (forall s, serializer = Some s -> usable s)
  /\ attrs w' = attrs w /\ files w' = files w /\ calls w' = calls w.
Proof.
  unfold validate_model_and_serializer, usable.
  destruct model as [m|], serializer as [[sv ld pk]|]; simpl.
  - destruct sv, ld, pk; simpl; intros [= <-].
    split; [discriminate|]. split; [|repeat split].
    intros s [= <-]. repeat split.
  - intros [= <-]. split; [discriminate|]. split; [discriminate|repeat split].
  - discriminate.
  - intros [= <-]. split; [reflexivity|]. split; [discriminate|repeat split].
Qed.

Lemma call_predict_inv model df w r w' :
  run (call_predict model df) w = (Ok r, w') ->
  exists m f,
    model = Some m /\ Model.predict m = Some f
    /\ r = (fst (f df), forecasts <$> snd (f df))
    /\ attrs w' = attrs w /\ files w' = files w /\ warnings w' = warnings w
    /\ calls w' = (calls w ++ [CallPredict df])%list.
Proof.
  unfold call_predict. destruct model as [m|]; [|discriminate].
  destruct (Model.predict m) as [f|] eqn:E; [|discriminate].
  intros [= <- <-]. exists m, f. repeat split; assumption.
Qed.

Lemma call_predict_quantiles_inv model df w r w' :
  run (call_predict_quantiles model df) w = (Ok r, w') ->
  exists m f,
    model = Some m /\ Model.predict_quantiles m = Some f
    /\ r = (fst (f df), forecasts <$> snd (f df))
    /\ attrs w' = attrs w /\ files w' = files w /\ warnings w' = warnings w
    /\ calls w' = (calls w ++ [CallPredictQuantiles df])%list.
Proof.
  unfold call_predict_quantiles. destruct model as [m|]; [|discriminate].
  destruct (Model.predict_quantiles m) as [f|] eqn:E; [|discriminate].
  intros [= <- <-]. exists m, f. repeat split; assumption.
Qed.

Lemma fmap_res_ok {A B} (f : A -> B) (r : res A) b :
  f <$> r = Ok b -> exists a, r = Ok a /\ b = f a.
Proof. destruct r as [a|e]; [|discriminate]. intros [= <-]. eauto. Qed.

Lemma probe_row_eq test target_column :
  (if _check_true_y_present target_column test
   then drop (iloc_0_1 test) target_column
   else Ok (iloc_0_1 test))
  = Ok (probe_row test target_column).
Proof.
  unfold _check_true_y_present, probe_row, drop.
  change (columns (iloc_0_1 test)) with (columns test).
  destruct (decide (target_column ∈ columns test)) as [Hin|Hn].
  - rewrite bool_decide_eq_true_2 by exact Hin. reflexivity.
  - rewrite bool_decide_eq_false_2 by exact Hn. reflexivity.
Qed.

Lemma validate_model_predict_inv m test target_column w w' :
  attr_is "_is_true_y_present"
    (Some (VObj (PBool (_check_true_y_present target_column test)))) w ->
  run (validate_model_predict (Some m) test target_column) w = (Ok tt, w') ->
  exists f,
    Model.predict m = Some f
    /\ is_ok (snd (f (probe_row test target_column))) = true
    /\ columns (fst (f (probe_row test target_column)))
       = columns (probe_row test target_column)
    /\ attrs w' = attrs w /\ files w' = files w /\ warnings w' = warnings w
    /\ calls w' = (calls w ++ [CallPredict (probe_row test target_column)])%list.
Proof.
  intros Hb H. unfold validate_model_predict in H.
  apply run_bind_inv in H as (v & w1 & H1 & H).
  apply getattr_inv in H1 as [-> Hv]. unfold attr_is in Hb.
  rewrite Hb in Hv. injection Hv as <-.
  apply run_bind_inv in H as (small & w2 & H2 & H).
  assert (small = probe_row test target_column /\ w2 = w) as [-> ->].
  { pose proof (probe_row_eq test target_column) as E.
    simpl truthy in H2.
    destruct (_check_true_y_present target_column test).
    - apply lift_inv in H2 as [H2 ->]. rewrite E in H2. injection H2 as <-.
      split; reflexivity.
    - apply mret_inv in H2 as [-> ->]. injection E as <-. split; reflexivity. }
  apply run_bind_inv in H as (small' & w3 & H3 & H).
  apply try_exceptM_inv in H3.
  apply run_bind_inv in H3 as (r & w4 & Hcall & H3).
  apply run_bind_inv in H3 as (out & w5 & Hout & H3).
  apply lift_inv in Hout as [Hout ->]. apply mret_inv in H3 as [-> ->].
  apply call_predict_inv in Hcall
    as (m' & f & [= <-] & Hf & -> & Ha & Hfi & Hwa & Hc).
  simpl in Hout. apply fmap_res_ok in Hout as (l & Hl & _).
  unfold _validate_features_same in H.
  destruct (decide (columns (probe_row test target_column)
                    ≠ columns (fst (fst (f (probe_row test target_column)),
                                    forecasts <$> snd (f (probe_row test target_column))))))
    as [|Heq]; [discriminate|].
  apply mret_inv in H as [_ ->]. apply dec_stable in Heq. simpl in Heq.
  exists f. split; [exact Hf|]. split; [rewrite Hl; reflexivity|].
  split; [symmetry; exact Heq|]. repeat split; assumption.
Qed.

Lemma ensure_time_column_inv fm feature_names model w fm' w' :
  attr_is "_feature_metadata" (Some (VMetadata fm)) w ->
  run (_ensure_time_column_available fm feature_names model) w = (Ok fm', w') ->
  attr_is "_feature_metadata" (Some (VMetadata fm')) w'
  /\ (forall k, k ≠ "_feature_metadata" -> attrs w' !! k = attrs w !! k)
  /\ files w' = files w /\ warnings w' = warnings w /\ calls w' = calls w
  /\ (exists tc,
        FeatureMetadata.time_column_name fm' = Some tc
        /\ (forall mtc, model_time_column_name model = Some mtc -> tc = mtc)
        /\ (forall ftc, FeatureMetadata.time_column_name fm = Some ftc -> tc = ftc)
        /\ (FeatureMetadata.time_column_name fm = None -> tc ∈ feature_names))
  /\ FeatureMetadata.time_series_id_column_names fm'
     = FeatureMetadata.time_series_id_column_names fm
  /\ FeatureMetadata.categorical_features fm'
     = FeatureMetadata.categorical_features fm.
Proof.
  intros Hfm. unfold _ensure_time_column_available.
  destruct (model_time_column_name model) as [mtc|],
           (FeatureMetadata.time_column_name fm) as [ftc|] eqn:Eftc.
  - destruct (decide (ftc ≠ mtc)) as [|Heq]; [discriminate|].
    apply dec_stable in Heq. subst mtc. intros [= <- <-].
    split; [exact Hfm|]. split; [reflexivity|]. do 3 (split; [reflexivity|]).
    split; [|split; reflexivity].
    exists ftc. split; [exact Eftc|]. split; [intros ? [= <-]; reflexivity|].
    split; [intros ? [= <-]; reflexivity|discriminate].
  - destruct (decide (mtc ∈ feature_names)) as [Hin|]; [|discriminate].
    intros [= <- <-]. split; [apply lookup_insert_eq|].
    split; [intros k Hk; simpl; apply lookup_insert_ne; congruence|].
    do 3 (split; [reflexivity|]). split; [|split; reflexivity].
    exists mtc. split; [reflexivity|]. split; [intros ? [= <-]; reflexivity|].
    split; [discriminate|intros _; exact Hin].
  - intros [= <- <-].
    split; [exact Hfm|]. split; [reflexivity|]. do 3 (split; [reflexivity|]).
    split; [|split; reflexivity].
    exists ftc. split; [exact Eftc|]. split; [discriminate|].
    split; [intros ? [= <-]; reflexivity|discriminate].
  - discriminate.
Qed.

Lemma validate_feature_metadata_inv model train fm w w' :
  attr_is "_feature_metadata" (Some (VMetadata fm)) w ->
  run (validate_feature_metadata model train (Some fm)) w = (Ok tt, w') ->
  exists fm',
    attr_is "_feature_metadata" (Some (VMetadata fm')) w'
    /\ (forall k, k ≠ "_feature_metadata" -> attrs w' !! k = attrs w !! k)
    /\ files w' = files w /\ warnings w' = warnings w /\ calls w' = calls w
    /\ (exists tc,
          FeatureMetadata.time_column_name fm' = Some tc
          /\ (forall mtc, model_time_column_name model = Some mtc -> tc = mtc)
          /\ (forall ftc, FeatureMetadata.time_column_name fm = Some ftc -> tc = ftc)
          /\ (FeatureMetadata.time_column_name fm = None -> tc ∈ columns train))
    /\ FeatureMetadata.time_series_id_column_names fm'
       = FeatureMetadata.time_series_id_column_names fm
    /\ FeatureMetadata.categorical_features fm'
       = FeatureMetadata.categorical_features fm.
Proof.
  intros Hfm H. unfold validate_feature_metadata in H.
  apply run_bind_inv in H as (fm' & w1 & H1 & H).
  apply lift_inv in H as [_ ->].
  exists fm'. eapply ensure_time_column_inv; eassumption.
Qed.

Lemma leaves_world_validate_sizes train test maximum_rows_for_test :
  leaves (fun w => w) (validate_sizes train test maximum_rows_for_test).
Proof. unfold validate_sizes. leaves_with fail. Qed.

Lemma leaves_world_validate_columns train test target_column :
  leaves (fun w => w) (validate_columns train test target_column).
Proof. unfold validate_columns. leaves_with fail. Qed.

Lemma leaves_world_validate_feature_types train test target_column feature_metadata :
  leaves (fun w => w)
    (validate_feature_types train test target_column feature_metadata).
Proof. unfold validate_feature_types. leaves_with fail. Qed.

Lemma leaves_world_inv {A} (m : M A) w a w' :
  leaves (fun w => w) m -> run m w = (Ok a, w') -> w' = w.
Proof. intros Hm H. specialize (Hm w). rewrite H in Hm. exact Hm. Qed.

(** A validation that returns has passed its six blocks, one after the
    other; the first four leave the instance as it is. *)
Lemma validation_blocks
    model train test target_column serializer maximum_rows_for_test
    feature_metadata w w' :
  run (_validate_rai_insights_input_parameters model train test target_column
         serializer maximum_rows_for_test feature_metadata) w = (Ok tt, w') ->
  exists w1 w2,
    run (validate_model_and_serializer model serializer) w = (Ok tt, w1)
    /\ run (validate_sizes train test maximum_rows_for_test) w1 = (Ok tt, w1)
    /\ run (validate_columns train test target_column) w1 = (Ok tt, w1)
    /\ run (validate_feature_types train test target_column feature_metadata) w1
       = (Ok tt, w1)
    /\ run (validate_model_predict model test target_column) w1 = (Ok tt, w2)
    /\ run (validate_feature_metadata model train feature_metadata) w2
       = (Ok tt, w').
Proof.
  unfold _validate_rai_insights_input_parameters. intros H.
  apply run_bind_inv in H as ([] & w1 & H1 & H).
  apply run_bind_inv in H as ([] & w1a & H2 & H).
  pose proof (leaves_world_inv _ _ _ _ (leaves_world_validate_sizes _ _ _) H2)
    as ->.
  apply run_bind_inv in H as ([] & w1b & H3 & H).
  pose proof (leaves_world_inv _ _ _ _ (leaves_world_validate_columns _ _ _) H3)
    as ->.
  apply run_bind_inv in H as ([] & w1c & H4 & H).
  pose proof (leaves_world_inv _ _ _ _
                (leaves_world_validate_feature_types _ _ _ _) H4) as ->.
  apply run_bind_inv in H as ([] & w2 & H5 & H).
  exists w1, w2. repeat split; assumption.
Qed.

(** ** The rules on the model and the serializer *)

Lemma init_refused_by_first_block
    float_of_str process_categoricals model train test target_column
    serializer maximum_rows_for_test feature_metadata w e w' :
  run (validate_model_and_serializer model serializer)
    (before_validation target_column test feature_metadata w) = (Raise e, w') ->
  fst (run (__init__ float_of_str process_categoricals model train test
              target_column serializer maximum_rows_for_test feature_metadata) w)
  = Raise e.
Proof.
  intros H.
  erewrite init_fails_in_validation; [reflexivity|].
  apply validation_fails_in_first_block. exact H.
Qed.

(** X1.  The rules on the model and the serializer come first, whatever
    the data and the metadata are: a serializer given without a model is
    refused; with a model, a serializer without [save] is refused, then one
    without [load], then one that cannot be pickled, each with the message
    of its rule. *)
Theorem serializer_rules_come_first
    (float_of_str : string -> option pyfloat)
    (process_categoricals :
       list string -> list string -> DataFrame -> res (pyobj * pyobj * pyobj * pyobj))
    (model : option Model.t) (train test : DataFrame) (target_column : string)
    (s : Serializer.t) (maximum_rows_for_test : Z)
    (feature_metadata : option FeatureMetadata.t) (w : world) :
  let r := fst (run (__init__ float_of_str process_categoricals model train
                       test target_column (Some s) maximum_rows_for_test
                       feature_metadata) w) in
  (model = None ->
   r = Raise (UserConfigValidationException
                "No valid model is specified but model serializer provided."))
  /\ (model ≠ None -> Serializer.has_save s = false ->
      r = Raise (UserConfigValidationException
                   "The serializer does not implement save()"))
  /\ (model ≠ None -> Serializer.has_save s = true ->
      Serializer.has_load s = false ->
      r = Raise (UserConfigValidationException
                   "The serializer does not implement load()"))
  /\ (model ≠ None -> Serializer.has_save s = true ->
      Serializer.has_load s = true -> Serializer.picklable s = false ->
      r = Raise (UserConfigValidationException
                   "The serializer should be serializable via pickle")).
Proof.
  intros r. subst r. destruct s as [sv ld pk].
  cbn [Serializer.has_save Serializer.has_load Serializer.picklable].
  split; [|split; [|split]].
  - intros ->. eapply init_refused_by_first_block. reflexivity.
  - intros Hm ->. destruct model as [m|]; [|contradiction].
    eapply init_refused_by_first_block. reflexivity.
  - intros Hm -> ->. destruct model as [m|]; [|contradiction].
    eapply init_refused_by_first_block. reflexivity.
  - intros Hm -> -> ->. destruct model as [m|]; [|contradiction].
    eapply init_refused_by_first_block. reflexivity.
Qed.

Lemma serializer_rules_come_first_witness :
  fst (run (__init__ Examples.no_float_strings Examples.no_categoricals
              (Some Examples.point_model) no_sales Examples.sales "price"
              (Some save_only_serializer) 0 None) empty_world)
  = Raise (UserConfigValidationException
             "The serializer does not implement load()").
Proof.
  apply (serializer_rules_come_first Examples.no_float_strings
           Examples.no_categoricals (Some Examples.point_model) no_sales
           Examples.sales "price" save_only_serializer 0 None empty_world).
  - discriminate.
  - reflexivity.
  - reflexivity.
Defined.

(** ** The rules on the shape of the data *)

Lemma validation_after_sizes
    model train test target_column serializer maximum_rows_for_test
    feature_metadata w :
  earlier_checks_pass model serializer train test ->
  len test <= maximum_rows_for_test ->
  exists w1,
    attrs w1 = attrs w /\ calls w1 = calls w /\ files w1 = files w
    /\ run (_validate_rai_insights_input_parameters model train test
              target_column serializer maximum_rows_for_test feature_metadata) w
       = run (_ ← validate_columns train test target_column;
              _ ← validate_feature_types train test target_column
                    feature_metadata;
              _ ← validate_model_predict model test target_column;
              validate_feature_metadata model train feature_metadata) w1.
Proof.
  intros (H1 & H2 & H3 & H4) Hmax.
  destruct (validate_model_and_serializer_run model serializer w)
    as (w1 & Ha & Hc & Hf & _ & Hpass).
  exists w1. do 3 (split; [assumption|]).
  unfold _validate_rai_insights_input_parameters.
  rewrite run_bind, (Hpass H1 H2). rewrite run_bind, validate_sizes_run.
  assert ((len train <=? 0) || (len test <=? 0) = false) as ->
    by (apply orb_false_iff; split; apply Z.leb_gt; assumption).
  assert ((maximum_rows_for_test <? len test) = false) as ->
    by (apply Z.ltb_ge; assumption).
  reflexivity.
Qed.

(** X2.  When the rules on the model and the serializer are met and
    [train] or [test] has no rows, construction fails with the message
    about empty data, whatever the limit on the test rows is. *)
Theorem empty_data_is_refused
    (float_of_str : string -> option pyfloat)
    (process_categoricals :
       list string -> list string -> DataFrame -> res (pyobj * pyobj * pyobj * pyobj))
    (model : option Model.t) (train test : DataFrame) (target_column : string)
    (serializer : option Serializer.t) (maximum_rows_for_test : Z)
    (feature_metadata : option FeatureMetadata.t) (w : world) :
  (model = None -> serializer = None) ->
  (forall s, serializer = Some s -> usable s) ->
  df_rows train = [] \/ df_rows test = [] ->
  fst (run (__init__ float_of_str process_categoricals model train test
              target_column serializer maximum_rows_for_test feature_metadata) w)
  = Raise (UserConfigValidationException
             ("Either of the train/test are empty. Please provide "
              +:+ "non-empty dataframes for train and test sets.")).
Proof.
  intros H1 H2 Hempty.
  destruct (validate_model_and_serializer_run model serializer
              (before_validation target_column test feature_metadata w))
    as (w1 & _ & _ & _ & _ & Hpass).
  specialize (Hpass H1 H2).
  erewrite init_fails_in_validation; [reflexivity|].
  unfold _validate_rai_insights_input_parameters.
  rewrite run_bind, Hpass. rewrite run_bind, validate_sizes_run.
  assert ((len train <=? 0) || (len test <=? 0) = true) as ->; [|reflexivity].
  apply orb_true_iff. unfold len.
  destruct Hempty as [-> | ->]; [left|right]; reflexivity.
Qed.

Lemma empty_data_is_refused_witness :
  fst (run (__init__ Examples.no_float_strings Examples.no_categoricals
              None no_sales Examples.sales "sales" None 2
              (Some Examples.metadata)) empty_world)
  = Raise (UserConfigValidationException
             ("Either of the train/test are empty. Please provide "
              +:+ "non-empty dataframes for train and test sets.")).
Proof.
  apply (empty_data_is_refused Examples.no_float_strings
           Examples.no_categoricals None no_sales Examples.sales "sales" None 2
           (Some Examples.metadata) empty_world).
  - reflexivity.
  - discriminate.
  - left. reflexivity.
Defined.

Lemma same_columns_differences train test :
  same_columns train test
  <-> bool_decide (list_difference (columns train) (columns test) ≠ [])
      || bool_decide (list_difference (columns test) (columns train) ≠ [])
      = false.
Proof.
  rewrite orb_false_iff, !bool_decide_eq_false. unfold same_columns. split.
  - intros H. split; intros Hd; apply Hd, list_difference_nil;
      intros c Hc; apply H; exact Hc.
  - intros [H1 H2] c.
    apply dec_stable in H1. apply dec_stable in H2.
    split; intros Hc; eapply list_difference_nil; eassumption.
Qed.

(** X3.  What a construction that succeeds says about its arguments: a
    serializer comes with a model and passes its checks, [train] has rows,
    [test] has between one row and the limit, the target is a column of
    [train], and when [test] holds the target as well, the two tables have
    the same columns. *)
Theorem construction_requires_consistent_data
    (float_of_str : string -> option pyfloat)
    (process_categoricals :
       list string -> list string -> DataFrame -> res (pyobj * pyobj * pyobj * pyobj))
    (model : option Model.t) (train test : DataFrame) (target_column : string)
    (serializer : option Serializer.t) (maximum_rows_for_test : Z)
    (feature_metadata : option FeatureMetadata.t) (w w' : world) :
  run (__init__ float_of_str process_categoricals model train test
         target_column serializer maximum_rows_for_test feature_metadata) w
  = (Ok tt, w') ->
  (model = None -> serializer = None)
  /\ (forall s, serializer = Some s -> usable s)
  /\ df_rows train ≠ []
  /\ 0 < len test <= maximum_rows_for_test
  /\ target_column ∈ columns train
  /\ (target_column ∈ columns test -> same_columns train test).
Proof.
  intros H. apply init_passes_validation in H as (w2 & H).
  apply validation_blocks in H as (w1 & w3 & Hb1 & Hb2 & Hb3 & _).
  apply validate_model_and_serializer_inv in Hb1 as (Hm & Hs & Ha & _).
  split; [exact Hm|]. split; [exact Hs|].
  rewrite validate_sizes_run in Hb2.
  destruct ((len train <=? 0) || (len test <=? 0)) eqn:E1; [discriminate|].
  destruct (maximum_rows_for_test <? len test) eqn:E2; [discriminate|].
  apply orb_false_iff in E1 as [E1 E3].
  apply Z.leb_gt in E1, E3. apply Z.ltb_ge in E2.
  split; [intros E; unfold len in E1; rewrite E in E1; simpl in E1; lia|].
  split; [lia|].
  assert (attr_is "_is_true_y_present"
            (Some (VObj (PBool (_check_true_y_present target_column test)))) w1)
    as Hb.
  { unfold attr_is. rewrite Ha. apply before_validation_true_y. }
  rewrite (validate_columns_run _ _ _ _ _ Hb) in Hb3.
  destruct ((bool_decide (list_difference (columns train) (columns test) ≠ [])
             || bool_decide (list_difference (columns test) (columns train) ≠ []))
            && _check_true_y_present target_column test) eqn:E4; [discriminate|].
  destruct (decide (target_column ∉ columns train)) as [|Hin]; [discriminate|].
  split; [apply dec_stable; exact Hin|].
  intros Ht. apply same_columns_differences.
  apply andb_false_iff in E4 as [E4|E4]; [exact E4|].
  unfold _check_true_y_present in E4. apply bool_decide_eq_false in E4.
  contradiction.
Qed.

Lemma construction_requires_consistent_data_witness :
  0 < len Examples.sales <= 5000 /\ "sales" ∈ columns Examples.sales.
Proof.
  destruct (construction_requires_consistent_data Examples.no_float_strings
              Examples.no_categoricals (Some Examples.quantile_model)
              Examples.sales Examples.sales "sales" None 5000
              (Some Examples.metadata) empty_world (snd constructed_sales))
    as (_ & _ & _ & H1 & H2 & _).
  - vm_compute. reflexivity.
  - split; assumption.
Defined.

(** X4.  When the rules before it are met, a test set that holds the
    target and whose columns are not those of [train] is refused with the
    message about features that do not match; a target that neither table
    holds is refused with the message that names it. *)
Theorem column_rules
    (float_of_str : string -> option pyfloat)
    (process_categoricals :
       list string -> list string -> DataFrame -> res (pyobj * pyobj * pyobj * pyobj))
    (model : option Model.t) (train test : DataFrame) (target_column : string)
    (serializer : option Serializer.t) (maximum_rows_for_test : Z)
    (feature_metadata : option FeatureMetadata.t) (w : world) :
  earlier_checks_pass model serializer train test ->
  len test <= maximum_rows_for_test ->
  let r := fst (run (__init__ float_of_str process_categoricals model train
                       test target_column serializer maximum_rows_for_test
                       feature_metadata) w) in
  (target_column ∈ columns test -> ~ same_columns train test ->
   r = Raise (UserConfigValidationException
                "The features in train and test data do not match"))
  /\ (target_column ∉ columns test -> target_column ∉ columns train ->
      r = Raise (UserConfigValidationException
                   ("Target name " +:+ target_column
                    +:+ " not present in train data"))).
Proof.
  intros Hearlier Hmax r. subst r.
  destruct (validation_after_sizes model train test target_column serializer
              maximum_rows_for_test feature_metadata
              (before_validation target_column test feature_metadata w)
              Hearlier Hmax) as (w1 & Ha & _ & _ & Hrun).
  assert (attr_is "_is_true_y_present"
            (Some (VObj (PBool (_check_true_y_present target_column test)))) w1)
    as Hb.
  { unfold attr_is. rewrite Ha. apply before_validation_true_y. }
  split.
  - intros Hin Hdiff.
    erewrite init_fails_in_validation; [reflexivity|].
    rewrite Hrun, run_bind, (validate_columns_run _ _ _ _ _ Hb).
    unfold _check_true_y_present. rewrite (bool_decide_eq_true_2 _ Hin).
    destruct (bool_decide (list_difference (columns train) (columns test) ≠ [])
              || bool_decide (list_difference (columns test) (columns train) ≠ []))
      eqn:E; [reflexivity|].
    apply same_columns_differences in E. contradiction.
  - intros Hout Hmissing.
    erewrite init_fails_in_validation; [reflexivity|].
    rewrite Hrun, run_bind, (validate_columns_run _ _ _ _ _ Hb).
    unfold _check_true_y_present. rewrite (bool_decide_eq_false_2 _ Hout).
    rewrite andb_false_r.
    destruct (decide (target_column ∉ columns train)); [reflexivity|contradiction].
Qed.

Lemma column_rules_witness :
  fst (run (__init__ Examples.no_float_strings Examples.no_categoricals
              None Examples.sales sales_features "price" None 5000
              (Some Examples.metadata)) empty_world)
  = Raise (UserConfigValidationException
             "Target name price not present in train data").
Proof.
  apply (column_rules Examples.no_float_strings Examples.no_categoricals
           None Examples.sales sales_features "price" None 5000
           (Some Examples.metadata) empty_world).
  - repeat split; try discriminate; reflexivity.
  - vm_compute. discriminate.
  - compute_done.
  - compute_done.
Defined.

(** ** The rules on the kinds of features *)

Lemma init_passes_blocks
    float_of_str process_categoricals model train test target_column
    serializer maximum_rows_for_test feature_metadata w w' :
  run (__init__ float_of_str process_categoricals model train test
         target_column serializer maximum_rows_for_test feature_metadata) w
  = (Ok tt, w') ->
  exists w1 w2 w3,
    attr_is "_is_true_y_present"
      (Some (VObj (PBool (_check_true_y_present target_column test)))) w1
    /\ attr_is "_feature_metadata"
         (Some (VMetadata (default FeatureMetadata.empty feature_metadata))) w1
    /\ calls w1 = calls w
    /\ run (validate_feature_types train test target_column feature_metadata) w1
       = (Ok tt, w1)
    /\ run (validate_model_predict model test target_column) w1 = (Ok tt, w2)
    /\ run (validate_feature_metadata model train feature_metadata) w2
       = (Ok tt, w3).
Proof.
  intros H. apply init_passes_validation in H as (w3 & H).
  apply validation_blocks in H as (w1 & w2 & Hb1 & _ & _ & Hb4 & Hb5 & Hb6).
  apply validate_model_and_serializer_inv in Hb1 as (_ & _ & Ha & _ & Hc).
  exists w1, w2, w3. unfold attr_is. rewrite Ha, Hc.
  split; [apply before_validation_true_y|].
  split; [|repeat split; assumption].
  unfold before_validation, attrs_before_validation; simpl.
  rewrite lookup_insert_ne by discriminate. apply lookup_insert_eq.
Qed.

(** X5.  What a construction that succeeds says about the kinds of the
    features: metadata was given and lists its categorical features; the
    target is not among them and each of them is a column of [train];
    every feature of [train] that is not numeric is the metadata's time
    column or a categorical feature; and the time column the metadata
    declares is a feature of [train] that is not numeric. *)
Theorem construction_requires_declared_features
    (float_of_str : string -> option pyfloat)
    (process_categoricals :
       list string -> list string -> DataFrame -> res (pyobj * pyobj * pyobj * pyobj))
    (model : option Model.t) (train test : DataFrame) (target_column : string)
    (serializer : option Serializer.t) (maximum_rows_for_test : Z)
    (feature_metadata : option FeatureMetadata.t) (w w' : world) :
  run (__init__ float_of_str process_categoricals model train test
         target_column serializer maximum_rows_for_test feature_metadata) w
  = (Ok tt, w') ->
  exists fm cats,
    feature_metadata = Some fm
    /\ FeatureMetadata.categorical_features fm = Some cats
    /\ (target_column ∉ cats)
    /\ (forall c, c ∈ cats -> c ∈ columns train)
    /\ (forall c, c ∈ string_features train target_column ->
          FeatureMetadata.time_column_name fm = Some c \/ c ∈ cats)
    /\ (forall tc, FeatureMetadata.time_column_name fm = Some tc ->
          tc ∈ string_features train target_column).
Proof.
  intros H.
  apply init_passes_blocks in H as (w1 & w2 & w3 & _ & _ & _ & H & _).
  apply validate_feature_types_inv in H
    as (_ & fm & cats & Hfm & Hcats & _ & Ht & Hc & Hs & Htc).
  exists fm, cats. do 3 (split; [assumption|]).
  split; [intros c Hin; apply Hc; exact Hin|]. split; assumption.
Qed.

Lemma construction_requires_declared_features_witness :
  exists fm cats,
    Some Examples.metadata = Some fm
    /\ FeatureMetadata.categorical_features fm = Some cats
    /\ ("sales" ∉ cats)
    /\ (forall c, c ∈ cats -> c ∈ columns Examples.sales)
    /\ (forall c, c ∈ string_features Examples.sales "sales" ->
          FeatureMetadata.time_column_name fm = Some c \/ c ∈ cats)
    /\ (forall tc, FeatureMetadata.time_column_name fm = Some tc ->
          tc ∈ string_features Examples.sales "sales").
Proof.
  apply (construction_requires_declared_features Examples.no_float_strings
           Examples.no_categoricals (Some Examples.quantile_model)
           Examples.sales Examples.sales "sales" None 5000
           (Some Examples.metadata) empty_world (snd constructed_sales)).
  vm_compute. reflexivity.
Defined.

Lemma validate_feature_types_numeric_time
    train test target_column fm cats tc w :
  FeatureMetadata.categorical_features fm = Some cats ->
  check_categorical_features train test target_column cats = Ok tt ->
  FeatureMetadata.time_column_name fm = Some tc ->
  tc ∉ string_features train target_column ->
  run (validate_feature_types train test target_column (Some fm)) w
  = (Raise (KeyError tc), w).
Proof.
  intros Hcats Hcheck Htc Hout. unfold validate_feature_types.
  rewrite run_bind. simpl (run (mret _) w). cbv beta iota. rewrite Hcats.
  rewrite run_bind.
  assert (run (if 0 <? Z.of_nat (length cats)
               then lift (check_categorical_features train test target_column cats)
               else mret ()) w = (Ok tt, w)) as ->
    by (destruct (0 <? Z.of_nat (length cats)); [rewrite Hcheck|]; reflexivity).
  unfold string_features in Hout. unfold check_categorical_features in Hcheck.
  destruct (decide (target_column ∈ cats)); [discriminate|].
  destruct (drop train target_column) as [train_x|]; [|discriminate].
  rewrite run_bind. simpl (run (lift _) w). cbv beta iota.
  rewrite run_bind. simpl (Some fm ≫= _). rewrite Htc.
  destruct (decide (tc ∈ remove_dups (list_difference (columns train_x)
                                        (numeric_columns train_x))));
    [contradiction|reflexivity].
Qed.

(** X6.  A time column that is a numeric column of [train], or no
    feature of [train] at all, cannot be declared: when the rules before
    are met, removing it from the set of string features (line 281) is a
    [KeyError] on its name. *)
Theorem numeric_time_column_is_a_key_error
    (float_of_str : string -> option pyfloat)
    (process_categoricals :
       list string -> list string -> DataFrame -> res (pyobj * pyobj * pyobj * pyobj))
    (model : option Model.t) (train test : DataFrame) (target_column : string)
    (serializer : option Serializer.t) (maximum_rows_for_test : Z)
    (fm : FeatureMetadata.t) (cats : list string) (tc : string) (w : world) :
  data_checks_pass model serializer train test target_column
    maximum_rows_for_test ->
  FeatureMetadata.categorical_features fm = Some cats ->
  check_categorical_features train test target_column cats = Ok tt ->
  FeatureMetadata.time_column_name fm = Some tc ->
  tc ∉ string_features train target_column ->
  fst (run (__init__ float_of_str process_categoricals model train test
              target_column serializer maximum_rows_for_test (Some fm)) w)
  = Raise (KeyError tc).
Proof.
  intros (Hearlier & Hmax & Hin & Hsame) Hcats Hcheck Htc Hout.
  destruct (validation_after_sizes model train test target_column serializer
              maximum_rows_for_test (Some fm)
              (before_validation target_column test (Some fm) w)
              Hearlier Hmax) as (w1 & Ha & _ & _ & Hrun).
  assert (attr_is "_is_true_y_present"
            (Some (VObj (PBool (_check_true_y_present target_column test)))) w1)
    as Hb.
  { unfold attr_is. rewrite Ha. apply before_validation_true_y. }
  erewrite init_fails_in_validation; [reflexivity|].
  rewrite Hrun, run_bind, (validate_columns_run _ _ _ _ _ Hb).
  assert ((bool_decide (list_difference (columns train) (columns test) ≠ [])
           || bool_decide (list_difference (columns test) (columns train) ≠ []))
          && _check_true_y_present target_column test = false) as ->.
  { unfold _check_true_y_present.
    destruct (decide (target_column ∈ columns test)) as [Ht|Ht].
    - rewrite (proj1 (same_columns_differences _ _) (Hsame Ht)). reflexivity.
    - rewrite (bool_decide_eq_false_2 _ Ht). apply andb_false_r. }
  destruct (decide (target_column ∉ columns train)); [contradiction|].
  rewrite run_bind.
  rewrite (validate_feature_types_numeric_time _ _ _ _ _ _ _ Hcats Hcheck Htc Hout).
  reflexivity.
Qed.

Lemma numeric_time_column_is_a_key_error_witness :
  fst (run (__init__ Examples.no_float_strings Examples.no_categoricals
              None Examples.sales Examples.sales "sales" None 5000
              (Some metadata_numeric_time)) empty_world)
  = Raise (KeyError "store_id").
Proof.
  apply (numeric_time_column_is_a_key_error Examples.no_float_strings
           Examples.no_categoricals None Examples.sales Examples.sales "sales"
           None 5000 metadata_numeric_time ["date"] "store_id" empty_world).
  - split; [repeat split; try discriminate; reflexivity|].
    split; [vm_compute; discriminate|]. split; [compute_done|].
    intros _ c. reflexivity.
  - reflexivity.
  - vm_compute. reflexivity.
  - reflexivity.
  - compute_done.
Defined.

(** ** The probe of the model *)

Lemma construction_requires_rows
    float_of_str process_categoricals model train test target_column
    serializer maximum_rows_for_test feature_metadata w w' :
  run (__init__ float_of_str process_categoricals model train test
         target_column serializer maximum_rows_for_test feature_metadata) w
  = (Ok tt, w') ->
  df_rows test ≠ [].
Proof.
  intros H. apply init_passes_validation in H as (w2 & H).
  apply validation_blocks in H as (w1 & w3 & _ & Hb2 & _).
  rewrite validate_sizes_run in Hb2.
  destruct ((len train <=? 0) || (len test <=? 0)) eqn:E1; [discriminate|].
  apply orb_false_iff in E1 as [_ E1]. apply Z.leb_gt in E1.
  intros E. unfold len in E1. rewrite E in E1. simpl in E1. lia.
Qed.

Lemma probe_row_shape test target_column :
  df_rows test ≠ [] ->
  len (probe_row test target_column) = 1
  /\ (target_column ∉ columns (probe_row test target_column)).
Proof.
  intros Hrows. unfold probe_row.
  destruct (drop (iloc_0_1 test) target_column) as [small|e] eqn:E.
  - apply drop_inv in E as (_ & Hcols & _ & Hlen). split.
    + unfold len. rewrite Hlen. simpl.
      destruct (df_rows test); [contradiction|reflexivity].
    + rewrite Hcols. intros Hin. apply list_elem_of_filter in Hin as [Hne _].
      contradiction.
  - split.
    + unfold len. simpl. destruct (df_rows test); [contradiction|reflexivity].
    + unfold drop in E.
      destruct (decide (target_column ∈ columns (iloc_0_1 test)));
        [discriminate|assumption].
Qed.

(** X7.  A model that construction accepts has a [predict] method that
    was tried on the first row of the test set, without the target
    column: there it returned, and it left the columns of that row as
    they were. *)
Theorem accepted_model_predicts
    (float_of_str : string -> option pyfloat)
    (process_categoricals :
       list string -> list string -> DataFrame -> res (pyobj * pyobj * pyobj * pyobj))
    (m : Model.t) (train test : DataFrame) (target_column : string)
    (serializer : option Serializer.t) (maximum_rows_for_test : Z)
    (feature_metadata : option FeatureMetadata.t) (w w' : world) :
  run (__init__ float_of_str process_categoricals (Some m) train test
         target_column serializer maximum_rows_for_test feature_metadata) w
  = (Ok tt, w') ->
  exists f,
    Model.predict m = Some f
    /\ is_ok (snd (f (probe_row test target_column))) = true
    /\ columns (fst (f (probe_row test target_column)))
       = columns (probe_row test target_column)
    /\ len (probe_row test target_column) = 1
    /\ (target_column ∉ columns (probe_row test target_column)).
Proof.
  intros H.
  pose proof (construction_requires_rows _ _ _ _ _ _ _ _ _ _ _ H) as Hrows.
  apply init_passes_blocks in H as (w1 & w2 & w3 & Hb & _ & _ & _ & H & _).
  apply (validate_model_predict_inv _ _ _ _ _ Hb) in H
    as (f & Hf & Hok & Hcols & _).
  exists f. do 3 (split; [assumption|]).
  apply probe_row_shape. exact Hrows.
Qed.

Lemma accepted_model_predicts_witness :
  exists f,
    Model.predict Examples.quantile_model = Some f
    /\ is_ok (snd (f (probe_row Examples.sales "sales"))) = true
    /\ columns (fst (f (probe_row Examples.sales "sales")))
       = columns (probe_row Examples.sales "sales")
    /\ len (probe_row Examples.sales "sales") = 1
    /\ ("sales" ∉ columns (probe_row Examples.sales "sales")).
Proof.
  apply (accepted_model_predicts Examples.no_float_strings
           Examples.no_categoricals Examples.quantile_model
           Examples.sales Examples.sales "sales" None 5000
           (Some Examples.metadata) empty_world (snd constructed_sales)).
  vm_compute. reflexivity.
Defined.

(** ** The anatomy of a construction that succeeds *)

Lemma setattr_inv k v w a w' :
  run (setattr k v) w = (Ok a, w') -> w' = with_attr w k v.
Proof. intros [= _ <-]. reflexivity. Qed.

Lemma lookup_with_attrs w l k :
  attrs (with_attrs w l) !! k
  = match last_assignment k l with
    | Some v => Some v
    | None => attrs w !! k
    end.
Proof.
  unfold with_attrs, last_assignment.
  induction l as [|[k' v] l IH] using rev_ind; [reflexivity|].
  rewrite !foldl_app. simpl. destruct (decide (k' = k)) as [->|Hne].
  - apply lookup_insert_eq.
  - rewrite lookup_insert_ne by exact Hne. exact IH.
Qed.

Lemma test_without_true_y_eq test target_column :
  (if negb (_check_true_y_present target_column test) then Ok test
   else drop test target_column)
  = Ok (test_without_true_y test target_column).
Proof.
  unfold _check_true_y_present, test_without_true_y, drop.
  destruct (decide (target_column ∈ columns test)) as [Hin|Hn].
  - rewrite bool_decide_eq_true_2 by exact Hin. reflexivity.
  - rewrite bool_decide_eq_false_2 by exact Hn. reflexivity.
Qed.

Lemma generate_time_series_cohorts_inv w cohorts w' :
  run _generate_time_series_cohorts w = (Ok cohorts, w') ->
  w' = w
  /\ exists test fm,
       attr_is "test" (Some (VFrame test)) w
       /\ attr_is "_feature_metadata" (Some (VMetadata fm)) w
       /\ time_series_cohorts test
            (FeatureMetadata.time_series_id_column_names fm) = Ok cohorts.
Proof.
  unfold _generate_time_series_cohorts. intros H.
  apply run_bind_inv in H as (v1 & w1 & H1 & H).
  apply getattr_inv in H1 as [-> Hv1].
  apply run_bind_inv in H as (test & w2 & H2 & H).
  apply lift_inv in H2 as [H2 ->].
  apply run_bind_inv in H as (v2 & w3 & H3 & H).
  apply getattr_inv in H3 as [-> Hv2].
  apply run_bind_inv in H as (fm & w4 & H4 & H).
  apply lift_inv in H4 as [H4 ->].
  apply lift_inv in H as [H ->].
  split; [reflexivity|]. exists test, fm.
  destruct v1; try discriminate. injection H2 as ->.
  destruct v2; try discriminate. injection H4 as ->.
  repeat split; assumption.
Qed.

(** A construction that returns has validated its arguments, summarised
    the features, stored what lines 103 to 122 store, cached the
    predictions and generated the cohorts, in this order. *)
Lemma init_anatomy
    float_of_str process_categoricals model train test target_column
    serializer maximum_rows_for_test feature_metadata w w' :
  run (__init__ float_of_str process_categoricals model train test
         target_column serializer maximum_rows_for_test feature_metadata) w
  = (Ok tt, w') ->
  exists wv fm ranges cats wc cohorts,
    run (_validate_rai_insights_input_parameters model train test
           target_column serializer maximum_rows_for_test feature_metadata)
      (before_validation target_column test feature_metadata w) = (Ok tt, wv)
    /\ attr_is "_feature_metadata" (Some (VMetadata fm)) wv
    /\ attr_is "_is_true_y_present"
         (Some (VObj (PBool (_check_true_y_present target_column test)))) wv
    /\ _get_feature_ranges float_of_str test
         (default [] (FeatureMetadata.categorical_features fm))
         (columns (test_without_true_y test target_column))
         (FeatureMetadata.time_column_name fm) = Ok ranges
    /\ process_categoricals
         (columns (test_without_true_y test target_column))
         (default [] (FeatureMetadata.categorical_features fm))
         (test_without_true_y test target_column) = Ok cats
    /\ run (cache_predictions model)
         (with_attrs wv (stored_before_cache model train test target_column
                           serializer ranges cats)) = (Ok tt, wc)
    /\ run _generate_time_series_cohorts wc = (Ok cohorts, wc)
    /\ w' = with_attr wc "_time_series" (VCohorts cohorts).
Proof.
  intros H. unfold __init__ in H.
  apply run_bind_inv in H as ([] & w1 & Hs & H). apply setattr_inv in Hs as ->.
  apply run_bind_inv in H as ([] & w2 & Hs & H). apply setattr_inv in Hs as ->.
  apply run_bind_inv in H as ([] & w3 & Hs & H). apply setattr_inv in Hs as ->.
  apply run_bind_inv in H as ([] & wv & Hv & H).
  change (with_attr (with_attr (with_attr w _ _) _ _) _ _)
    with (before_validation target_column test feature_metadata w) in Hv.
  assert (attr_is "_is_true_y_present"
            (Some (VObj (PBool (_check_true_y_present target_column test)))) wv)
    as Hb.
  { eapply keeps_attr_validate; [|apply before_validation_true_y|exact Hv].
    discriminate. }
  assert (attr_is "task_type" (Some (VObj (PStr "forecasting"))) wv) as Ht.
  { eapply keeps_attr_validate; [| |exact Hv]; [discriminate|].
    apply lookup_insert_eq. }
  apply run_bind_inv in H as ([] & w5 & Hs & H). apply setattr_inv in Hs as ->.
  apply run_bind_inv in H as (b & w6 & Hg & H).
  apply getattr_inv in Hg as [-> Hg]. simpl in Hg.
  rewrite lookup_insert_ne in Hg by discriminate.
  unfold attr_is in Hb. rewrite Hb in Hg. injection Hg as <-.
  apply run_bind_inv in H as (features & w7 & Hf & H).
  assert (features = test_without_true_y test target_column
          /\ w7 = with_attr wv "_classes" VNone) as [-> ->].
  { pose proof (test_without_true_y_eq test target_column) as E.
    simpl truthy in Hf.
    destruct (_check_true_y_present target_column test);
      cbv beta iota delta [negb] in Hf, E.
    - apply lift_inv in Hf as [Hf ->]. rewrite E in Hf. injection Hf as <-.
      split; reflexivity.
    - apply mret_inv in Hf as [-> ->]. injection E as <-. split; reflexivity. }
  apply run_bind_inv in H as ([] & w8 & Hs & H). apply setattr_inv in Hs as ->.
  apply run_bind_inv in H as ([] & w9 & Hs & H). apply setattr_inv in Hs as ->.
  apply run_bind_inv in H as (vfm & w10 & Hg & H).
  apply getattr_inv in Hg as [-> Hg].
  apply run_bind_inv in H as (fm & w11 & Hfm & H).
  apply lift_inv in Hfm as [Hfm ->].
  destruct vfm; try discriminate. injection Hfm as ->.
  simpl in Hg. rewrite !lookup_insert_ne in Hg by discriminate.
  apply run_bind_inv in H as (ranges & w12 & Hr & H).
  apply lift_inv in Hr as [Hr ->].
  apply run_bind_inv in H as ([] & w13 & Hs & H). apply setattr_inv in Hs as ->.
  apply run_bind_inv in H as (cats & w14 & Hc & H).
  apply lift_inv in Hc as [Hc ->].
  do 4 (apply run_bind_inv in H as ([] & ?w & Hs & H);
        apply setattr_inv in Hs as ->).
  apply run_bind_inv in H as (tt' & w19 & Hg' & H).
  apply getattr_inv in Hg' as [-> Hg']. simpl in Hg'.
  rewrite !lookup_insert_ne in Hg' by discriminate.
  unfold attr_is in Ht. rewrite Ht in Hg'. injection Hg' as <-.
  apply run_bind_inv in H as ([] & wb & Hbase & H).
  unfold RAIBaseInsights_init, _initialize_managers in Hbase.
  do 6 (apply run_bind_inv in Hbase as ([] & ?w & Hs & Hbase);
        apply setattr_inv in Hs as ->).
  apply setattr_inv in Hbase as ->.
  apply run_bind_inv in H as ([] & wc & Hcache & H).
  apply run_bind_inv in H as (cohorts & wd & Hgen & H).
  pose proof (generate_time_series_cohorts_inv _ _ _ Hgen) as [-> _].
  apply setattr_inv in H as ->.
  exists wv, fm, ranges, cats, wc, cohorts.
  split; [exact Hv|]. split; [exact Hg|]. split; [exact Hb|].
  split; [exact Hr|]. split; [exact Hc|]. split; [exact Hcache|].
  split; [exact Hgen|reflexivity].
Qed.

Lemma validate_model_predict_calls model test target_column w w' :
  attr_is "_is_true_y_present"
    (Some (VObj (PBool (_check_true_y_present target_column test)))) w ->
  run (validate_model_predict model test target_column) w = (Ok tt, w') ->
  attrs w' = attrs w /\ files w' = files w /\ warnings w' = warnings w
  /\ calls w' = (calls w ++ probe_calls model test target_column)%list.
Proof.
  intros Hb H. destruct model as [m|].
  - apply (validate_model_predict_inv _ _ _ _ _ Hb) in H
      as (f & _ & _ & _ & Ha & Hf & Hw & Hc).
    repeat split; assumption.
  - apply mret_inv in H as [_ ->]. simpl. rewrite app_nil_r.
    repeat split; reflexivity.
Qed.

(** What a validation that returns has done to the instance: the
    metadata it holds has a time column, and the only calls are those of
    the probe. *)
Lemma validation_resolves_time_column
    model train test target_column serializer maximum_rows_for_test fm0 w wv :
  attr_is "_is_true_y_present"
    (Some (VObj (PBool (_check_true_y_present target_column test)))) w ->
  attr_is "_feature_metadata" (Some (VMetadata fm0)) w ->
  run (_validate_rai_insights_input_parameters model train test target_column
         serializer maximum_rows_for_test (Some fm0)) w = (Ok tt, wv) ->
  files wv = files w
  /\ calls wv = (calls w ++ probe_calls model test target_column)%list
  /\ exists fm tc,
       attr_is "_feature_metadata" (Some (VMetadata fm)) wv
       /\ FeatureMetadata.time_column_name fm = Some tc
       /\ (forall mtc, model_time_column_name model = Some mtc -> tc = mtc)
       /\ (forall ftc, FeatureMetadata.time_column_name fm0 = Some ftc -> tc = ftc)
       /\ tc ∈ columns train
       /\ FeatureMetadata.time_series_id_column_names fm
          = FeatureMetadata.time_series_id_column_names fm0
       /\ FeatureMetadata.categorical_features fm
          = FeatureMetadata.categorical_features fm0
       /\ (model ≠ None -> is_forecaster model = true).
Proof.
  intros Hb Hfm H.
  apply validation_blocks in H as (w1 & w2 & Hb1 & _ & _ & Hb4 & Hb5 & Hb6).
  apply validate_model_and_serializer_inv in Hb1 as (_ & _ & Ha1 & Hf1 & Hc1).
  unfold attr_is in Hb, Hfm. rewrite <- Ha1 in Hb, Hfm.
  assert (model ≠ None -> is_forecaster model = true) as Hfc.
  { destruct model as [m|]; [intros _|congruence].
    apply (validate_model_predict_inv _ _ _ _ _ Hb) in Hb5 as (f & Hf & _).
    unfold is_forecaster. rewrite Hf. apply bool_decide_eq_true_2. eauto. }
  apply (validate_model_predict_calls _ _ _ _ _ Hb) in Hb5
    as (Ha2 & Hf2 & _ & Hc2).
  rewrite <- Ha2 in Hfm.
  apply (validate_feature_metadata_inv _ _ _ _ _ Hfm) in Hb6
    as (fm & Hfm' & _ & Hf3 & _ & Hc3 & (tc & Htc & Hm & Hf & Hnew) & Hids & Hcats).
  split; [congruence|]. split; [congruence|].
  exists fm, tc. do 4 (split; [assumption|]).
  split; [|repeat split; assumption].
  destruct (FeatureMetadata.time_column_name fm0) as [ftc|] eqn:E;
    [|apply Hnew; reflexivity].
  rewrite (Hf ftc eq_refl).
  apply validate_feature_types_inv in Hb4
    as (_ & fm1 & cats & [= <-] & _ & _ & _ & _ & _ & Hstr).
  specialize (Hstr ftc E). unfold string_features in Hstr.
  destruct (drop train target_column) as [train_x|] eqn:Ed; [|inversion Hstr].
  apply elem_of_remove_dups, list_elem_of_difference in Hstr as [Hstr _].
  apply drop_inv in Ed as (_ & Hcols & _). rewrite Hcols in Hstr.
  apply list_elem_of_filter in Hstr. tauto.
Qed.

(** ** The cache of predictions, step by step *)

Lemma store_table_inv df b w w' :
  attr_is "_is_true_y_present" (Some (VObj (PBool b))) w ->
  run (store_table df) w = (Ok tt, w') ->
  w' = with_attrs w (table_attrs b df).
Proof.
  intros Hb H. unfold store_table in H.
  apply run_bind_inv in H as ([] & w1 & Hs & H). apply setattr_inv in Hs as ->.
  apply run_bind_inv in H as (v & w2 & Hg & H).
  apply getattr_inv in Hg as [-> Hg]. simpl in Hg.
  rewrite lookup_insert_ne in Hg by discriminate.
  unfold attr_is in Hb. rewrite Hb in Hg. injection Hg as <-.
  destruct b; simpl in H.
  - injection H as <-. reflexivity.
  - injection H as <-. reflexivity.
Qed.

Lemma call_predict_run_inv model df w r w' :
  run (call_predict model df) w = (Ok r, w') ->
  exists m f,
    model = Some m /\ Model.predict m = Some f
    /\ r = (fst (f df), forecasts <$> snd (f df))
    /\ w' = with_call w (CallPredict df).
Proof.
  unfold call_predict. destruct model as [m|]; [|discriminate].
  destruct (Model.predict m) as [f|] eqn:E; [|discriminate].
  intros [= <- <-]. exists m, f. repeat split; assumption.
Qed.

Lemma call_predict_quantiles_run_inv model df w r w' :
  run (call_predict_quantiles model df) w = (Ok r, w') ->
  exists m f,
    model = Some m /\ Model.predict_quantiles m = Some f
    /\ r = (fst (f df), forecasts <$> snd (f df))
    /\ w' = with_call w (CallPredictQuantiles df).
Proof.
  unfold call_predict_quantiles. destruct model as [m|]; [|discriminate].
  destruct (Model.predict_quantiles m) as [f|] eqn:E; [|discriminate].
  intros [= <- <-]. exists m, f. repeat split; assumption.
Qed.

Lemma lookup_table_attrs_other b df w k :
  k ≠ "_test_without_true_y" -> k ≠ "test" ->
  attrs (with_attrs w (table_attrs b df)) !! k = attrs w !! k.
Proof.
  intros H1 H2. destruct b; simpl; rewrite !lookup_insert_ne by congruence;
    reflexivity.
Qed.

Lemma lookup_table_attrs_features b df w :
  attrs (with_attrs w (table_attrs b df)) !! "_test_without_true_y"
  = Some (VFrame df).
Proof.
  destruct b; simpl; [|rewrite lookup_insert_ne by discriminate];
    apply lookup_insert_eq.
Qed.

(** The cache of predictions, for a model that has [predict]: when it
    returns, the model has [predict_quantiles] as well, and the world is
    the one [after_cache] describes. *)
Lemma cache_predictions_forecaster_inv model features b w wc :
  is_forecaster model = true ->
  attr_is "_test_without_true_y" (Some (VFrame features)) w ->
  attr_is "_is_true_y_present" (Some (VObj (PBool b))) w ->
  run (cache_predictions model) w = (Ok tt, wc) ->
  exists m f q p1 p2,
    model = Some m /\ Model.predict m = Some f
    /\ Model.predict_quantiles m = Some q
    /\ snd (f features) = Ok p1 /\ snd (q (fst (f features))) = Ok p2
    /\ wc = after_cache f q b features p1 p2 w.
Proof.
  intros Hfc Hdf Hb H. unfold cache_predictions in H. rewrite Hfc in H.
  apply run_bind_inv in H as (v & w1 & Hg & H).
  apply getattr_inv in Hg as [-> Hg]. unfold attr_is in Hdf.
  rewrite Hdf in Hg. injection Hg as <-.
  apply run_bind_inv in H as (df & w2 & Hl & H).
  apply lift_inv in Hl as [[= <-] ->].
  apply run_bind_inv in H as (r & w3 & Hcall & H).
  apply call_predict_run_inv in Hcall as (m & f & -> & Hf & -> & ->).
  apply run_bind_inv in H as ([] & w4 & Hst & H).
  apply store_table_inv with (b := b) in Hst; [|exact Hb]. subst w4.
  apply run_bind_inv in H as (out & w5 & Hout & H).
  apply lift_inv in Hout as [Hout ->]. cbn [snd] in Hout.
  apply fmap_res_ok in Hout as (p1 & Hp1 & ->).
  apply run_bind_inv in H as ([] & w6 & Hs & H). apply setattr_inv in Hs as ->.
  unfold truth_of_function in H. cbv iota in H.
  apply run_bind_inv in H as (v & w7 & Hg & H).
  apply getattr_inv in Hg as [-> Hg]. cbn [fst] in Hg.
  simpl attrs in Hg. rewrite lookup_insert_ne in Hg by discriminate.
  rewrite lookup_table_attrs_features in Hg. injection Hg as <-.
  apply run_bind_inv in H as (df & w8 & Hl & H).
  apply lift_inv in Hl as [[= <-] ->].
  apply run_bind_inv in H as (r & w9 & Hcall & H).
  apply call_predict_quantiles_run_inv in Hcall
    as (m' & q & [= <-] & Hq & -> & ->).
  apply run_bind_inv in H as ([] & w10 & Hst & H).
  apply store_table_inv with (b := b) in Hst.
  2:{ unfold attr_is. simpl attrs. rewrite lookup_insert_ne by discriminate.
      rewrite lookup_table_attrs_other by discriminate. exact Hb. }
  subst w10.
  apply run_bind_inv in H as (out & w11 & Hout & H).
  apply lift_inv in Hout as [Hout ->]. cbn [fst snd] in Hout.
  apply fmap_res_ok in Hout as (p2 & Hp2 & ->).
  apply setattr_inv in H as ->.
  exists m, f, q, p1, p2. repeat split; assumption.
Qed.

Lemma cache_predictions_inv model features b w wc :
  attr_is "_test_without_true_y" (Some (VFrame features)) w ->
  attr_is "_is_true_y_present" (Some (VObj (PBool b))) w ->
  run (cache_predictions model) w = (Ok tt, wc) ->
  (is_forecaster model = false
   /\ wc = with_attrs w [("predict_output", VNone);
                         ("quantile_predict_output", VNone)])
  \/ (exists m f q p1 p2,
        model = Some m /\ Model.predict m = Some f
        /\ Model.predict_quantiles m = Some q
        /\ snd (f features) = Ok p1 /\ snd (q (fst (f features))) = Ok p2
        /\ wc = after_cache f q b features p1 p2 w).
Proof.
  intros Hdf Hb H. destruct (is_forecaster model) eqn:E.
  - right. eapply cache_predictions_forecaster_inv; eassumption.
  - left. split; [reflexivity|].
    rewrite (cache_predictions_not_forecaster _ _ E) in H.
    injection H as <-. reflexivity.
Qed.

(** an attribute that neither the cache of predictions nor the cohorts
    touch is, in the end, what it was before the cache *)
Lemma constructed_attr model wb wc cohorts k o :
  k ≠ "_test_without_true_y" -> k ≠ "test" -> k ≠ "predict_output" ->
  k ≠ "quantile_predict_output" -> k ≠ "_time_series" ->
  run (cache_predictions model) wb = (Ok tt, wc) ->
  attr_is k o wb ->
  attr_is k o (with_attr wc "_time_series" (VCohorts cohorts)).
Proof.
  intros H1 H2 H3 H4 H5 Hcache Hk. unfold attr_is; simpl.
  rewrite lookup_insert_ne by congruence.
  eapply (keeps_attr_cache_predictions k o model); eassumption.
Qed.

Lemma filter_other_id (c : string) (l : list string) :
  c ∉ l -> filter (fun x => x ≠ c) l = l.
Proof.
  induction l as [|x l IH]; [reflexivity|]. intros Hn.
  apply not_elem_of_cons in Hn as [Hne Hn].
  rewrite filter_cons. destruct (decide (x ≠ c)) as [|Heq];
    [|destruct Heq; congruence].
  f_equal. apply IH. exact Hn.
Qed.

Lemma columns_test_without_true_y test target_column :
  columns (test_without_true_y test target_column)
  = filter (fun c => c ≠ target_column) (columns test).
Proof.
  unfold test_without_true_y.
  destruct (drop test target_column) as [features|e] eqn:E.
  - apply drop_inv in E. tauto.
  - symmetry. apply filter_other_id. unfold drop in E.
    destruct (decide (target_column ∈ columns test)); [discriminate|assumption].
Qed.

(** ** The instance after construction *)

Lemma construction_requires_declared_features_aux
    float_of_str process_categoricals model train test target_column
    serializer maximum_rows_for_test feature_metadata w w' :
  run (__init__ float_of_str process_categoricals model train test
         target_column serializer maximum_rows_for_test feature_metadata) w
  = (Ok tt, w') ->
  exists fm, feature_metadata = Some fm.
Proof.
  intros H.
  apply init_passes_blocks in H as (w1 & w2 & w3 & _ & _ & _ & H & _).
  apply validate_feature_types_inv in H as (_ & fm & _ & Hfm & _). eauto.
Qed.

(** X8.  After a construction that succeeds the instance knows its time
    column: the metadata it holds names one, which is the one the given
    metadata declares if it declares one, is the one the model declares if
    it declares one, and is a column of [train]. *)
Theorem constructed_instance_has_time_column
    (float_of_str : string -> option pyfloat)
    (process_categoricals :
       list string -> list string -> DataFrame -> res (pyobj * pyobj * pyobj * pyobj))
    (model : option Model.t) (train test : DataFrame) (target_column : string)
    (serializer : option Serializer.t) (maximum_rows_for_test : Z)
    (feature_metadata : option FeatureMetadata.t) (w w' : world) :
  run (__init__ float_of_str process_categoricals model train test
         target_column serializer maximum_rows_for_test feature_metadata) w
  = (Ok tt, w') ->
  exists fm tc,
    attr_is "_feature_metadata" (Some (VMetadata fm)) w'
    /\ FeatureMetadata.time_column_name fm = Some tc
    /\ (forall mtc, model_time_column_name model = Some mtc -> tc = mtc)
    /\ (forall ftc,
          feature_metadata ≫= FeatureMetadata.time_column_name = Some ftc ->
          tc = ftc)
    /\ tc ∈ columns train.
Proof.
  intros H.
  destruct (construction_requires_declared_features_aux _ _ _ _ _ _ _ _ _ _ _ H)
    as [fm0 ->].
  apply init_anatomy in H
    as (wv & fm & ranges & cats & wc & cohorts
        & Hv & Hfm & Hb & Hr & Hc & Hcache & Hgen & ->).
  apply validation_resolves_time_column with (fm0 := fm0) in Hv.
  2:{ apply before_validation_true_y. }
  2:{ unfold attr_is, before_validation, attrs_before_validation; simpl.
      rewrite lookup_insert_ne by discriminate. apply lookup_insert_eq. }
  destruct Hv as (_ & _ & fm' & tc & Hfm' & Htc & Hm & Hf & Hin & _ & _ & _).
  unfold attr_is in Hfm, Hfm'. rewrite Hfm in Hfm'. injection Hfm' as <-.
  exists fm, tc. split; [|repeat split; assumption].
  eapply constructed_attr; [discriminate..|exact Hcache|].
  unfold attr_is. rewrite lookup_with_attrs. exact Hfm.
Qed.

Lemma constructed_instance_has_time_column_witness :
  exists fm tc,
    attr_is "_feature_metadata" (Some (VMetadata fm)) (snd constructed_sales)
    /\ FeatureMetadata.time_column_name fm = Some tc
    /\ tc ∈ columns Examples.sales.
Proof.
  destruct (constructed_instance_has_time_column Examples.no_float_strings
              Examples.no_categoricals (Some Examples.quantile_model)
              Examples.sales Examples.sales "sales" None 5000
              (Some Examples.metadata) empty_world (snd constructed_sales))
    as (fm & tc & H1 & H2 & _ & _ & H3).
  - vm_compute. reflexivity.
  - exists fm, tc. repeat split; assumption.
Defined.

Lemma get_feature_ranges_entries
    float_of_str test categorical_features feature_columns time_column_name
    ranges :
  _get_feature_ranges float_of_str test categorical_features feature_columns
    time_column_name = Ok ranges ->
  Forall2 entry_of feature_columns ranges.
Proof.
  unfold _get_feature_ranges. apply mapM_res_inv.
  intros col r. apply feature_range_entry.
Qed.

(** X9.  What the instance holds after a construction that succeeds: the
    flag that tells whether the test set has the target, the task type
    "forecasting", no classes, the feature columns, which are the columns
    of the test set other than the target, in their order, and the
    summary of the test set over these columns, with one entry for each
    of them, in the same order, made with the categorical features and
    the time column of the metadata the instance holds. *)
Theorem constructed_instance_summarises_features
    (float_of_str : string -> option pyfloat)
    (process_categoricals :
       list string -> list string -> DataFrame -> res (pyobj * pyobj * pyobj * pyobj))
    (model : option Model.t) (train test : DataFrame) (target_column : string)
    (serializer : option Serializer.t) (maximum_rows_for_test : Z)
    (feature_metadata : option FeatureMetadata.t) (w w' : world) :
  run (__init__ float_of_str process_categoricals model train test
         target_column serializer maximum_rows_for_test feature_metadata) w
  = (Ok tt, w') ->
  let feature_columns :=
    filter (fun c => c ≠ target_column) (columns test) in
  exists fm ranges,
    attr_is "_is_true_y_present"
      (Some (VObj (PBool (_check_true_y_present target_column test)))) w'
    /\ attr_is "task_type" (Some (VObj (PStr "forecasting"))) w'
    /\ attr_is "_classes" (Some VNone) w'
    /\ attr_is "_feature_columns" (Some (VObj (str_list feature_columns))) w'
    /\ attr_is "_feature_metadata" (Some (VMetadata fm)) w'
    /\ attr_is "_feature_ranges" (Some (VObj (PList ranges))) w'
    /\ _get_feature_ranges float_of_str test
         (default [] (FeatureMetadata.categorical_features fm))
         feature_columns (FeatureMetadata.time_column_name fm) = Ok ranges
    /\ Forall2 entry_of feature_columns ranges.
Proof.
  intros H feature_columns. subst feature_columns.
  apply init_anatomy in H
    as (wv & fm & ranges & cats & wc & cohorts
        & Hv & Hfm & Hb & Hr & Hc & Hcache & Hgen & ->).
  rewrite columns_test_without_true_y in Hr.
  exists fm, ranges.
  split; [eapply constructed_attr; [discriminate..|exact Hcache|];
          unfold attr_is; rewrite lookup_with_attrs; exact Hb|].
  split; [eapply constructed_attr; [discriminate..|exact Hcache|];
          unfold attr_is; rewrite lookup_with_attrs; reflexivity|].
  split; [eapply constructed_attr; [discriminate..|exact Hcache|];
          unfold attr_is; rewrite lookup_with_attrs; reflexivity|].
  split; [eapply constructed_attr; [discriminate..|exact Hcache|];
          unfold attr_is; rewrite lookup_with_attrs;
          rewrite <- columns_test_without_true_y; reflexivity|].
  split; [eapply constructed_attr; [discriminate..|exact Hcache|];
          unfold attr_is; rewrite lookup_with_attrs; exact Hfm|].
  split; [eapply constructed_attr; [discriminate..|exact Hcache|];
          unfold attr_is; rewrite lookup_with_attrs; reflexivity|].
  split; [exact Hr|]. eapply get_feature_ranges_entries. exact Hr.
Qed.

Lemma constructed_instance_summarises_features_witness :
  attr_is "_feature_columns" (Some (VObj (str_list ["date"; "store_id"])))
    (snd constructed_sales)
  /\ exists ranges,
       attr_is "_feature_ranges" (Some (VObj (PList ranges)))
         (snd constructed_sales)
       /\ Forall2 entry_of ["date"; "store_id"] ranges.
Proof.
  destruct (constructed_instance_summarises_features Examples.no_float_strings
              Examples.no_categoricals (Some Examples.quantile_model)
              Examples.sales Examples.sales "sales" None 5000
              (Some Examples.metadata) empty_world (snd constructed_sales))
    as (fm & ranges & _ & _ & _ & H1 & _ & H2 & _ & H3).
  - vm_compute. reflexivity.
  - split; [exact H1|]. exists ranges. split; [exact H2|exact H3].
Defined.

(** ** The cohorts of a constructed instance *)

Lemma index_of_Some_inv c (l : list string) i :
  index_of c l = Some i -> c ∈ l.
Proof.
  revert i. induction l as [|x l IH]; intros i; simpl; [discriminate|].
  destruct (decide (x = c)) as [->|]; [left|].
  destruct (index_of c l) as [j|]; [|discriminate].
  intros _. right. eapply IH. reflexivity.
Qed.

Lemma positions_inv (ids : list string) (df : DataFrame) ps :
  positions ids df = Ok ps ->
  length ps = length ids /\ forall c, c ∈ ids -> c ∈ columns df.
Proof.
  unfold positions. revert ps. induction ids as [|c ids IH]; intros ps; simpl.
  - intros [= <-]. split; [reflexivity|]. intros c Hc. inversion Hc.
  - destruct (index_of c (columns df)) as [i|] eqn:E; simpl; [|discriminate].
    destruct (mapM _ ids) as [ps'|] eqn:E'; simpl; [|discriminate].
    intros [= <-]. destruct (IH ps' eq_refl) as [Hl Hin].
    split; [simpl; congruence|].
    intros c' Hc'. apply elem_of_cons in Hc' as [->|Hc'];
      [eapply index_of_Some_inv; exact E|apply Hin; exact Hc'].
Qed.

Lemma time_series_cohorts_inv test o cohorts :
  time_series_cohorts test o = Ok cohorts ->
  exists ids,
    o = Some ids /\ ids ≠ [] /\ forall c, c ∈ ids -> c ∈ columns test.
Proof.
  unfold time_series_cohorts. destruct o as [ids|]; [|discriminate].
  unfold getitems. destruct (positions ids test) as [ps|] eqn:E; [|discriminate].
  simpl. unfold value_counts_index; simpl.
  destruct (decide (omap (fun i => df_columns test !! i) ps = [])) as [|Hne];
    [discriminate|].
  intros _. exists ids. apply positions_inv in E as [Hlen Hin].
  split; [reflexivity|]. split; [|exact Hin].
  intros ->. destruct ps; [|discriminate]. apply Hne. reflexivity.
Qed.

Lemma lookup_after_cache_test f q b features p1 p2 w :
  attrs (after_cache f q b features p1 p2 w) !! "test"
  = if b then attrs w !! "test"
    else Some (VFrame (fst (q (fst (f features))))).
Proof.
  unfold after_cache. destruct b; simpl.
  - rewrite !lookup_insert_ne by discriminate. reflexivity.
  - rewrite lookup_insert_ne by discriminate. apply lookup_insert_eq.
Qed.

Lemma calls_with_attrs w l : calls (with_attrs w l) = calls w.
Proof.
  unfold with_attrs. induction l as [|kv l IH] using rev_ind; [reflexivity|].
  rewrite foldl_app. exact IH.
Qed.

Lemma files_with_attrs w l : files (with_attrs w l) = files w.
Proof.
  unfold with_attrs. induction l as [|kv l IH] using rev_ind; [reflexivity|].
  rewrite foldl_app. exact IH.
Qed.

Lemma calls_after_cache f q b features p1 p2 w :
  calls (after_cache f q b features p1 p2 w)
  = (calls w ++ [CallPredict features;
                 CallPredictQuantiles (fst (f features))])%list.
Proof.
  unfold after_cache. cbn [with_attr calls]. rewrite calls_with_attrs.
  cbn [with_attr with_call calls]. rewrite calls_with_attrs.
  cbn [with_call calls]. rewrite <- app_assoc. reflexivity.
Qed.

Lemma stored_features
    model train test target_column serializer ranges cats wv :
  attr_is "_test_without_true_y"
    (Some (VFrame (test_without_true_y test target_column)))
    (with_attrs wv (stored_before_cache model train test target_column
                      serializer ranges cats)).
Proof. unfold attr_is. rewrite lookup_with_attrs. reflexivity. Qed.

Lemma stored_true_y
    model train test target_column serializer ranges cats wv v :
  attr_is "_is_true_y_present" v wv ->
  attr_is "_is_true_y_present" v
    (with_attrs wv (stored_before_cache model train test target_column
                      serializer ranges cats)).
Proof. intros H. unfold attr_is. rewrite lookup_with_attrs. exact H. Qed.

Lemma table_when_cohorts_are_made
    model train test target_column serializer ranges cats wv wc :
  attr_is "_is_true_y_present"
    (Some (VObj (PBool (_check_true_y_present target_column test)))) wv ->
  run (cache_predictions model)
    (with_attrs wv (stored_before_cache model train test target_column
                      serializer ranges cats)) = (Ok tt, wc) ->
  leaves_tables model ->
  attr_is "test" (Some (VFrame test)) wc.
Proof.
  intros Hb Hcache Hpure.
  destruct (cache_predictions_inv _ _ _ _ _
              (stored_features _ _ _ _ _ _ _ _)
              (stored_true_y _ _ _ _ _ _ _ _ _ Hb) Hcache) as [[_ ->]|Hf].
  - unfold attr_is. rewrite !lookup_with_attrs. reflexivity.
  - destruct Hf as (m & f & q & p1 & p2 & -> & Hf & Hq & _ & _ & ->).
    assert (forall df, fst (f df) = df) as Ef by (intros df; eapply Hpure; eauto).
    assert (forall df, fst (q df) = df) as Eq by (intros df; eapply Hpure; eauto).
    unfold attr_is. rewrite lookup_after_cache_test, lookup_with_attrs, Ef, Eq.
    unfold test_without_true_y, _check_true_y_present, drop.
    destruct (decide (target_column ∈ columns test)) as [Hin|Hn].
    + rewrite (bool_decide_eq_true_2 _ Hin). reflexivity.
    + rewrite (bool_decide_eq_false_2 _ Hn). reflexivity.
Qed.

(** X10.  A construction that succeeds was given the id columns of the
    time series: the metadata names at least one, each is a column of the
    table the cohorts are made from, and the cohorts the instance holds
    are those of that table; the table is the test set when the methods
    of the model leave their argument as it is. *)
Theorem constructed_instance_has_cohorts
    (float_of_str : string -> option pyfloat)
    (process_categoricals :
       list string -> list string -> DataFrame -> res (pyobj * pyobj * pyobj * pyobj))
    (model : option Model.t) (train test : DataFrame) (target_column : string)
    (serializer : option Serializer.t) (maximum_rows_for_test : Z)
    (feature_metadata : option FeatureMetadata.t) (w w' : world) :
  run (__init__ float_of_str process_categoricals model train test
         target_column serializer maximum_rows_for_test feature_metadata) w
  = (Ok tt, w') ->
  exists ids cohorts table,
    feature_metadata ≫= FeatureMetadata.time_series_id_column_names = Some ids
    /\ ids ≠ []
    /\ (forall c, c ∈ ids -> c ∈ columns table)
    /\ time_series_cohorts table (Some ids) = Ok cohorts
    /\ attr_is "_time_series" (Some (VCohorts cohorts)) w'
    /\ (leaves_tables model -> table = test).
Proof.
  intros H.
  destruct (construction_requires_declared_features_aux _ _ _ _ _ _ _ _ _ _ _ H)
    as [fm0 ->].
  apply init_anatomy in H
    as (wv & fm & ranges & cats & wc & cohorts
        & Hv & Hfm & Hb & Hr & Hc & Hcache & Hgen & ->).
  apply validation_resolves_time_column with (fm0 := fm0) in Hv.
  2:{ apply before_validation_true_y. }
  2:{ unfold attr_is, before_validation, attrs_before_validation; simpl.
      rewrite lookup_insert_ne by discriminate. apply lookup_insert_eq. }
  destruct Hv as (_ & _ & fm' & tc & Hfm' & _ & _ & _ & _ & Hids & _ & _).
  unfold attr_is in Hfm'. rewrite Hfm in Hfm'. injection Hfm' as <-.
  destruct (generate_time_series_cohorts_inv _ _ _ Hgen)
    as (_ & table & fmc & Htable & Hfmc & Hts).
  assert (attr_is "_feature_metadata" (Some (VMetadata fm)) wc) as Hfmc'.
  { eapply (keeps_attr_cache_predictions "_feature_metadata");
      [discriminate..| |exact Hcache].
    unfold attr_is. rewrite lookup_with_attrs. exact Hfm. }
  unfold attr_is in Hfmc, Hfmc'. rewrite Hfmc in Hfmc'. injection Hfmc' as ->.
  rewrite Hids in Hts.
  destruct (time_series_cohorts_inv _ _ _ Hts) as (ids & Eids & Hne & Hin).
  rewrite Eids in Hts.
  exists ids, cohorts, table. split; [exact Eids|]. split; [exact Hne|].
  split; [exact Hin|]. split; [exact Hts|].
  split; [apply lookup_insert_eq|].
  intros Hpure.
  pose proof (table_when_cohorts_are_made _ _ _ _ _ _ _ _ _ Hb Hcache Hpure)
    as Htest.
  unfold attr_is in Htable, Htest. rewrite Htable in Htest.
  injection Htest as ->. reflexivity.
Qed.

Lemma quantile_model_leaves_tables : leaves_tables (Some Examples.quantile_model).
Proof. intros m f df [= <-] [H|H]; injection H as <-; reflexivity. Qed.

Lemma constructed_instance_has_cohorts_witness :
  exists cohorts,
    time_series_cohorts Examples.sales (Some ["store_id"]) = Ok cohorts
    /\ attr_is "_time_series" (Some (VCohorts cohorts)) (snd constructed_sales).
Proof.
  destruct (constructed_instance_has_cohorts Examples.no_float_strings
              Examples.no_categoricals (Some Examples.quantile_model)
              Examples.sales Examples.sales "sales" None 5000
              (Some Examples.metadata) empty_world (snd constructed_sales))
    as (ids & cohorts & table & Hids & _ & _ & Hts & Hattr & Hpure).
  - vm_compute. reflexivity.
  - injection Hids as <-.
    rewrite (Hpure quantile_model_leaves_tables) in Hts.
    exists cohorts. split; assumption.
Defined.

(** ** The calls a construction makes *)

(** X11.  A construction that succeeds without a model calls no method.
    With a model it calls [predict] twice and [predict_quantiles] once:
    [predict] on the first row of the features of the test set, to probe
    the model, then on all the features of the test set, and
    [predict_quantiles] on the table as [predict] left it. *)
Theorem construction_calls_the_model
    (float_of_str : string -> option pyfloat)
    (process_categoricals :
       list string -> list string -> DataFrame -> res (pyobj * pyobj * pyobj * pyobj))
    (model : option Model.t) (train test : DataFrame) (target_column : string)
    (serializer : option Serializer.t) (maximum_rows_for_test : Z)
    (feature_metadata : option FeatureMetadata.t) (w w' : world) :
  run (__init__ float_of_str process_categoricals model train test
         target_column serializer maximum_rows_for_test feature_metadata) w
  = (Ok tt, w') ->
  match model with
  | None => calls w' = calls w
  | Some m =>
      exists f q,
        Model.predict m = Some f /\ Model.predict_quantiles m = Some q
        /\ calls w'
           = (calls w
              ++ [CallPredict (probe_row test target_column);
                  CallPredict (test_without_true_y test target_column);
                  CallPredictQuantiles
                    (fst (f (test_without_true_y test target_column)))])%list
  end.
Proof.
  intros H.
  destruct (construction_requires_declared_features_aux _ _ _ _ _ _ _ _ _ _ _ H)
    as [fm0 ->].
  apply init_anatomy in H
    as (wv & fm & ranges & cats & wc & cohorts
        & Hv & Hfm & Hb & Hr & Hc & Hcache & Hgen & ->).
  apply validation_resolves_time_column with (fm0 := fm0) in Hv.
  2:{ apply before_validation_true_y. }
  2:{ unfold attr_is, before_validation, attrs_before_validation; simpl.
      rewrite lookup_insert_ne by discriminate. apply lookup_insert_eq. }
  destruct Hv as (_ & Hcalls & _ & _ & _ & _ & _ & _ & _ & _ & _ & Hfc).
  cbn [with_attr calls].
  destruct (cache_predictions_inv _ _ _ _ _
              (stored_features _ _ _ _ _ _ _ _)
              (stored_true_y _ _ _ _ _ _ _ _ _ Hb) Hcache)
    as [[Hnf ->]|(m & f & q & p1 & p2 & -> & Hf & Hq & _ & _ & ->)].
  - rewrite !calls_with_attrs, Hcalls.
    destruct model as [m|]; [|apply app_nil_r].
    rewrite Hfc in Hnf by discriminate. discriminate.
  - exists f, q. split; [exact Hf|]. split; [exact Hq|].
    rewrite calls_after_cache, calls_with_attrs, Hcalls.
    rewrite <- app_assoc. reflexivity.
Qed.

Lemma construction_calls_the_model_witness :
  calls (snd constructed_sales)
  = [CallPredict (probe_row Examples.sales "sales");
     CallPredict sales_features;
     CallPredictQuantiles sales_features].
Proof.
  destruct (construction_calls_the_model Examples.no_float_strings
              Examples.no_categoricals (Some Examples.quantile_model)
              Examples.sales Examples.sales "sales" None 5000
              (Some Examples.metadata) empty_world (snd constructed_sales))
    as (f & q & Hf & _ & Hcalls).
  - vm_compute. reflexivity.
  - injection Hf as <-. rewrite Hcalls. reflexivity.
Defined.

(** ** Files and warnings *)

(** the functions of the module that are made of the steps above *)
Ltac leaves_unfold :=
  idtac;
  lazymatch goal with
  | |- leaves _ (call_predict _ _) => unfold call_predict
  | |- leaves _ (call_predict_quantiles _ _) => unfold call_predict_quantiles
  | |- leaves _ (store_table _) => unfold store_table
  | |- leaves _ (_ensure_time_column_available _ _ _) =>
      unfold _ensure_time_column_available
  | |- leaves _ (_validate_features_same _ _ _) => unfold _validate_features_same
  | |- leaves _ (validate_sizes _ _ _) => unfold validate_sizes
  | |- leaves _ (validate_columns _ _ _) => unfold validate_columns
  | |- leaves _ (validate_feature_types _ _ _ _) => unfold validate_feature_types
  | |- leaves _ (validate_model_predict _ _ _) => unfold validate_model_predict
  | |- leaves _ (validate_feature_metadata _ _ _) =>
      unfold validate_feature_metadata
  | |- leaves _ (RAIBaseInsights_init _ _ _ _ _ _) => unfold RAIBaseInsights_init
  | |- leaves _ _initialize_managers => unfold _initialize_managers
  | |- leaves _ (cache_predictions _) =>
      unfold cache_predictions, truth_of_function
  | |- leaves _ _generate_time_series_cohorts =>
      unfold _generate_time_series_cohorts
  | |- leaves _ (RAIBaseInsights_load _ _) => unfold RAIBaseInsights_load
  | |- leaves _ (_load_metadata _ _) => unfold _load_metadata
  | |- leaves _ (_load_predictions _) => unfold _load_predictions
  end.

Lemma leaves_files_validate_model_and_serializer model serializer :
  leaves files (validate_model_and_serializer model serializer).
Proof. unfold validate_model_and_serializer. leaves_with fail. Qed.

Lemma leaves_files_validation
    model train test target_column serializer maximum_rows_for_test
    feature_metadata :
  leaves files
    (_validate_rai_insights_input_parameters model train test target_column
       serializer maximum_rows_for_test feature_metadata).
Proof.
  unfold _validate_rai_insights_input_parameters.
  apply leaves_bind; [apply leaves_files_validate_model_and_serializer|intros ?].
  leaves_with leaves_unfold.
Qed.

(** X12.  Nothing but saving writes a file: construction, the build of
    the dashboard payload, the generation of the cohorts and loading leave
    the files as they are, whether they return or raise. *)
Theorem only_saving_writes_files
    (float_of_str : string -> option pyfloat)
    (process_categoricals :
       list string -> list string -> DataFrame -> res (pyobj * pyobj * pyobj * pyobj))
    (model : option Model.t) (train test : DataFrame) (target_column : string)
    (serializer : option Serializer.t) (maximum_rows_for_test : Z)
    (feature_metadata : option FeatureMetadata.t) (path : string) :
  leaves files
    (__init__ float_of_str process_categoricals model train test target_column
       serializer maximum_rows_for_test feature_metadata)
  /\ leaves files get_data
  /\ leaves files _generate_time_series_cohorts
  /\ leaves files (_load_metadata process_categoricals path)
  /\ leaves files (_load_predictions path)
  /\ leaves files (load process_categoricals path).
Proof.
  split; [|split; [|split; [|split; [|split]]]].
  - unfold __init__.
    do 3 (apply leaves_bind; [intros ?; reflexivity|intros ?]).
    apply leaves_bind; [apply leaves_files_validation|intros ?].
    leaves_with leaves_unfold.
  - unfold get_data, _get_dataset. leaves_with leaves_unfold.
  - leaves_with leaves_unfold.
  - leaves_with leaves_unfold.
  - leaves_with leaves_unfold.
  - unfold load. leaves_with leaves_unfold.
Qed.

Lemma leaves_warnings_after_first_block
    model train test target_column maximum_rows_for_test feature_metadata :
  leaves warnings
    (_ ← validate_sizes train test maximum_rows_for_test;
     _ ← validate_columns train test target_column;
     _ ← validate_feature_types train test target_column feature_metadata;
     _ ← validate_model_predict model test target_column;
     validate_feature_metadata model train feature_metadata).
Proof. leaves_with leaves_unfold. Qed.

(** X13.  Construction warns once, about the missing model, when it is
    given no model, and never otherwise, whether it returns or raises. *)
Theorem construction_warns_of_a_missing_model
    (float_of_str : string -> option pyfloat)
    (process_categoricals :
       list string -> list string -> DataFrame -> res (pyobj * pyobj * pyobj * pyobj))
    (model : option Model.t) (train test : DataFrame) (target_column : string)
    (serializer : option Serializer.t) (maximum_rows_for_test : Z)
    (feature_metadata : option FeatureMetadata.t) (w : world) :
  warnings (snd (run (__init__ float_of_str process_categoricals model train
                        test target_column serializer maximum_rows_for_test
                        feature_metadata) w))
  = (warnings w ++ match model with
                   | None => [invalid_model_warning]
                   | Some _ => []
                   end)%list.
Proof.
  unfold __init__. do 3 step_setattr.
  rewrite leaves_after by (intros ?; leaves_with leaves_unfold).
  unfold _validate_rai_insights_input_parameters.
  rewrite leaves_after
    by (intros ?; apply leaves_warnings_after_first_block).
  unfold validate_model_and_serializer.
  destruct model as [m|].
  - rewrite leaves_after by (intros ?; leaves_with fail).
    simpl. symmetry. apply app_nil_r.
  - rewrite run_bind. rewrite run_bind. simpl (run (warn _) _). cbv beta iota.
    destruct serializer as [s|].
    + reflexivity.
    + simpl. reflexivity.
Qed.

(** ** Saving and loading the predictions *)

Lemma dict_getitem_run k v w :
  attrs w !! k = Some v -> run (dict_getitem k) w = (Ok v, w).
Proof. intros H. unfold dict_getitem; simpl. rewrite H. reflexivity. Qed.

Lemma read_file_run p doc w :
  files w !! p = Some doc -> run (read_file p) w = (Ok doc, w).
Proof. intros H. unfold read_file; simpl. rewrite H. reflexivity. Qed.

Lemma save_predictions_loaded_run path m l w :
  attr_is "model" (Some (VModel m)) w ->
  attr_is "predict_output" (Some (VArray (forecasts l))) w ->
  attr_is "predict_proba_output" (Some VNone) w ->
  run (_save_predictions path) w
  = (Ok tt, with_file w (predict_json path) (VObj (tolist (forecasts l)))).
Proof.
  intros Hm Hp Hn. unfold _save_predictions.
  erewrite run_bind_ok by (apply getattr_run; exact Hm).
  simpl is_none. cbv iota.
  erewrite run_bind_ok by (apply getattr_run; exact Hp).
  erewrite run_bind_ok by reflexivity.
  unfold json_dumps. rewrite forecasts_serialisable.
  erewrite run_bind_ok by reflexivity.
  erewrite run_bind_ok by reflexivity.
  erewrite run_bind_ok by (apply getattr_run; exact Hn).
  reflexivity.
Qed.

(** X14.  The predictions survive a save and a load.  An instance with a
    model, whose [predict_output] is an array of forecasts and whose
    [predict_proba_output] is [None], saves its predictions without
    touching its attributes; and loading from the files it leaves, into
    any instance that has a model, sets [predict_output] to the same array
    and [predict_proba_output] to [None]. *)
Theorem predictions_survive_save_and_load
    (path : string) (m : Model.t) (l : list number) (w : world) :
  attr_is "model" (Some (VModel m)) w ->
  attr_is "predict_output" (Some (VArray (forecasts l))) w ->
  attr_is "predict_proba_output" (Some VNone) w ->
  exists w1,
    run (_save_predictions path) w = (Ok tt, w1)
    /\ attrs w1 = attrs w
    /\ forall inst model,
         attrs inst !! "model" = Some model -> is_none model = false ->
         files inst = files w1 ->
         exists inst',
           run (_load_predictions path) inst = (Ok tt, inst')
           /\ attr_is "predict_output" (Some (VArray (forecasts l))) inst'
           /\ attr_is "predict_proba_output" (Some VNone) inst'
           /\ files inst' = files inst.
Proof.
  intros Hm Hp Hn. eexists. split; [|split].
  - apply (save_predictions_loaded_run path m l); assumption.
  - reflexivity.
  - intros inst model Hmodel Hsome Hfiles. unfold _load_predictions.
    erewrite run_bind_ok by (apply dict_getitem_run; exact Hmodel).
    rewrite Hsome.
    erewrite run_bind_ok.
    2:{ apply read_file_run. rewrite Hfiles. apply lookup_insert_eq. }
    erewrite run_bind_ok by reflexivity.
    eexists. split; [reflexivity|]. unfold attr_is; simpl.
    split; [|split; [apply lookup_insert_eq|reflexivity]].
    rewrite lookup_insert_ne by discriminate. apply lookup_insert_eq.
Qed.

Lemma predictions_survive_save_and_load_witness :
  exists w1 inst',
    run (_save_predictions "dir") (reloaded_instance [NInt 1; NInt 2])
    = (Ok tt, w1)
    /\ run (_load_predictions "dir")
         (instance_with_model Examples.point_model (files w1)) = (Ok tt, inst')
    /\ attr_is "predict_output"
         (Some (VArray (forecasts [NInt 1; NInt 2]))) inst'.
Proof.
  destruct (predictions_survive_save_and_load "dir" Examples.quantile_model
              [NInt 1; NInt 2] (reloaded_instance [NInt 1; NInt 2]))
    as (w1 & Hsave & _ & Hload).
  - reflexivity.
  - reflexivity.
  - reflexivity.
  - destruct (Hload (instance_with_model Examples.point_model (files w1))
                (VModel Examples.point_model))
      as (inst' & Hrun & Hout & _); [reflexivity..|].
    exists w1, inst'. repeat split; assumption.
Defined.

(** X15.  Without a model there is nothing to save or to load:
    [_save_predictions] returns without writing a file, and
    [_load_predictions] sets both outputs to [None] without reading
    one. *)
Theorem no_model_no_predictions (path : string) (w : world) :
  attr_is "model" (Some VNone) w ->
  run (_save_predictions path) w = (Ok tt, w)
  /\ run (_load_predictions path) w
     = (Ok tt, with_attrs w [("predict_output", VNone);
                             ("predict_proba_output", VNone)]).
Proof.
  intros Hm. split.
  - unfold _save_predictions.
    erewrite run_bind_ok by (apply getattr_run; exact Hm). reflexivity.
  - unfold _load_predictions.
    erewrite run_bind_ok by (apply dict_getitem_run; exact Hm). reflexivity.
Qed.

Lemma no_model_no_predictions_witness :
  run (_save_predictions "dir") (with_attr empty_world "model" VNone)
  = (Ok tt, with_attr empty_world "model" VNone).
Proof.
  apply (no_model_no_predictions "dir" (with_attr empty_world "model" VNone)).
  reflexivity.
Defined.

(** ** Saving and loading the metadata *)

(** the rest of a computation keeps an attribute that it does not assign *)
Ltac tail_keeps H Hfact :=
  match type of H with
  | run ?m _ = _ =>
      match type of Hfact with
      | attr_is ?k ?o _ =>
          let K := fresh "K" in
          assert (keeps (attr_is k o) m) as K by (keeps_attr_with fail);
          exact (K _ _ _ Hfact H)
      end
  end.

Lemma as_opt_str_opt_str o :
  as_opt_str (FeatureMetadata.opt_str o) = Ok o.
Proof. destruct o; reflexivity. Qed.

Lemma as_str_list_names (l : list string) :
  as_str_list (PList (PStr <$> l)) = Ok l.
Proof.
  unfold as_str_list. induction l as [|x l IH]; [reflexivity|].
  rewrite fmap_cons.
  change (mapM ?f (?a :: ?k)) with (y ← f a; r ← mapM f k; mret (y :: r)).
  cbv beta iota. simpl (_ ≫= _) at 1. rewrite IH. reflexivity.
Qed.

Lemma as_opt_str_list_opt_list o :
  as_opt_str_list (FeatureMetadata.opt_list o) = Ok o.
Proof.
  destruct o as [l|]; [|reflexivity].
  change (Some <$> as_str_list (PList (PStr <$> l)) = Ok (Some l)).
  rewrite as_str_list_names. reflexivity.
Qed.

Lemma plain_inv v p : plain v = Ok p -> v = VObj p.
Proof. destruct v; try discriminate. intros [= ->]. reflexivity. Qed.

(** what [_save_metadata] writes when it returns *)
Lemma save_metadata_inv path fm w w1 :
  attr_is "_feature_metadata" (Some (VMetadata fm)) w ->
  run (_save_metadata path) w = (Ok tt, w1) ->
  exists target task classes cols ranges,
    attr_is "target_column" (Some (VObj target)) w
    /\ attr_is "task_type" (Some (VObj task)) w
    /\ attr_is "_classes" (Some (VObj classes)) w
    /\ attr_is "_feature_columns" (Some (VObj cols)) w
    /\ attr_is "_feature_ranges" (Some (VObj ranges)) w
    /\ w1 = with_file w (meta_json path)
              (VObj (PDict [(_TARGET_COLUMN, target);
                            (_TASK_TYPE, task);
                            (_CLASSES, classes);
                            (_FEATURE_COLUMNS, cols);
                            (_FEATURE_RANGES, ranges);
                            (_FEATURE_METADATA, FeatureMetadata.to_dict fm)])).
Proof.
  intros Hfm H. unfold _save_metadata in H.
  apply run_bind_inv in H as (vc & w' & Hg & H).
  apply getattr_inv in Hg as [-> Hc].
  apply run_bind_inv in H as (vfm & w' & Hg & H).
  apply getattr_inv in Hg as [-> Hg]. unfold attr_is in Hfm.
  rewrite Hfm in Hg. injection Hg as <-.
  apply run_bind_inv in H as (fmd & w' & Hd & H).
  simpl in Hd. injection Hd as <- <-.
  apply run_bind_inv in H as (vt & w' & Hg & H).
  apply getattr_inv in Hg as [-> Ht].
  apply run_bind_inv in H as (vk & w' & Hg & H).
  apply getattr_inv in Hg as [-> Hk].
  apply run_bind_inv in H as (vcols & w' & Hg & H).
  apply getattr_inv in Hg as [-> Hcols].
  apply run_bind_inv in H as (vr & w' & Hg & H).
  apply getattr_inv in Hg as [-> Hr].
  apply run_bind_inv in H as (entries & w' & He & H).
  apply lift_inv in He as [He ->].
  apply run_bind_inv in H as (doc & w' & Hdoc & H).
  apply lift_inv in Hdoc as [Hdoc ->].
  injection H as <-.
  simpl in He.
  destruct (plain vt) as [target|] eqn:E1; simpl in He; [|discriminate].
  destruct (plain vk) as [task|] eqn:E2; simpl in He; [|discriminate].
  destruct (plain vc) as [classes|] eqn:E3; simpl in He; [|discriminate].
  destruct (plain vcols) as [cols|] eqn:E4; simpl in He; [|discriminate].
  destruct (plain vr) as [ranges|] eqn:E5; simpl in He; [|discriminate].
  injection He as <-.
  apply plain_inv in E1, E2, E3, E4, E5. subst.
  unfold json_dumps in Hdoc.
  destruct (serialisable _); [|discriminate]. injection Hdoc as <-.
  exists target, task, classes, cols, ranges. repeat split; assumption.
Qed.

(** X16.  The metadata survives a save and a load in part.  When
    [_save_metadata] has written an instance's metadata and
    [_load_metadata] returns on an instance that finds the file, the
    target column, the task type, the feature columns and the feature
    ranges are those of the saved instance and the classes are [None];
    the feature metadata comes back without its time column and without
    the id columns of the time series, which [_load_metadata] does not
    read. *)
Theorem metadata_is_reloaded_without_its_time_column
    (process_categoricals :
       list string -> list string -> DataFrame -> res (pyobj * pyobj * pyobj * pyobj))
    (path : string) (fm : FeatureMetadata.t) (w w1 inst inst' : world) :
  attr_is "_feature_metadata" (Some (VMetadata fm)) w ->
  run (_save_metadata path) w = (Ok tt, w1) ->
  files inst = files w1 ->
  run (_load_metadata process_categoricals path) inst = (Ok tt, inst') ->
  attrs inst' !! "target_column" = attrs w !! "target_column"
  /\ attrs inst' !! "task_type" = attrs w !! "task_type"
  /\ attrs inst' !! "_feature_columns" = attrs w !! "_feature_columns"
  /\ attrs inst' !! "_feature_ranges" = attrs w !! "_feature_ranges"
  /\ attr_is "_classes" (Some VNone) inst'
  /\ attr_is "_feature_metadata" (Some (VMetadata (reloaded fm))) inst'.
Proof.
  intros Hfm Hsave Hfiles H.
  destruct (save_metadata_inv _ _ _ _ Hfm Hsave)
    as (target & task & classes & cols & ranges
        & Ht & Hk & Hc & Hcols & Hr & ->).
  unfold attr_is in Ht, Hk, Hcols, Hr. rewrite Ht, Hk, Hcols, Hr.
  unfold _load_metadata in H.
  apply run_bind_inv in H as (doc & w' & Hread & H).
  unfold read_file in Hread; simpl in Hread. rewrite Hfiles in Hread.
  unfold meta_json in Hread. simpl in Hread.
  rewrite lookup_insert_eq in Hread. injection Hread as <- <-.
  apply run_bind_inv in H as (meta & w' & Hm & H).
  apply lift_inv in Hm as [[= <-] ->].
  apply run_bind_inv in H as (v & w' & Hv & H).
  apply lift_inv in Hv as [[= <-] ->].
  apply run_bind_inv in H as ([] & w' & Hs & H). apply setattr_inv in Hs as ->.
  assert (attr_is "target_column" (Some (VObj target))
            (with_attr inst _TARGET_COLUMN (VObj target))) as F1
    by apply lookup_insert_eq.
  apply (keeps_step (attr_is "target_column" (Some (VObj target)))) in H
    as (v & w' & F1' & Hv & H); [|apply keeps_lift|exact F1].
  apply lift_inv in Hv as [[= <-] ->].
  apply run_bind_inv in H as ([] & w' & Hs & H). apply setattr_inv in Hs as ->.
  assert (attr_is "task_type" (Some (VObj task))
            (with_attr (with_attr inst _TARGET_COLUMN (VObj target))
               _TASK_TYPE (VObj task))) as F2
    by apply lookup_insert_eq.
  assert (attr_is "target_column" (Some (VObj target))
            (with_attr (with_attr inst _TARGET_COLUMN (VObj target))
               _TASK_TYPE (VObj task))) as F1''
    by (unfold attr_is; simpl; rewrite lookup_insert_ne by discriminate;
        apply lookup_insert_eq).
  apply run_bind_inv in H as (cl & w' & Hcl & H).
  simpl in Hcl. injection Hcl as _ <-.
  apply run_bind_inv in H as ([] & w' & Hs & H). apply setattr_inv in Hs as ->.
  apply run_bind_inv in H as (v & w' & Hv & H).
  apply lift_inv in Hv as [[= <-] ->].
  apply run_bind_inv in H as ([] & w' & Hs & H). apply setattr_inv in Hs as ->.
  apply run_bind_inv in H as (v & w' & Hv & H).
  apply lift_inv in Hv as [[= <-] ->].
  apply run_bind_inv in H as ([] & w' & Hs & H). apply setattr_inv in Hs as ->.
  apply run_bind_inv in H as (v & w' & Hv & H).
  apply lift_inv in Hv as [[= <-] ->].
  apply run_bind_inv in H as ([] & w' & Hs & H).
  cbv beta iota delta [FeatureMetadata.to_dict] in Hs.
  apply run_bind_inv in Hs as (o1 & w'' & Ho1 & Hs).
  apply lift_inv in Ho1 as [Ho1 ->].
  simpl in Ho1. rewrite as_opt_str_opt_str in Ho1. injection Ho1 as <-.
  apply run_bind_inv in Hs as (o2 & w'' & Ho2 & Hs).
  apply lift_inv in Ho2 as [Ho2 ->].
  simpl in Ho2. rewrite as_opt_str_list_opt_list in Ho2. injection Ho2 as <-.
  apply run_bind_inv in Hs as (o3 & w'' & Ho3 & Hs).
  apply lift_inv in Ho3 as [Ho3 ->].
  simpl in Ho3. rewrite as_opt_str_list_opt_list in Ho3. injection Ho3 as <-.
  apply run_bind_inv in Hs as (o4 & w'' & Ho4 & Hs).
  apply lift_inv in Ho4 as [Ho4 ->].
  simpl in Ho4. rewrite as_opt_str_list_opt_list in Ho4. injection Ho4 as <-.
  apply setattr_inv in Hs as ->.
  match type of H with
  | run _ ?w0 = _ =>
      assert (attr_is "target_column" (Some (VObj target)) w0) as G1
        by (unfold attr_is; simpl; rewrite !lookup_insert_ne by discriminate;
            apply lookup_insert_eq);
      assert (attr_is "task_type" (Some (VObj task)) w0) as G2
        by (unfold attr_is; simpl; rewrite !lookup_insert_ne by discriminate;
            apply lookup_insert_eq);
      assert (attr_is "_classes" (Some VNone) w0) as G3
        by (unfold attr_is; simpl; rewrite !lookup_insert_ne by discriminate;
            apply lookup_insert_eq);
      assert (attr_is "_feature_columns" (Some (VObj cols)) w0) as G4
        by (unfold attr_is; simpl; rewrite !lookup_insert_ne by discriminate;
            apply lookup_insert_eq);
      assert (attr_is "_feature_ranges" (Some (VObj ranges)) w0) as G5
        by (unfold attr_is; simpl; rewrite !lookup_insert_ne by discriminate;
            apply lookup_insert_eq);
      assert (attr_is "_feature_metadata" (Some (VMetadata (reloaded fm))) w0)
        as G6 by apply lookup_insert_eq
  end.
  split; [tail_keeps H G1|]. split; [tail_keeps H G2|].
  split; [tail_keeps H G4|]. split; [tail_keeps H G5|].
  split; [tail_keeps H G3|tail_keeps H G6].
Qed.

Lemma metadata_is_reloaded_without_its_time_column_witness :
  attr_is "_feature_metadata" (Some (VMetadata (reloaded Examples.metadata)))
    (snd (run (_load_metadata Examples.no_categoricals "dir")
            (instance_to_load
               (files (snd (run (_save_metadata "dir")
                              (snd constructed_without_model))))))).
Proof.
  destruct (metadata_is_reloaded_without_its_time_column
              Examples.no_categoricals "dir" Examples.metadata
              (snd constructed_without_model)
              (snd (run (_save_metadata "dir") (snd constructed_without_model)))
              (instance_to_load
                 (files (snd (run (_save_metadata "dir")
                                (snd constructed_without_model)))))
              (snd (run (_load_metadata Examples.no_categoricals "dir")
                      (instance_to_load
                         (files (snd (run (_save_metadata "dir")
                                        (snd constructed_without_model))))))))
    as (_ & _ & _ & _ & _ & H).
  - vm_compute. reflexivity.
  - vm_compute. reflexivity.
  - reflexivity.
  - vm_compute. reflexivity.
  - exact H.
Defined.

(** ** Saving an instance whose time column holds dates *)

Lemma string_feature_inv train target_column c :
  c ∈ string_features train target_column ->
  c ∈ columns train /\ c ≠ target_column.
Proof.
  unfold string_features. intros H.
  destruct (drop train target_column) as [train_x|] eqn:Ed; [|inversion H].
  apply elem_of_remove_dups, list_elem_of_difference in H as [H _].
  apply drop_inv in Ed as (_ & Hcols & _). rewrite Hcols in H.
  apply list_elem_of_filter in H. tauto.
Qed.

Lemma getitem_inv df c values : getitem df c = Ok values -> c ∈ columns df.
Proof.
  unfold getitem. destruct (index_of c (columns df)) eqn:E; [|discriminate].
  intros _. eapply index_of_Some_inv. exact E.
Qed.

Lemma mapM_res_elem {A B} (f : A -> res B) (l : list A) ys x :
  mapM f l = Ok ys -> x ∈ l -> exists y, y ∈ ys /\ f x = Ok y.
Proof.
  intros H Hx.
  apply (mapM_res_inv f (fun a b => f a = Ok b)) in H; [|auto].
  induction H as [|a b l ys Hab _ IH]; [inversion Hx|].
  apply elem_of_cons in Hx as [->|Hx].
  - exists b. split; [left|exact Hab].
  - destruct (IH Hx) as (y & Hy & Hf). exists y. split; [right; exact Hy|exact Hf].
Qed.

Lemma unserialisable_element (l : list pyobj) r :
  r ∈ l -> serialisable r = false -> serialisable (PList l) = false.
Proof.
  intros Hr Hs. change (forallb serialisable l = false).
  induction l as [|x l IH]; [inversion Hr|].
  cbn [forallb]. apply elem_of_cons in Hr as [<-|Hr].
  - rewrite Hs. reflexivity.
  - rewrite (IH Hr). apply andb_false_r.
Qed.

Lemma same_kind_dates ds : same_kind (STime <$> ds) = true.
Proof.
  destruct ds as [|d ds]; [reflexivity|]. simpl.
  induction ds as [|d' ds IH]; [reflexivity|]. simpl. exact IH.
Qed.

(** the entry of a time column that holds dates has a Timestamp for its
    minimum *)
Lemma dated_range_unserialisable float_of_str test cats tc ds r :
  feature_range float_of_str test cats (Some tc) tc = Ok r ->
  tc ∉ cats -> getitem test tc = Ok (STime <$> ds) -> ds ≠ [] ->
  serialisable r = false.
Proof.
  intros H Hcat Hget Hne. unfold feature_range in H.
  destruct (decide (tc ∈ cats)); [contradiction|].
  destruct (decide (Some tc = Some tc)); [|congruence].
  rewrite Hget in H. cbn [mbind res_bind] in H.
  destruct (series_min_least (STime <$> ds)) as (lo & Hlo & Hin & _).
  { destruct ds; [contradiction|discriminate]. }
  { apply same_kind_dates. }
  apply list_elem_of_fmap in Hin as (d & -> & _).
  rewrite Hlo in H. cbn [mbind res_bind] in H.
  destruct (series_max (STime <$> ds)) as [hi|]; cbn [mbind res_bind] in H;
    [|discriminate].
  injection H as <-. reflexivity.
Qed.

Lemma save_metadata_unserialisable
    path fm target task classes cols ranges w :
  attr_is "_classes" (Some (VObj classes)) w ->
  attr_is "_feature_metadata" (Some (VMetadata fm)) w ->
  attr_is "target_column" (Some (VObj target)) w ->
  attr_is "task_type" (Some (VObj task)) w ->
  attr_is "_feature_columns" (Some (VObj cols)) w ->
  attr_is "_feature_ranges" (Some (VObj ranges)) w ->
  serialisable ranges = false ->
  fst (run (_save_metadata path) w) = Raise timestamp_not_serializable.
Proof.
  intros Hc Hfm Ht Hk Hcols Hr Hs. unfold _save_metadata.
  erewrite run_bind_ok by (apply getattr_run; exact Hc).
  erewrite run_bind_ok by (apply getattr_run; exact Hfm).
  erewrite run_bind_ok by reflexivity.
  erewrite run_bind_ok by (apply getattr_run; exact Ht).
  erewrite run_bind_ok by (apply getattr_run; exact Hk).
  erewrite run_bind_ok by (apply getattr_run; exact Hcols).
  erewrite run_bind_ok by (apply getattr_run; exact Hr).
  erewrite run_bind_ok by reflexivity.
  rewrite run_bind. unfold json_dumps. cbn [fst].
  assert (serialisable
            (PDict [(_TARGET_COLUMN, target); (_TASK_TYPE, task);
                    (_CLASSES, classes); (_FEATURE_COLUMNS, cols);
                    (_FEATURE_RANGES, ranges);
                    (_FEATURE_METADATA, FeatureMetadata.to_dict fm)]) = false)
    as ->; [|reflexivity].
  change (serialisable target
          && (serialisable task
              && (serialisable classes
                  && (serialisable cols
                      && (serialisable ranges
                          && (serialisable (FeatureMetadata.to_dict fm)
                              && true))))) = false).
  rewrite Hs. cbn [andb]. rewrite !andb_false_r. reflexivity.
Qed.

(** X17.  An instance whose time column holds dates cannot be saved.
    After a construction that succeeds over a test set whose declared time
    column holds dates and is not declared categorical, the feature ranges
    hold the Timestamps of the least and greatest date, and
    [_save_metadata] raises the [TypeError] of [json.dump] on a
    Timestamp. *)
Theorem dates_in_the_time_column_cannot_be_saved
    (float_of_str : string -> option pyfloat)
    (process_categoricals :
       list string -> list string -> DataFrame -> res (pyobj * pyobj * pyobj * pyobj))
    (model : option Model.t) (train test : DataFrame) (target_column : string)
    (serializer : option Serializer.t) (maximum_rows_for_test : Z)
    (fm0 : FeatureMetadata.t) (tc : string) (ds : list date) (path : string)
    (w w' : world) :
  run (__init__ float_of_str process_categoricals model train test
         target_column serializer maximum_rows_for_test (Some fm0)) w
  = (Ok tt, w') ->
  FeatureMetadata.time_column_name fm0 = Some tc ->
  tc ∉ default [] (FeatureMetadata.categorical_features fm0) ->
  getitem test tc = Ok (STime <$> ds) ->
  ds ≠ [] ->
  fst (run (_save_metadata path) w') = Raise timestamp_not_serializable.
Proof.
  intros H Htc Hcat Hget Hne.
  assert (tc ≠ target_column) as Hnt.
  { pose proof H as H'.
    apply init_passes_blocks in H' as (w1 & w2 & w3 & _ & _ & _ & H' & _).
    apply validate_feature_types_inv in H'
      as (_ & fm1 & cats & [= <-] & _ & _ & _ & _ & _ & Hstr).
    apply (string_feature_inv train). apply Hstr. exact Htc. }
  apply init_anatomy in H
    as (wv & fm & ranges & cats & wc & cohorts
        & Hv & Hfm & Hb & Hr & Hc & Hcache & Hgen & ->).
  apply validation_resolves_time_column with (fm0 := fm0) in Hv.
  2:{ apply before_validation_true_y. }
  2:{ unfold attr_is, before_validation, attrs_before_validation; simpl.
      rewrite lookup_insert_ne by discriminate. apply lookup_insert_eq. }
  destruct Hv as (_ & _ & fm' & tc' & Hfm' & Htc' & _ & Hsame & _ & _ & Hcats & _).
  unfold attr_is in Hfm'. rewrite Hfm in Hfm'. injection Hfm' as <-.
  rewrite (Hsame tc Htc) in Htc'. rewrite Htc', Hcats in Hr.
  assert (tc ∈ columns (test_without_true_y test target_column)) as Hin.
  { rewrite columns_test_without_true_y. apply list_elem_of_filter.
    split; [exact Hnt|]. eapply getitem_inv. exact Hget. }
  destruct (mapM_res_elem _ _ _ _ Hr Hin) as (r & Hrin & Hrange).
  pose proof (dated_range_unserialisable _ _ _ _ _ _ Hrange Hcat Hget Hne) as Hs.
  pose proof (unserialisable_element _ _ Hrin Hs) as Hs'.
  eapply (save_metadata_unserialisable path fm (PStr target_column)
            (PStr "forecasting") PNone
            (str_list (columns (test_without_true_y test target_column)))
            (PList ranges)); [..|exact Hs'].
  all: eapply constructed_attr; [discriminate..|exact Hcache|].
  all: unfold attr_is; rewrite lookup_with_attrs; first [reflexivity|exact Hfm].
Qed.

Lemma dates_in_the_time_column_cannot_be_saved_witness :
  fst (run (_save_metadata "dir") (snd constructed_dated_sales))
  = Raise timestamp_not_serializable.
Proof.
  apply (dates_in_the_time_column_cannot_be_saved Examples.no_float_strings
           Examples.no_categoricals None dated_sales dated_sales "sales" None
           5000 Examples.metadata "date"
           [Date 2020 1 1; Date 2020 1 2; Date 2020 1 3] "dir" empty_world
           (snd constructed_dated_sales)).
  - vm_compute. reflexivity.
  - reflexivity.
  - compute_done.
  - reflexivity.
  - discriminate.
Defined.

(** ** The instance the payload is built from *)







(** ** The dashboard payload *)


Lemma lookup_after_cache_features f q b features p1 p2 w :
  attrs (after_cache f q b features p1 p2 w) !! "_test_without_true_y"
  = Some (VFrame (fst (q (fst (f features))))).
Proof.
  unfold after_cache. cbn [with_attr attrs].
  rewrite lookup_insert_ne by discriminate. apply lookup_table_attrs_features.
Qed.

(** X19.  Construction makes a consistent instance: when it succeeds
    with a model whose methods leave their argument alone, or without a
    model, the instance holds the model, the test set, the name of the
    target, the flag of the target and the features of the test set, which
    is what [get_data] relies on. *)
Theorem construction_makes_a_consistent_instance
    (float_of_str : string -> option pyfloat)
    (process_categoricals :
       list string -> list string -> DataFrame -> res (pyobj * pyobj * pyobj * pyobj))
    (model : option Model.t) (train test : DataFrame) (target_column : string)
    (serializer : option Serializer.t) (maximum_rows_for_test : Z)
    (feature_metadata : option FeatureMetadata.t) (w w' : world) :
  run (__init__ float_of_str process_categoricals model train test
         target_column serializer maximum_rows_for_test feature_metadata) w
  = (Ok tt, w') ->
  leaves_tables model ->
  consistent_instance model test target_column w'.
Proof.
  intros H Hpure.
  apply init_anatomy in H
    as (wv & fm & ranges & cats & wc & cohorts
        & Hv & Hfm & Hb & Hr & Hc & Hcache & Hgen & ->).
  split; [eapply constructed_attr; [discriminate..|exact Hcache|];
          unfold attr_is; rewrite lookup_with_attrs; reflexivity|].
  split.
  { unfold attr_is; simpl. rewrite lookup_insert_ne by discriminate.
    eapply table_when_cohorts_are_made; eassumption. }
  split; [eapply constructed_attr; [discriminate..|exact Hcache|];
          unfold attr_is; rewrite lookup_with_attrs; reflexivity|].
  split; [eapply constructed_attr; [discriminate..|exact Hcache|];
          unfold attr_is; rewrite lookup_with_attrs; exact Hb|].
  unfold attr_is; simpl. rewrite lookup_insert_ne by discriminate.
  destruct (cache_predictions_inv _ _ _ _ _
              (stored_features _ _ _ _ _ _ _ _)
              (stored_true_y _ _ _ _ _ _ _ _ _ Hb) Hcache)
    as [[_ ->]|(m & f & q & p1 & p2 & -> & Hf & Hq & _ & _ & ->)].
  - rewrite !lookup_with_attrs. reflexivity.
  - rewrite lookup_after_cache_features.
    rewrite (Hpure m f _ eq_refl (or_introl Hf)).
    rewrite (Hpure m q _ eq_refl (or_intror Hq)). reflexivity.
Qed.

Lemma construction_makes_a_consistent_instance_witness :
  consistent_instance (Some Examples.quantile_model) Examples.sales "sales"
    (snd constructed_sales).
Proof.
  apply (construction_makes_a_consistent_instance Examples.no_float_strings
           Examples.no_categoricals (Some Examples.quantile_model)
           Examples.sales Examples.sales "sales" None 5000
           (Some Examples.metadata) empty_world (snd constructed_sales)).
  - vm_compute. reflexivity.
  - apply quantile_model_leaves_tables.
Defined.




(** ** Feature ranges of a column that is not there *)

Lemma index_of_None c (l : list string) : c ∉ l -> index_of c l = None.
Proof.
  induction l as [|x l IH]; [reflexivity|]. intros Hn.
  apply not_elem_of_cons in Hn as [Hne Hn]. simpl.
  destruct (decide (x = c)); [congruence|]. rewrite (IH Hn). reflexivity.
Qed.

Lemma feature_range_missing float_of_str test cats tc col :
  col ∉ columns test ->
  feature_range float_of_str test cats tc col = Raise (KeyError col).
Proof.
  intros Hn. unfold feature_range, getitem. rewrite (index_of_None _ _ Hn).
  destruct (decide (col ∈ cats)); [reflexivity|].
  destruct (decide (Some col = tc)); reflexivity.
Qed.

(** X20.  A feature column that the test set does not have makes the
    summary of the features raise [KeyError] on its name, when the
    columns before it could be summarised; nothing is returned for the
    columns before it. *)
Theorem missing_feature_column_is_a_key_error
    (float_of_str : string -> option pyfloat)
    (test : DataFrame) (categorical_features : list string)
    (before : list string) (col : string) (after : list string)
    (time_column_name : option string) :
  Forall (fun c => is_ok (feature_range float_of_str test categorical_features
                            time_column_name c) = true) before ->
  col ∉ columns test ->
  _get_feature_ranges float_of_str test categorical_features
    (before ++ col :: after) time_column_name
  = Raise (KeyError col).
Proof.
  intros Hbefore Hn. unfold _get_feature_ranges.
  induction Hbefore as [|c before Hc _ IH].
  - simpl. rewrite (feature_range_missing _ _ _ _ _ Hn). reflexivity.
  - change (mapM ?f ((c :: before) ++ ?k))
      with (y ← f c; r ← mapM f (before ++ k); mret (y :: r)).
    cbv beta.
    destruct (feature_range float_of_str test categorical_features
                time_column_name c) as [r|e]; [|discriminate].
    cbn [mbind res_bind]. rewrite IH. reflexivity.
Qed.

Lemma missing_feature_column_is_a_key_error_witness :
  _get_feature_ranges Examples.no_float_strings Examples.sales []
    (["store_id"] ++ "price" :: ["sales"]) (Some "date")
  = Raise (KeyError "price").
Proof.
  apply (missing_feature_column_is_a_key_error Examples.no_float_strings
           Examples.sales [] ["store_id"] "price" ["sales"] (Some "date")).
  - repeat constructor.
  - compute_done.
Defined.

(** ** What saving leaves of the instance *)

(** X21.  Saving and the generation of the cohorts do not change the
    instance: [_save_predictions], [_save_metadata] and
    [_generate_time_series_cohorts] leave every attribute as it is,
    whether they return or raise. *)
Theorem saving_leaves_the_instance_alone (path : string) :
  leaves attrs (_save_predictions path)
  /\ leaves attrs (_save_metadata path)
  /\ leaves attrs _generate_time_series_cohorts.
Proof.
  split; [|split].
  - unfold _save_predictions. leaves_with fail.
  - unfold _save_metadata. leaves_with fail.
  - unfold _generate_time_series_cohorts. leaves_with fail.
Qed.
